(** * AMD SVM virtual PMU (xen/arch/x86/hvm/svm/vpmu.c)

    A shallow embedding of the AMD back end of Xen's PMU virtualisation and
    the properties of its register-access state machine, its context
    load/save hooks and its per-guest initialisation. *)

From Stdlib Require Import ZArith List Bool Lia.
From stdpp Require Import base numbers list relations strings.
Import ListNotations.

Local Open Scope Z_scope.

(** ** Constants the translation unit takes from headers *)

(** Modelled from the spec: the register identifiers of
    [asm/msr-index.h], which is not part of the translation unit.  The spec
    fixes a legacy bank of four counter/control pairs and an extended bank of
    six pairs; the numbers are the architectural addresses of these
    registers (legacy controls, then legacy counters, then the extended bank
    with controls on even and counters on odd addresses). *)
Module Msr.
Definition MSR_K7_EVNTSEL0 : Z := 0xC0010000.
Definition MSR_K7_EVNTSEL1 : Z := 0xC0010001.
Definition MSR_K7_EVNTSEL2 : Z := 0xC0010002.
Definition MSR_K7_EVNTSEL3 : Z := 0xC0010003.
Definition MSR_K7_PERFCTR0 : Z := 0xC0010004.
Definition MSR_K7_PERFCTR1 : Z := 0xC0010005.
Definition MSR_K7_PERFCTR2 : Z := 0xC0010006.
Definition MSR_K7_PERFCTR3 : Z := 0xC0010007.
Definition MSR_AMD_FAM15H_EVNTSEL0 : Z := 0xC0010200.
Definition MSR_AMD_FAM15H_PERFCTR0 : Z := 0xC0010201.
Definition MSR_AMD_FAM15H_EVNTSEL1 : Z := 0xC0010202.
Definition MSR_AMD_FAM15H_PERFCTR1 : Z := 0xC0010203.
Definition MSR_AMD_FAM15H_EVNTSEL2 : Z := 0xC0010204.
Definition MSR_AMD_FAM15H_PERFCTR2 : Z := 0xC0010205.
Definition MSR_AMD_FAM15H_EVNTSEL3 : Z := 0xC0010206.
Definition MSR_AMD_FAM15H_PERFCTR3 : Z := 0xC0010207.
Definition MSR_AMD_FAM15H_EVNTSEL4 : Z := 0xC0010208.
Definition MSR_AMD_FAM15H_PERFCTR4 : Z := 0xC0010209.
Definition MSR_AMD_FAM15H_EVNTSEL5 : Z := 0xC001020A.
Definition MSR_AMD_FAM15H_PERFCTR5 : Z := 0xC001020B.
End Msr.
Import Msr.

(** Modelled from the spec: the register classes and the state flags of
    [asm/hvm/vpmu.h] (not part of the translation unit).  The flags are
    independent bits of one word, as the spec's state machine requires. *)
Module Vpmu.
Definition MSR_TYPE_COUNTER : Z := 0.
Definition MSR_TYPE_CTRL : Z := 1.

Definition VPMU_CONTEXT_ALLOCATED : Z := 0x1.
Definition VPMU_CONTEXT_LOADED : Z := 0x2.
Definition VPMU_RUNNING : Z := 0x4.
Definition VPMU_CONTEXT_SAVE : Z := 0x8.
Definition VPMU_FROZEN : Z := 0x10.
Definition VPMU_PASSIVE_DOMAIN_ALLOCATED : Z := 0x20.

(** [vpmu_is_set], [vpmu_set], [vpmu_reset], [vpmu_clear] on the flag word. *)
Definition flag_is_set (f x : Z) : bool := negb (Z.land f x =? 0).
Definition flag_set (f x : Z) : Z := Z.lor f x.
Definition flag_reset (f x : Z) : Z := Z.land f (Z.lnot x).
Definition flag_clear : Z := 0.
End Vpmu.
Import Vpmu.

(** Modelled from the spec: the error numbers of [xen/errno.h] and the
    mode switch of [public/pmu.h]; both headers are outside the translation
    unit.  An error is reported as the negated number. *)
Module Errno.
Definition EINVAL : Z := 22.
Definition ENOMEM : Z := 12.
Definition ENOSPC : Z := 28.
Definition XENPMU_MODE_OFF : Z := 0.
End Errno.
Import Errno.

(** ** Bits of an event-select value *)

Definition MSR_F10H_EVNTSEL_GO_SHIFT : Z := 40.
Definition MSR_F10H_EVNTSEL_EN_SHIFT : Z := 22.
Definition MSR_F10H_COUNTER_LENGTH : Z := 48.

Definition is_guest_mode (msr : Z) : bool :=
  negb (Z.land msr (Z.shiftl 1 MSR_F10H_EVNTSEL_GO_SHIFT) =? 0).
Definition is_pmu_enabled (msr : Z) : bool :=
  negb (Z.land msr (Z.shiftl 1 MSR_F10H_EVNTSEL_EN_SHIFT) =? 0).
Definition set_guest_mode (msr : Z) : Z :=
  Z.lor msr (Z.shiftl 1 MSR_F10H_EVNTSEL_GO_SHIFT).

(** ** The register tables *)

Definition F10H_NUM_COUNTERS : nat := 4.
Definition F15H_NUM_COUNTERS : nat := 6.

Definition AMD_F10H_COUNTERS : list Z :=
  [MSR_K7_PERFCTR0; MSR_K7_PERFCTR1; MSR_K7_PERFCTR2; MSR_K7_PERFCTR3].

Definition AMD_F10H_CTRLS : list Z :=
  [MSR_K7_EVNTSEL0; MSR_K7_EVNTSEL1; MSR_K7_EVNTSEL2; MSR_K7_EVNTSEL3].

Definition AMD_F15H_COUNTERS : list Z :=
  [MSR_AMD_FAM15H_PERFCTR0; MSR_AMD_FAM15H_PERFCTR1; MSR_AMD_FAM15H_PERFCTR2;
   MSR_AMD_FAM15H_PERFCTR3; MSR_AMD_FAM15H_PERFCTR4; MSR_AMD_FAM15H_PERFCTR5].

Definition AMD_F15H_CTRLS : list Z :=
  [MSR_AMD_FAM15H_EVNTSEL0; MSR_AMD_FAM15H_EVNTSEL1; MSR_AMD_FAM15H_EVNTSEL2;
   MSR_AMD_FAM15H_EVNTSEL3; MSR_AMD_FAM15H_EVNTSEL4; MSR_AMD_FAM15H_EVNTSEL5].

Definition get_pmu_reg_type (addr : Z) : Z :=
  if (MSR_K7_EVNTSEL0 <=? addr) && (addr <=? MSR_K7_EVNTSEL3) then MSR_TYPE_CTRL
  else if (MSR_K7_PERFCTR0 <=? addr) && (addr <=? MSR_K7_PERFCTR3)
  then MSR_TYPE_COUNTER
  else if (MSR_AMD_FAM15H_EVNTSEL0 <=? addr) && (addr <=? MSR_AMD_FAM15H_PERFCTR5)
  then (if negb (Z.land addr 1 =? 0) then MSR_TYPE_COUNTER else MSR_TYPE_CTRL)
  else -1.

Definition get_fam15h_addr (addr : Z) : Z :=
  if addr =? MSR_K7_PERFCTR0 then MSR_AMD_FAM15H_PERFCTR0
  else if addr =? MSR_K7_PERFCTR1 then MSR_AMD_FAM15H_PERFCTR1
  else if addr =? MSR_K7_PERFCTR2 then MSR_AMD_FAM15H_PERFCTR2
  else if addr =? MSR_K7_PERFCTR3 then MSR_AMD_FAM15H_PERFCTR3
  else if addr =? MSR_K7_EVNTSEL0 then MSR_AMD_FAM15H_EVNTSEL0
  else if addr =? MSR_K7_EVNTSEL1 then MSR_AMD_FAM15H_EVNTSEL1
  else if addr =? MSR_K7_EVNTSEL2 then MSR_AMD_FAM15H_EVNTSEL2
  else if addr =? MSR_K7_EVNTSEL3 then MSR_AMD_FAM15H_EVNTSEL3
  else addr.

(** ** State *)

(** The file-scope statics [num_counters], [counters], [ctrls] and
    [k7_counters_mirrored]; a table pointer is [None] when it is NULL. *)
Record globals := mkGlobals {
  num_counters : nat;
  counters : option (list Z);
  ctrls : option (list Z);
  k7_counters_mirrored : bool
}.

(** The statics before [amd_vpmu_init] runs (zero-initialised). *)
Definition globals_boot : globals := mkGlobals 0 None None false.

(** The two register arrays that [vpmu_reg_pointer] finds behind a
    [struct xen_pmu_amd_ctxt]. *)
Record xen_pmu_amd_ctxt := mkCtxt {
  counter_regs : list Z;
  ctrl_regs : list Z
}.

Inductive arch_vpmu_ops := amd_vpmu_ops.

(** [struct vpmu_struct]: [context] is [None] for a NULL (or freed) pointer,
    [priv_context] is the pointer value used as the MSR-bitmap flag. *)
Record vpmu_struct := mkVpmu {
  flags : Z;
  context : option xen_pmu_amd_ctxt;
  priv_context : Z;
  vpmu_ops : option arch_vpmu_ops
}.

Inductive msr_intercept := MSR_INTERCEPT_NONE | MSR_INTERCEPT_READ
                         | MSR_INTERCEPT_WRITE | MSR_INTERCEPT_RW.

Inductive pmu_owner := PMU_OWNER_XENOPROF | PMU_OWNER_HVM.

#[global] Instance pmu_owner_eq_dec : EqDecision pmu_owner.
Proof. solve_decision. Defined.

(** What one virtual CPU's handlers can see and change: the statics, the
    vCPU's [vpmu_struct], whether it is an HVM vCPU, the hardware register
    file, the vCPU's intercept setting per register, and the holder of the
    ownership token. *)
Record machine := mkMachine {
  glob : globals;
  vpmu : vpmu_struct;
  is_hvm : bool;
  msrs : Z -> Z;
  intercepts : Z -> msr_intercept;
  token : option pmu_owner
}.

(** Calls that leave the translation unit. *)
Inductive event :=
| EvWrmsr (addr val : Z)
| EvRdmsr (addr val : Z)
| EvIntercept (addr : Z) (mode : msr_intercept)
| EvAcquire (who : pmu_owner) (granted : bool)
| EvRelease (who : pmu_owner)
| EvFree.

Definition upd {A} (f : Z -> A) (k : Z) (v : A) : Z -> A :=
  fun a => if a =? k then v else f a.

Definition set_vpmu (m : machine) (v : vpmu_struct) : machine :=
  mkMachine (glob m) v (is_hvm m) (msrs m) (intercepts m) (token m).
Definition set_msrs (m : machine) (h : Z -> Z) : machine :=
  mkMachine (glob m) (vpmu m) (is_hvm m) h (intercepts m) (token m).
Definition set_intercepts (m : machine) (b : Z -> msr_intercept) : machine :=
  mkMachine (glob m) (vpmu m) (is_hvm m) (msrs m) b (token m).
Definition set_token (m : machine) (o : option pmu_owner) : machine :=
  mkMachine (glob m) (vpmu m) (is_hvm m) (msrs m) (intercepts m) o.

Definition set_flags (v : vpmu_struct) (f : Z) : vpmu_struct :=
  mkVpmu f (context v) (priv_context v) (vpmu_ops v).
Definition set_context (v : vpmu_struct) (c : option xen_pmu_amd_ctxt) : vpmu_struct :=
  mkVpmu (flags v) c (priv_context v) (vpmu_ops v).
Definition set_priv_context (v : vpmu_struct) (p : Z) : vpmu_struct :=
  mkVpmu (flags v) (context v) p (vpmu_ops v).
Definition set_vpmu_ops (v : vpmu_struct) (o : option arch_vpmu_ops) : vpmu_struct :=
  mkVpmu (flags v) (context v) (priv_context v) o.

(** ** A monad for the handlers

    A handler runs on a machine and either faults (NULL or out-of-range
    dereference, failed assertion) or yields a result, the machine after it
    and the external calls it made, in order. *)
Definition M (A : Type) : Type := machine -> option (A * machine * list event).

Definition ret {A} (a : A) : M A := fun m => Some (a, m, []).
Definition fault {A} : M A := fun _ => None.
Definition bind {A B} (x : M A) (f : A -> M B) : M B :=
  fun m => match x m with
           | None => None
           | Some (a, m1, t1) =>
               match f a m1 with
               | None => None
               | Some (b, m2, t2) => Some (b, m2, t1 ++ t2)
               end
           end.

Declare Scope vpmu_scope.
Delimit Scope vpmu_scope with vpmu.
Notation "x <- c1 ;; c2" := (bind c1 (fun x => c2))
  (at level 100, c1 at next level, right associativity) : vpmu_scope.
Notation "c1 ;;; c2" := (bind c1 (fun _ => c2))
  (at level 100, right associativity) : vpmu_scope.
Local Open Scope vpmu_scope.

Definition gets {A} (f : machine -> A) : M A := fun m => Some (f m, m, []).
Definition modify (f : machine -> machine) : M unit := fun m => Some (tt, f m, []).
Definition emit (e : event) : M unit := fun m => Some (tt, m, [e]).
Definition of_option {A} (o : option A) : M A :=
  match o with Some a => ret a | None => fault end.

(** [for ( i = 0; i < n; i++ ) body(i)] runs [for_each (seq 0 n) body]. *)
Fixpoint for_each (l : list nat) (body : nat -> M unit) : M unit :=
  match l with
  | [] => ret tt
  | i :: rest => body i ;;; for_each rest body
  end.

Definition for_loop (n : nat) (body : nat -> M unit) : M unit :=
  for_each (seq 0 n) body.

(** ** Primitives outside the translation unit *)

(** [wrmsrl] and [rdmsrl]: the hardware register file. *)
Definition wrmsrl (addr val : Z) : M unit :=
  fun m => Some (tt, set_msrs m (upd (msrs m) addr val), [EvWrmsr addr val]).
Definition rdmsrl (addr : Z) : M Z :=
  fun m => Some (msrs m addr, m, [EvRdmsr addr (msrs m addr)]).

(** Modelled from the spec: [svm_intercept_msr] of the SVM code (outside
    the translation unit) records, per register, whether guest reads and
    writes trap. *)
Definition svm_intercept_msr (addr : Z) (mode : msr_intercept) : M unit :=
  fun m => Some (tt, set_intercepts m (upd (intercepts m) addr mode),
                 [EvIntercept addr mode]).

(** Modelled from the spec: the ownership arbiter ([acquire_pmu_ownership]
    and [release_pmu_ownship] are outside the translation unit).  Acquiring
    succeeds and claims the token unless another category holds it, and is
    without side effect when it is denied; releasing gives up the token the
    caller holds. *)
Definition acquire_pmu_ownership (who : pmu_owner) : M bool :=
  fun m => match token m with
           | None => Some (true, set_token m (Some who), [EvAcquire who true])
           | Some o => if decide (o = who)
                       then Some (true, m, [EvAcquire who true])
                       else Some (false, m, [EvAcquire who false])
           end.
Definition release_pmu_ownship (who : pmu_owner) : M unit :=
  fun m => match token m with
           | Some o => if decide (o = who)
                       then Some (tt, set_token m None, [EvRelease who])
                       else Some (tt, m, [EvRelease who])
           | None => Some (tt, m, [EvRelease who])
           end.

Definition has_hvm_container_vcpu : M bool := gets is_hvm.

Definition vpmu_is_set (x : Z) : M bool :=
  gets (fun m => flag_is_set (flags (vpmu m)) x).
Definition vpmu_set (x : Z) : M unit :=
  modify (fun m => set_vpmu m (set_flags (vpmu m) (flag_set (flags (vpmu m)) x))).
Definition vpmu_reset (x : Z) : M unit :=
  modify (fun m => set_vpmu m (set_flags (vpmu m) (flag_reset (flags (vpmu m)) x))).
Definition vpmu_clear : M unit :=
  modify (fun m => set_vpmu m (set_flags (vpmu m) flag_clear)).

(** The private context pointer doubles as the flag for the MSR bitmap. *)
Definition msr_bitmap_on : M unit :=
  modify (fun m => set_vpmu m (set_priv_context (vpmu m) (-1))).
Definition msr_bitmap_off : M unit :=
  modify (fun m => set_vpmu m (set_priv_context (vpmu m) 0)).
Definition is_msr_bitmap_on : M bool :=
  gets (fun m => negb (priv_context (vpmu m) =? 0)).

(** ** Memory accesses: tables and shadow arrays *)

Definition table_at (t : option (list Z)) (i : nat) : option Z :=
  match t with Some l => l !! i | None => None end.

Definition counters_at (i : nat) : M Z :=
  fun m => of_option (table_at (counters (glob m)) i) m.
Definition ctrls_at (i : nat) : M Z :=
  fun m => of_option (table_at (ctrls (glob m)) i) m.

(** [vpmu->context] followed through [vpmu_reg_pointer]. *)
Definition get_context : M xen_pmu_amd_ctxt :=
  fun m => of_option (context (vpmu m)) m.

Definition counter_reg_at (i : nat) : M Z :=
  c <- get_context ;; of_option (counter_regs c !! i).
Definition ctrl_reg_at (i : nat) : M Z :=
  c <- get_context ;; of_option (ctrl_regs c !! i).

Definition put_context (c : xen_pmu_amd_ctxt) : M unit :=
  modify (fun m => set_vpmu m (set_context (vpmu m) (Some c))).

Definition store_counter_reg (i : nat) (v : Z) : M unit :=
  c <- get_context ;;
  if decide (i < length (counter_regs c))%nat
  then put_context (mkCtxt (<[i := v]> (counter_regs c)) (ctrl_regs c))
  else fault.
Definition store_ctrl_reg (i : nat) (v : Z) : M unit :=
  c <- get_context ;;
  if decide (i < length (ctrl_regs c))%nat
  then put_context (mkCtxt (counter_regs c) (<[i := v]> (ctrl_regs c)))
  else fault.

Definition bank_loop (body : nat -> M unit) : M unit :=
  n <- gets (fun m => num_counters (glob m)) ;; for_loop n body.

(** ** The back end *)

Definition amd_vpmu_set_msr_bitmap : M unit :=
  bank_loop (fun i =>
    c <- counters_at i ;; svm_intercept_msr c MSR_INTERCEPT_NONE ;;;
    t <- ctrls_at i ;; svm_intercept_msr t MSR_INTERCEPT_WRITE) ;;;
  msr_bitmap_on.

Definition amd_vpmu_unset_msr_bitmap : M unit :=
  bank_loop (fun i =>
    c <- counters_at i ;; svm_intercept_msr c MSR_INTERCEPT_RW ;;;
    t <- ctrls_at i ;; svm_intercept_msr t MSR_INTERCEPT_RW) ;;;
  msr_bitmap_off.

Definition amd_vpmu_do_interrupt : M Z := ret 1.

Definition context_load : M unit :=
  get_context ;;;
  bank_loop (fun i =>
    c <- counters_at i ;; v <- counter_reg_at i ;; wrmsrl c v ;;;
    t <- ctrls_at i ;; w <- ctrl_reg_at i ;; wrmsrl t w).

Definition amd_vpmu_load : M unit :=
  get_context ;;;
  vpmu_reset VPMU_FROZEN ;;;
  loaded <- vpmu_is_set VPMU_CONTEXT_LOADED ;;
  if loaded
  then bank_loop (fun i => t <- ctrls_at i ;; w <- ctrl_reg_at i ;; wrmsrl t w)
  else vpmu_set VPMU_CONTEXT_LOADED ;;; context_load.

Definition context_save : M unit :=
  get_context ;;;
  bank_loop (fun i =>
    c <- counters_at i ;; v <- rdmsrl c ;; store_counter_reg i v).

Definition amd_vpmu_save : M Z :=
  save <- vpmu_is_set VPMU_CONTEXT_SAVE ;;
  if negb save
  then vpmu_set VPMU_FROZEN ;;;
       bank_loop (fun i => t <- ctrls_at i ;; wrmsrl t 0) ;;;
       ret 0
  else
    loaded <- vpmu_is_set VPMU_CONTEXT_LOADED ;;
    if negb loaded then ret 0
    else
      context_save ;;;
      running <- vpmu_is_set VPMU_RUNNING ;;
      hvm <- has_hvm_container_vcpu ;;
      bitmap <- is_msr_bitmap_on ;;
      (if negb running && hvm && bitmap
       then amd_vpmu_unset_msr_bitmap else ret tt) ;;;
      ret 1.

(** The search loop of [context_update]; it returns at the first match. *)
Fixpoint context_update_loop (msr msr_content : Z) (l : list nat) : M unit :=
  match l with
  | [] => ret tt
  | i :: rest =>
      t <- ctrls_at i ;;
      if msr =? t then store_ctrl_reg i msr_content
      else
        c <- counters_at i ;;
        if msr =? c then store_counter_reg i msr_content
        else context_update_loop msr msr_content rest
  end.

Definition context_update (msr msr_content : Z) : M unit :=
  get_context ;;;
  mirrored <- gets (fun m => k7_counters_mirrored (glob m)) ;;
  let msr := if mirrored && ((MSR_K7_EVNTSEL0 <=? msr) && (msr <=? MSR_K7_PERFCTR3))
             then get_fam15h_addr msr else msr in
  n <- gets (fun m => num_counters (glob m)) ;;
  context_update_loop msr msr_content (seq 0 n).

Definition ASSERT (b : bool) : M unit := if b then ret tt else fault.

(** The reload that both trap handlers perform on a context that is not
    loaded or is frozen. *)
Definition reload_if_stale : M unit :=
  loaded <- vpmu_is_set VPMU_CONTEXT_LOADED ;;
  frozen <- vpmu_is_set VPMU_FROZEN ;;
  if negb loaded || frozen
  then context_load ;;; vpmu_set VPMU_CONTEXT_LOADED ;;; vpmu_reset VPMU_FROZEN
  else ret tt.

(** The block of [amd_vpmu_do_wrmsr] headed "stop saving & restore if guest
    stops first counter". *)
Definition stop_counting (msr msr_content : Z) : M unit :=
  running <- vpmu_is_set VPMU_RUNNING ;;
  if (get_pmu_reg_type msr =? MSR_TYPE_CTRL) && negb (is_pmu_enabled msr_content)
     && running
  then
    vpmu_reset VPMU_RUNNING ;;;
    hvm <- has_hvm_container_vcpu ;;
    bitmap <- is_msr_bitmap_on ;;
    (if hvm && bitmap then amd_vpmu_unset_msr_bitmap else ret tt) ;;;
    release_pmu_ownship PMU_OWNER_HVM
  else ret tt.

(** [amd_vpmu_do_wrmsr] from that block to its end. *)
Definition do_wrmsr_commit (msr msr_content : Z) : M Z :=
  stop_counting msr msr_content ;;;
  reload_if_stale ;;;
  context_update msr msr_content ;;;
  wrmsrl msr msr_content ;;;
  ret 1.

Definition amd_vpmu_do_wrmsr (msr msr_content supported : Z) : M Z :=
  ASSERT (supported =? 0) ;;;
  hvm <- has_hvm_container_vcpu ;;
  let msr_content :=
    if hvm && (get_pmu_reg_type msr =? MSR_TYPE_CTRL) && negb (is_guest_mode msr_content)
    then set_guest_mode msr_content else msr_content in
  running <- vpmu_is_set VPMU_RUNNING ;;
  if (get_pmu_reg_type msr =? MSR_TYPE_CTRL) && is_pmu_enabled msr_content
     && negb running
  then
    granted <- acquire_pmu_ownership PMU_OWNER_HVM ;;
    if negb granted then ret 1
    else
      vpmu_set VPMU_RUNNING ;;;
      bitmap <- is_msr_bitmap_on ;;
      (if hvm && bitmap then amd_vpmu_set_msr_bitmap else ret tt) ;;;
      do_wrmsr_commit msr msr_content
  else do_wrmsr_commit msr msr_content.

(** The result is the returned [int] and the value stored through
    [msr_content]. *)
Definition amd_vpmu_do_rdmsr (msr : Z) : M (Z * Z) :=
  reload_if_stale ;;;
  v <- rdmsrl msr ;;
  ret (1, v).

Definition xfree_context : M unit :=
  modify (fun m => set_vpmu m (set_context (vpmu m) None)) ;;; emit EvFree.

Definition amd_vpmu_destroy : M unit :=
  hvm <- has_hvm_container_vcpu ;;
  bitmap <- is_msr_bitmap_on ;;
  (if hvm && bitmap then amd_vpmu_unset_msr_bitmap else ret tt) ;;;
  xfree_context ;;;
  running <- vpmu_is_set VPMU_RUNNING ;;
  (if running then release_pmu_ownship PMU_OWNER_HVM else ret tt) ;;;
  vpmu_clear.

(** [vpmu_mode] is the front end's mode switch; [alloc_ok] tells whether
    [xzalloc_bytes] returned memory. *)
Definition svm_vpmu_initialise (vpmu_mode : Z) (alloc_ok : bool) : M Z :=
  if vpmu_mode =? XENPMU_MODE_OFF then ret 0
  else
    cs <- gets (fun m => counters (glob m)) ;;
    match cs with
    | None => ret (- EINVAL)
    | Some _ =>
        if negb alloc_ok then ret (- ENOMEM)
        else
          n <- gets (fun m => num_counters (glob m)) ;;
          modify (fun m => set_vpmu m
            (set_context (vpmu m) (Some (mkCtxt (replicate n 0) (replicate n 0))))) ;;;
          modify (fun m => set_vpmu m (set_priv_context (vpmu m) 0)) ;;;
          modify (fun m => set_vpmu m (set_vpmu_ops (vpmu m) (Some amd_vpmu_ops))) ;;;
          vpmu_set VPMU_CONTEXT_ALLOCATED ;;;
          ret 0
    end.

(** [x86] is [current_cpu_data.x86]; [sizeof_xen_pmu_data] and [page_size]
    are [sizeof(struct xen_pmu_data)] and [PAGE_SIZE]. *)
Definition amd_vpmu_init (x86 sizeof_xen_pmu_data page_size : Z) (g : globals)
  : Z * globals :=
  let selected :=
    if x86 =? 0x15
    then Some (mkGlobals F15H_NUM_COUNTERS (Some AMD_F15H_COUNTERS)
                         (Some AMD_F15H_CTRLS) true)
    else if (x86 =? 0x10) || (x86 =? 0x12) || (x86 =? 0x14) || (x86 =? 0x16)
    then Some (mkGlobals F10H_NUM_COUNTERS (Some AMD_F10H_COUNTERS)
                         (Some AMD_F10H_CTRLS) false)
    else None in
  match selected with
  | None => (- EINVAL, g)
  | Some g' =>
      if sizeof_xen_pmu_data + 2 * 8 * Z.of_nat (num_counters g') >? page_size
      then (- ENOSPC, mkGlobals 0 None None (k7_counters_mirrored g'))
      else (0, g')
  end.

(** ** Describing a run

    What the loops over the bank do, stated on the machine they start from. *)

Definition running (m : machine) : bool :=
  flag_is_set (flags (vpmu m)) VPMU_RUNNING.
Definition loaded (m : machine) : bool :=
  flag_is_set (flags (vpmu m)) VPMU_CONTEXT_LOADED.
Definition frozen (m : machine) : bool :=
  flag_is_set (flags (vpmu m)) VPMU_FROZEN.
Definition save_requested (m : machine) : bool :=
  flag_is_set (flags (vpmu m)) VPMU_CONTEXT_SAVE.
Definition bitmap_on (m : machine) : bool :=
  negb (priv_context (vpmu m) =? 0).

Definition bank (m : machine) : list nat := seq 0 (num_counters (glob m)).

Definition counter_addr (m : machine) (i : nat) : Z :=
  default 0 (table_at (counters (glob m)) i).
Definition ctrl_addr (m : machine) (i : nat) : Z :=
  default 0 (table_at (ctrls (glob m)) i).

Definition shadow_counters (m : machine) : list Z :=
  match context (vpmu m) with Some c => counter_regs c | None => [] end.
Definition shadow_ctrls (m : machine) : list Z :=
  match context (vpmu m) with Some c => ctrl_regs c | None => [] end.
Definition shadow_counter (m : machine) (i : nat) : Z :=
  default 0 (shadow_counters m !! i).
Definition shadow_ctrl (m : machine) (i : nat) : Z :=
  default 0 (shadow_ctrls m !! i).

(** Tables and shadow arrays are present and have [num_counters] entries. *)
Definition table_ok (n : nat) (t : option (list Z)) : bool :=
  match t with Some l => Nat.eqb (length l) n | None => false end.
Definition layout_ok (g : globals) : bool :=
  table_ok (num_counters g) (counters g) && table_ok (num_counters g) (ctrls g).
Definition context_ok (m : machine) : bool :=
  match context (vpmu m) with
  | Some c => Nat.eqb (length (counter_regs c)) (num_counters (glob m))
              && Nat.eqb (length (ctrl_regs c)) (num_counters (glob m))
  | None => false
  end.
Definition machine_ok (m : machine) : bool :=
  layout_ok (glob m) && context_ok m.

Definition apply_writes (ws : list (Z * Z)) (h : Z -> Z) : Z -> Z :=
  fold_left (fun h w => upd h (fst w) (snd w)) ws h.
Definition write_events (ws : list (Z * Z)) : list event :=
  map (fun w => EvWrmsr (fst w) (snd w)) ws.

Definition apply_intercepts (ws : list (Z * msr_intercept))
  (b : Z -> msr_intercept) : Z -> msr_intercept :=
  fold_left (fun b w => upd b (fst w) (snd w)) ws b.
Definition intercept_events (ws : list (Z * msr_intercept)) : list event :=
  map (fun w => EvIntercept (fst w) (snd w)) ws.

Definition full_load_writes (m : machine) : list (Z * Z) :=
  flat_map (fun i => [(counter_addr m i, shadow_counter m i);
                      (ctrl_addr m i, shadow_ctrl m i)]) (bank m).
Definition ctrl_load_writes (m : machine) : list (Z * Z) :=
  flat_map (fun i => [(ctrl_addr m i, shadow_ctrl m i)]) (bank m).
Definition freeze_writes (m : machine) : list (Z * Z) :=
  flat_map (fun i => [(ctrl_addr m i, 0)]) (bank m).

Definition fast_path_intercepts (m : machine) : list (Z * msr_intercept) :=
  flat_map (fun i => [(counter_addr m i, MSR_INTERCEPT_NONE);
                      (ctrl_addr m i, MSR_INTERCEPT_WRITE)]) (bank m).
Definition full_trap_intercepts (m : machine) : list (Z * msr_intercept) :=
  flat_map (fun i => [(counter_addr m i, MSR_INTERCEPT_RW);
                      (ctrl_addr m i, MSR_INTERCEPT_RW)]) (bank m).

(** The counter shadow after [context_save] has read the registers of the
    indices [l] from the register file [h]. *)
Definition save_counters (h : Z -> Z) (addr : nat -> Z) (l : list nat)
  (cr : list Z) : list Z :=
  fold_left (fun cr i => <[i := h (addr i)]> cr) l cr.
Definition read_events (h : Z -> Z) (addr : nat -> Z) (l : list nat) : list event :=
  flat_map (fun i => [EvRdmsr (addr i) (h (addr i))]) l.

(** The entry that the search of [context_update] stops at: [inl i] for
    control [i], [inr i] for counter [i]. *)
Fixpoint find_reg (ct cs : nat -> Z) (msr : Z) (l : list nat)
  : option (nat + nat) :=
  match l with
  | [] => None
  | i :: rest =>
      if msr =? ct i then Some (inl i)
      else if msr =? cs i then Some (inr i)
      else find_reg ct cs msr rest
  end.

(** The address [context_update] searches for. *)
Definition redirect (m : machine) (msr : Z) : Z :=
  if k7_counters_mirrored (glob m)
     && ((MSR_K7_EVNTSEL0 <=? msr) && (msr <=? MSR_K7_PERFCTR3))
  then get_fam15h_addr msr else msr.

Definition matched_reg (m : machine) (msr : Z) : option (nat + nat) :=
  find_reg (ctrl_addr m) (counter_addr m) (redirect m msr) (bank m).

Definition set_shadow (m : machine) (cr tr : list Z) : machine :=
  set_vpmu m (set_context (vpmu m) (Some (mkCtxt cr tr))).

(** The machine after the shadow entry [r] has taken the value [v]. *)
Definition update_shadow (m : machine) (r : option (nat + nat)) (v : Z)
  : machine :=
  match r with
  | None => m
  | Some (inl i) => set_shadow m (shadow_counters m) (<[i := v]> (shadow_ctrls m))
  | Some (inr i) => set_shadow m (<[i := v]> (shadow_counters m)) (shadow_ctrls m)
  end.

(** The address occurs in the table. *)
Definition in_table (t : option (list Z)) (a : Z) : Prop :=
  match t with Some l => In a l | None => False end.

(** The value [amd_vpmu_do_wrmsr] goes on with after its first step. *)
Definition forced_value (m : machine) (msr msr_content : Z) : Z :=
  if is_hvm m && (get_pmu_reg_type msr =? MSR_TYPE_CTRL)
     && negb (is_guest_mode msr_content)
  then set_guest_mode msr_content else msr_content.

(** The write is one that asks for the ownership token. *)
Definition first_enable (m : machine) (msr msr_content : Z) : bool :=
  (get_pmu_reg_type msr =? MSR_TYPE_CTRL) && is_pmu_enabled msr_content
  && negb (running m).

(** Whether the forced save takes the fast path down. *)
Definition save_unsets_bitmap (m : machine) : bool :=
  negb (running m) && is_hvm m && bitmap_on m.

(** The arbiter would turn this category down. *)
Definition denied (m : machine) (who : pmu_owner) : bool :=
  match token m with
  | Some o => negb (bool_decide (o = who))
  | None => false
  end.

(** ** Weakest preconditions

    [wp] asks for a result, [wlp] only constrains a result if there is one. *)
Definition wp {A} (x : M A) (m : machine)
  (Q : A -> machine -> list event -> Prop) : Prop :=
  match x m with Some (a, m', t) => Q a m' t | None => False end.
Definition wlp {A} (x : M A) (m : machine)
  (Q : A -> machine -> list event -> Prop) : Prop :=
  match x m with Some (a, m', t) => Q a m' t | None => True end.

(** The machine [m'] has the tables, the kind of vCPU and the shadow
    arrays of [m]. *)
Definition same_bank (m m' : machine) : Prop :=
  glob m' = glob m /\ is_hvm m' = is_hvm m
  /\ context (vpmu m') = context (vpmu m).

(** ** Frames

    A relation between the machine before a call, the machine after it and
    the calls made in between, which every run of [x] that returns
    satisfies.  A frame relation holds of doing nothing and composes along
    sequencing. *)
Definition framed (R : machine -> machine -> list event -> Prop) {A} (x : M A)
  : Prop :=
  forall m, wlp x m (fun _ m' t => R m m' t).

Class Frame (R : machine -> machine -> list event -> Prop) : Prop := {
  frame_refl : forall m, R m m [];
  frame_trans : forall m1 m2 m3 t1 t2,
    R m1 m2 t1 -> R m2 m3 t2 -> R m1 m3 (t1 ++ t2)
}.

(** The call neither touches the token nor [VPMU_RUNNING], and talks to
    the arbiter not at all. *)
Definition keeps_ownership (m m' : machine) (t : list event) : Prop :=
  token m' = token m /\ running m' = running m
  /\ forall who, ~ In (EvRelease who) t /\ forall g, ~ In (EvAcquire who g) t.

(** From a machine with the MSR bitmap off, the call leaves it off and
    changes no intercept setting. *)
Definition keeps_bitmap_off (m m' : machine) (t : list event) : Prop :=
  bitmap_on m = false ->
  bitmap_on m' = false /\ intercepts m' = intercepts m
  /\ forall a md, ~ In (EvIntercept a md) t.

(** [VPMU_RUNNING] is set only while the HVM category holds the token. *)
Definition running_owns (m : machine) : Prop :=
  running m = true -> token m = Some PMU_OWNER_HVM.

(** Projections of a run, for statements about concrete inputs. *)
Definition result_of {A} (r : option (A * machine * list event)) : option A :=
  match r with Some (a, _, _) => Some a | None => None end.
Definition events_of {A} (r : option (A * machine * list event)) : list event :=
  match r with Some (_, _, t) => t | None => [] end.
Definition machine_of {A} (r : option (A * machine * list event)) : option machine :=
  match r with Some (_, m, _) => Some m | None => None end.

(** ** The life of one virtual CPU's context

    A step is a call into the back end that returns, or an action of its
    surroundings: the front end changing flags other than [VPMU_RUNNING]
    (such as requesting a forced save), the guest or the host touching
    hardware registers, and another category of consumer acquiring or
    releasing the token according to the arbiter. *)
Inductive step : machine -> machine -> Prop :=
| step_wrmsr msr v s m r m' t :
    amd_vpmu_do_wrmsr msr v s m = Some (r, m', t) -> step m m'
| step_rdmsr msr m r m' t :
    amd_vpmu_do_rdmsr msr m = Some (r, m', t) -> step m m'
| step_load m r m' t :
    amd_vpmu_load m = Some (r, m', t) -> step m m'
| step_save m r m' t :
    amd_vpmu_save m = Some (r, m', t) -> step m m'
| step_destroy m r m' t :
    amd_vpmu_destroy m = Some (r, m', t) -> step m m'
| step_initialise mode alloc_ok m r m' t :
    svm_vpmu_initialise mode alloc_ok m = Some (r, m', t) -> step m m'
| step_front_end m f :
    flag_is_set f VPMU_RUNNING = running m ->
    step m (set_vpmu m (set_flags (vpmu m) f))
| step_hardware m h :
    step m (set_msrs m h)
| step_other_acquire who m r m' t :
    who <> PMU_OWNER_HVM ->
    acquire_pmu_ownership who m = Some (r, m', t) -> step m m'
| step_other_release who m r m' t :
    who <> PMU_OWNER_HVM -> token m = Some who ->
    release_pmu_ownship who m = Some (r, m', t) -> step m m'.

(** ** Sample machines *)

Definition layout_f10h : globals :=
  mkGlobals F10H_NUM_COUNTERS (Some AMD_F10H_COUNTERS) (Some AMD_F10H_CTRLS) false.
Definition layout_f15h : globals :=
  mkGlobals F15H_NUM_COUNTERS (Some AMD_F15H_COUNTERS) (Some AMD_F15H_CTRLS) true.

(** A virtual CPU before [svm_vpmu_initialise], on idle hardware with every
    register trapped. *)
Definition fresh_machine (g : globals) (hvm : bool) (tok : option pmu_owner)
  : machine :=
  mkMachine g (mkVpmu 0 None 0 None) hvm (fun _ => 0)
            (fun _ => MSR_INTERCEPT_RW) tok.

(** The same virtual CPU after a successful [svm_vpmu_initialise]. *)
Definition ready_machine (g : globals) (hvm : bool) (tok : option pmu_owner)
  : machine :=
  mkMachine g
    (mkVpmu VPMU_CONTEXT_ALLOCATED
       (Some (mkCtxt (replicate (num_counters g) 0) (replicate (num_counters g) 0)))
       0 (Some amd_vpmu_ops))
    hvm (fun _ => 0) (fun _ => MSR_INTERCEPT_RW) tok.

(** Its context loaded and some flags set by the front end. *)
Definition with_flags (m : machine) (f : Z) : machine :=
  set_vpmu m (set_flags (vpmu m) f).

(** Never loaded, a counter running, no forced save requested. *)
Definition sample_running : machine :=
  with_flags (ready_machine layout_f15h true (Some PMU_OWNER_HVM))
             (Z.lor VPMU_CONTEXT_ALLOCATED VPMU_RUNNING).

(** Never loaded, forced save requested. *)
Definition sample_save_unloaded : machine :=
  with_flags (ready_machine layout_f10h true None)
             (Z.lor VPMU_CONTEXT_ALLOCATED VPMU_CONTEXT_SAVE).

(** Loaded, forced save requested, no counter running. *)
Definition sample_save_loaded : machine :=
  with_flags (ready_machine layout_f10h true None)
             (Z.lor VPMU_CONTEXT_ALLOCATED
                    (Z.lor VPMU_CONTEXT_LOADED VPMU_CONTEXT_SAVE)).

(** The statics after the size check of [amd_vpmu_init] has failed. *)
Definition globals_too_big : globals :=
  snd (amd_vpmu_init 0x15 4090 4096 globals_boot).

(** Initialised, never loaded, frozen by an earlier save. *)
Definition sample_frozen : machine :=
  with_flags (ready_machine layout_f15h true None)
             (Z.lor VPMU_CONTEXT_ALLOCATED VPMU_FROZEN).

(** Before initialisation, on a host whose size check failed. *)
Definition sample_disabled : machine :=
  fresh_machine globals_too_big true None.

(** Initialised, the token held by another category. *)
Definition sample_contended : machine :=
  ready_machine layout_f10h true (Some PMU_OWNER_XENOPROF).

(** Family 15h, initialised and loaded. *)
Definition sample_f15h_loaded : machine :=
  with_flags (ready_machine layout_f15h true None)
             (Z.lor VPMU_CONTEXT_ALLOCATED VPMU_CONTEXT_LOADED).

(** Family 10h, initialised, the token free. *)
Definition sample_f10h : machine := ready_machine layout_f10h true None.

Definition EVNTSEL_ENABLE : Z := Z.shiftl 1 MSR_F10H_EVNTSEL_EN_SHIFT.
Definition EVNTSEL_GUEST_ONLY : Z := Z.shiftl 1 MSR_F10H_EVNTSEL_GO_SHIFT.

(** The legacy addresses of control [k] and counter [k], for [k] below 4. *)
Definition legacy_ctrl_alias (k : nat) : Z := MSR_K7_EVNTSEL0 + Z.of_nat k.
Definition legacy_counter_alias (k : nat) : Z := MSR_K7_PERFCTR0 + Z.of_nat k.

(** The write is processed: it either does not ask for the token or the
    arbiter grants it. *)
Definition accepted (m : machine) (msr msr_content : Z) : bool :=
  negb (first_enable m msr (forced_value m msr msr_content)
        && denied m PMU_OWNER_HVM).

(** ** The diagnostic dump

    [printk] is modelled by handing back what was printed, call by call:
    the format string and the values of its arguments. *)
Inductive printk_line := Printk (fmt : string) (args : list Z).

(** The flag names printed between "(" and "ALLOCATED)". *)
Definition dump_flag (f x : Z) (name : string) : list printk_line :=
  if flag_is_set f x then [Printk name []] else [].

Definition dump_flags (f : Z) : list printk_line :=
  dump_flag f VPMU_PASSIVE_DOMAIN_ALLOCATED "PASSIVE_DOMAIN_ALLOCATED, "
  ++ dump_flag f VPMU_FROZEN "FROZEN, "
  ++ dump_flag f VPMU_CONTEXT_SAVE "SAVE, "
  ++ dump_flag f VPMU_RUNNING "RUNNING, "
  ++ dump_flag f VPMU_CONTEXT_LOADED "LOADED, ".

Definition DUMP_ROW : string :=
  "      %#x: %#lx (%#lx in HW)    %#x: %#lx (%#lx in HW)\n".

(** The loop of [amd_vpmu_dump]: one row per register pair. *)
Fixpoint dump_bank (l : list nat) : M (list printk_line) :=
  match l with
  | [] => ret []
  | i :: rest =>
      t <- ctrls_at i ;;
      ctrl <- rdmsrl t ;;
      c <- counters_at i ;;
      cntr <- rdmsrl c ;;
      tr <- ctrl_reg_at i ;;
      cr <- counter_reg_at i ;;
      out <- dump_bank rest ;;
      ret (Printk DUMP_ROW [t; tr; ctrl; c; cr; cntr] :: out)
  end.

Definition amd_vpmu_dump : M (list printk_line) :=
  get_context ;;;
  f <- gets (fun m => flags (vpmu m)) ;;
  allocated <- vpmu_is_set VPMU_CONTEXT_ALLOCATED ;;
  if negb allocated
  then ret [Printk "    VPMU state: 0x%x " [f]; Printk "\n" []]
  else
    n <- gets (fun m => num_counters (glob m)) ;;
    rows <- dump_bank (seq 0 n) ;;
    ret ([Printk "    VPMU state: 0x%x " [f]; Printk "(" []]
         ++ dump_flags f ++ [Printk "ALLOCATED)\n" []] ++ rows).

(** The rows the dump prints for the indices [l], and the register reads
    it makes for them. *)
Definition dump_rows (m : machine) (l : list nat) : list printk_line :=
  map (fun i => Printk DUMP_ROW
                  [ctrl_addr m i; shadow_ctrl m i; msrs m (ctrl_addr m i);
                   counter_addr m i; shadow_counter m i;
                   msrs m (counter_addr m i)]) l.
Definition dump_reads (m : machine) (l : list nat) : list event :=
  flat_map (fun i => [EvRdmsr (ctrl_addr m i) (msrs m (ctrl_addr m i));
                      EvRdmsr (counter_addr m i) (msrs m (counter_addr m i))]) l.

(** ** Further descriptions *)

(** One of the two layouts that [amd_vpmu_init] selects. *)
Definition resolved (g : globals) : Prop := g = layout_f10h \/ g = layout_f15h.

(** The processor families [amd_vpmu_init] knows. *)
Definition family_supported (x86 : Z) : bool :=
  (x86 =? 0x10) || (x86 =? 0x12) || (x86 =? 0x14) || (x86 =? 0x15)
  || (x86 =? 0x16).


(** The call changes no intercept setting and not the bitmap flag. *)
Definition keeps_intercepts (m m' : machine) (t : list event) : Prop :=
  intercepts m' = intercepts m /\ priv_context (vpmu m') = priv_context (vpmu m)
  /\ forall a md, ~ In (EvIntercept a md) t.

(** The call writes no hardware register. *)
Definition writes_nothing (m m' : machine) (t : list event) : Prop :=
  msrs m' = msrs m /\ forall a v, ~ In (EvWrmsr a v) t.

(** Every register of the bank traps reads and writes. *)
Definition bank_trapped (m : machine) (b : Z -> msr_intercept) : Prop :=
  forall i, In i (bank m) ->
            b (counter_addr m i) = MSR_INTERCEPT_RW
            /\ b (ctrl_addr m i) = MSR_INTERCEPT_RW.

(** The address is that of no register of the bank. *)
Definition outside_bank (m : machine) (a : Z) : Prop :=
  forall i, In i (bank m) -> a <> counter_addr m i /\ a <> ctrl_addr m i.

(** Initialised, enabled once on control 0, a second control enabled. *)
Definition sample_two_enabled : machine :=
  mkMachine layout_f10h
    (mkVpmu (Z.lor VPMU_CONTEXT_ALLOCATED (Z.lor VPMU_CONTEXT_LOADED VPMU_RUNNING))
       (Some (mkCtxt [0; 0; 0; 0]
                [Z.lor EVNTSEL_ENABLE EVNTSEL_GUEST_ONLY;
                 Z.lor EVNTSEL_ENABLE EVNTSEL_GUEST_ONLY; 0; 0]))
       0 (Some amd_vpmu_ops))
    true (fun _ => 0) (fun _ => MSR_INTERCEPT_RW) (Some PMU_OWNER_HVM).

(** Family 15h, loaded, with the fast path installed by hand. *)
Definition sample_bitmap_on : machine :=
  mkMachine layout_f15h
    (mkVpmu (Z.lor VPMU_CONTEXT_ALLOCATED (Z.lor VPMU_CONTEXT_LOADED VPMU_RUNNING))
       (Some (mkCtxt (replicate 6%nat 0) (replicate 6%nat 0)))
       (-1) (Some amd_vpmu_ops))
    true (fun _ => 0) (fun _ => MSR_INTERCEPT_NONE) (Some PMU_OWNER_HVM).

(** The addresses of the bank: the control registers, then the counter
    registers. *)
Definition bank_addrs (m : machine) : list Z :=
  map (ctrl_addr m) (bank m) ++ map (counter_addr m) (bank m).



(** * Properties *)

(** ** Flag words *)

Section Flags.
Variables (f x y : Z).

Lemma land_lor_same : Z.land (Z.lor f x) x = x.
Proof.
  apply Z.bits_inj'; intros n Hn.
  rewrite Z.land_spec, Z.lor_spec.
  destruct (Z.testbit f n), (Z.testbit x n); reflexivity.
Qed.

Lemma land_lor_other : Z.land x y = 0 -> Z.land (Z.lor f x) y = Z.land f y.
Proof.
  intros H. rewrite Z.land_lor_distr_l, H. apply Z.lor_0_r.
Qed.

Lemma land_lnot_same : Z.land (Z.land f (Z.lnot x)) x = 0.
Proof.
  apply Z.bits_inj'; intros n Hn.
  rewrite !Z.land_spec, Z.lnot_spec, Z.bits_0 by lia.
  destruct (Z.testbit f n), (Z.testbit x n); reflexivity.
Qed.

Lemma land_lnot_other :
  Z.land x y = 0 -> Z.land (Z.land f (Z.lnot x)) y = Z.land f y.
Proof.
  intros H. apply Z.bits_inj'; intros n Hn.
  assert (Hb : Z.testbit (Z.land x y) n = false) by (rewrite H; apply Z.bits_0).
  rewrite Z.land_spec in Hb.
  rewrite !Z.land_spec, Z.lnot_spec by lia.
  destruct (Z.testbit f n), (Z.testbit x n), (Z.testbit y n);
    simpl in *; congruence.
Qed.

Lemma flag_set_same : x <> 0 -> flag_is_set (flag_set f x) x = true.
Proof.
  intros H. unfold flag_is_set, flag_set. rewrite land_lor_same.
  apply negb_true_iff, Z.eqb_neq, H.
Qed.

Lemma flag_set_other :
  Z.land x y = 0 -> flag_is_set (flag_set f x) y = flag_is_set f y.
Proof.
  intros H. unfold flag_is_set, flag_set. now rewrite land_lor_other.
Qed.

Lemma flag_reset_same : flag_is_set (flag_reset f x) x = false.
Proof. unfold flag_is_set, flag_reset. now rewrite land_lnot_same. Qed.

Lemma flag_reset_other :
  Z.land x y = 0 -> flag_is_set (flag_reset f x) y = flag_is_set f y.
Proof.
  intros H. unfold flag_is_set, flag_reset. now rewrite land_lnot_other.
Qed.
End Flags.

Lemma flag_clear_unset x : flag_is_set flag_clear x = false.
Proof. reflexivity. Qed.

(** Simplifies tests of the flag word after [vpmu_set] and [vpmu_reset]. *)
Ltac flag_simpl :=
  repeat first
    [ rewrite flag_set_same by discriminate
    | rewrite flag_reset_same
    | rewrite flag_set_other by reflexivity
    | rewrite flag_reset_other by reflexivity ].

Lemma enabled_forced m msr v :
  is_pmu_enabled (forced_value m msr v) = is_pmu_enabled v.
Proof.
  unfold forced_value.
  destruct (is_hvm m && (get_pmu_reg_type msr =? MSR_TYPE_CTRL)
            && negb (is_guest_mode v)); [|reflexivity].
  apply (flag_set_other v (Z.shiftl 1 MSR_F10H_EVNTSEL_GO_SHIFT)
           (Z.shiftl 1 MSR_F10H_EVNTSEL_EN_SHIFT)).
  reflexivity.
Qed.

Lemma guest_mode_forced m msr v :
  is_hvm m = true -> get_pmu_reg_type msr = MSR_TYPE_CTRL ->
  is_guest_mode (forced_value m msr v) = true.
Proof.
  intros Hh Ht. unfold forced_value. rewrite Hh, Ht. simpl.
  destruct (is_guest_mode v) eqn:E; simpl; [exact E|].
  apply (flag_set_same v (Z.shiftl 1 MSR_F10H_EVNTSEL_GO_SHIFT)). discriminate.
Qed.

(** ** Rules for [wp] and [wlp] *)

Lemma wp_bind {A B} (x : M A) (f : A -> M B) m Q :
  wp x m (fun a m1 t1 => wp (f a) m1 (fun b m2 t2 => Q b m2 (t1 ++ t2))) ->
  wp (bind x f) m Q.
Proof.
  unfold wp, bind. destruct (x m) as [[[a m1] t1]|]; [|tauto].
  destruct (f a m1) as [[[b m2] t2]|]; tauto.
Qed.

Lemma wp_mono {A} (x : M A) m (Q Q' : A -> machine -> list event -> Prop) :
  wp x m Q -> (forall a m' t, Q a m' t -> Q' a m' t) -> wp x m Q'.
Proof.
  unfold wp. destruct (x m) as [[[a m1] t1]|]; [|tauto]. intros H HQ. now apply HQ.
Qed.

Lemma wp_eq {A} (x : M A) m a m' t (Q : A -> machine -> list event -> Prop) :
  x m = Some (a, m', t) -> Q a m' t -> wp x m Q.
Proof. intros H HQ. unfold wp. rewrite H. exact HQ. Qed.

Lemma wp_run {A} (x : M A) m Q :
  wp x m Q -> exists a m' t, x m = Some (a, m', t) /\ Q a m' t.
Proof.
  unfold wp. destruct (x m) as [[[a m1] t1]|]; [|tauto]. eauto.
Qed.

Lemma wlp_bind {A B} (x : M A) (f : A -> M B) m Q :
  wlp x m (fun a m1 t1 => wlp (f a) m1 (fun b m2 t2 => Q b m2 (t1 ++ t2))) ->
  wlp (bind x f) m Q.
Proof.
  unfold wlp, bind. destruct (x m) as [[[a m1] t1]|]; [|tauto].
  destruct (f a m1) as [[[b m2] t2]|]; tauto.
Qed.

Lemma wlp_mono {A} (x : M A) m (Q Q' : A -> machine -> list event -> Prop) :
  wlp x m Q -> (forall a m' t, Q a m' t -> Q' a m' t) -> wlp x m Q'.
Proof.
  unfold wlp. destruct (x m) as [[[a m1] t1]|]; [|tauto]. intros H HQ. now apply HQ.
Qed.

Lemma wlp_run {A} (x : M A) m Q a m' t :
  wlp x m Q -> x m = Some (a, m', t) -> Q a m' t.
Proof. intros H E. unfold wlp in H. rewrite E in H. exact H. Qed.

Lemma wp_wlp {A} (x : M A) m Q : wp x m Q -> wlp x m Q.
Proof. unfold wp, wlp. destruct (x m) as [[[a m1] t1]|]; tauto. Qed.

(** ** Register files and intercept settings after a list of updates *)

Lemma apply_writes_app ws1 ws2 h :
  apply_writes (ws1 ++ ws2) h = apply_writes ws2 (apply_writes ws1 h).
Proof. apply fold_left_app. Qed.

Lemma apply_intercepts_app ws1 ws2 b :
  apply_intercepts (ws1 ++ ws2) b = apply_intercepts ws2 (apply_intercepts ws1 b).
Proof. apply fold_left_app. Qed.

Lemma write_events_app ws1 ws2 :
  write_events (ws1 ++ ws2) = write_events ws1 ++ write_events ws2.
Proof. apply map_app. Qed.

Lemma intercept_events_app ws1 ws2 :
  intercept_events (ws1 ++ ws2) = intercept_events ws1 ++ intercept_events ws2.
Proof. apply map_app. Qed.

Lemma upd_same {A} (f : Z -> A) k v : upd f k v k = v.
Proof. unfold upd. now rewrite Z.eqb_refl. Qed.

Lemma upd_other {A} (f : Z -> A) k v a : a <> k -> upd f k v a = f a.
Proof. intros H. unfold upd. now apply Z.eqb_neq in H as ->. Qed.

(** A register that no update names keeps its value. *)
Lemma apply_writes_other ws h a :
  ~ In a (map fst ws) -> apply_writes ws h a = h a.
Proof.
  revert h. induction ws as [|[k v] ws IH]; intros h Hn; [reflexivity|].
  simpl in *. unfold apply_writes in *. simpl. rewrite IH by tauto.
  apply upd_other. intros ->. tauto.
Qed.

(** Updates that all carry the same value leave it in every register they
    name. *)
Lemma apply_writes_const ws h a v :
  Forall (fun w => snd w = v) ws -> In a (map fst ws) -> apply_writes ws h a = v.
Proof.
  revert h. induction ws as [|[k w] ws IH]; intros h Hall Hin; [destruct Hin|].
  inversion Hall as [|? ? Hw Hrest]; subst. simpl in *.
  destruct (in_dec Z.eq_dec a (map fst ws)) as [Hi|Hi].
  - now apply IH.
  - destruct Hin as [->|Hin]; [|tauto].
    change (apply_writes ((a, w) :: ws) h a) with (apply_writes ws (upd h a w) a).
    rewrite apply_writes_other by assumption. apply upd_same.
Qed.

Lemma apply_intercepts_other ws b a :
  ~ In a (map fst ws) -> apply_intercepts ws b a = b a.
Proof.
  revert b. induction ws as [|[k v] ws IH]; intros b Hn; [reflexivity|].
  simpl in *. unfold apply_intercepts in *. simpl. rewrite IH by tauto.
  apply upd_other. intros ->. tauto.
Qed.

Lemma apply_intercepts_const ws b a v :
  Forall (fun w => snd w = v) ws -> In a (map fst ws) ->
  apply_intercepts ws b a = v.
Proof.
  revert b. induction ws as [|[k w] ws IH]; intros b Hall Hin; [destruct Hin|].
  inversion Hall as [|? ? Hw Hrest]; subst. simpl in *.
  destruct (in_dec Z.eq_dec a (map fst ws)) as [Hi|Hi].
  - now apply IH.
  - destruct Hin as [->|Hin]; [|tauto].
    change (apply_intercepts ((a, w) :: ws) b a)
      with (apply_intercepts ws (upd b a w) a).
    rewrite apply_intercepts_other by assumption. apply upd_same.
Qed.

(** ** Running the primitives *)

Lemma bind_eq {A B} (x : M A) (f : A -> M B) m a m1 t1 :
  x m = Some (a, m1, t1) ->
  bind x f m = match f a m1 with
               | Some (b, m2, t2) => Some (b, m2, t1 ++ t2)
               | None => None
               end.
Proof. intros H. unfold bind. now rewrite H. Qed.

Lemma set_msrs_id m : set_msrs m (msrs m) = m.
Proof. now destruct m. Qed.

Lemma set_intercepts_id m : set_intercepts m (intercepts m) = m.
Proof. now destruct m. Qed.

Lemma table_at_ok n t i :
  table_ok n t = true -> (i < n)%nat ->
  table_at t i = Some (default 0 (table_at t i)).
Proof.
  destruct t as [l|]; simpl; [|discriminate].
  intros Hl Hi. apply Nat.eqb_eq in Hl.
  destruct (lookup_lt_is_Some_2 l i) as [a Ha]; [lia|]. now rewrite Ha.
Qed.

Lemma machine_ok_layout m : machine_ok m = true -> layout_ok (glob m) = true.
Proof. unfold machine_ok. now intros [H _]%andb_true_iff. Qed.

Lemma machine_ok_context m : machine_ok m = true -> context_ok m = true.
Proof. unfold machine_ok. now intros [_ H]%andb_true_iff. Qed.

Lemma in_bank m i : In i (bank m) -> (i < num_counters (glob m))%nat.
Proof. unfold bank. rewrite in_seq. lia. Qed.

Lemma context_ok_inv m :
  context_ok m = true ->
  exists c, context (vpmu m) = Some c
            /\ length (counter_regs c) = num_counters (glob m)
            /\ length (ctrl_regs c) = num_counters (glob m).
Proof.
  unfold context_ok. destruct (context (vpmu m)) as [c|]; [|discriminate].
  intros [H1 H2]%andb_true_iff. apply Nat.eqb_eq in H1, H2. eauto.
Qed.

Section Leaves.
Variable m : machine.

(** The machines a loop passes through differ from [m] in the register
    file or the intercept settings only. *)
Variable m' : machine.
Hypothesis Hglob : glob m' = glob m.

Variable i : nat.
Hypothesis Hi : In i (bank m).

Section Tables.
Hypothesis Hlay : layout_ok (glob m) = true.

Lemma counters_at_eq : counters_at i m' = Some (counter_addr m i, m', []).
Proof.
  unfold counters_at, counter_addr. rewrite Hglob.
  pose proof Hlay as [H _]%andb_true_iff.
  now rewrite (table_at_ok _ _ i H (in_bank m i Hi)).
Qed.

Lemma ctrls_at_eq : ctrls_at i m' = Some (ctrl_addr m i, m', []).
Proof.
  unfold ctrls_at, ctrl_addr. rewrite Hglob.
  pose proof Hlay as [_ H]%andb_true_iff.
  now rewrite (table_at_ok _ _ i H (in_bank m i Hi)).
Qed.
End Tables.

Section Shadows.
Hypothesis Hctx : context_ok m = true.
Hypothesis Hvpmu : vpmu m' = vpmu m.

Lemma counter_reg_at_eq :
  counter_reg_at i m' = Some (shadow_counter m i, m', []).
Proof.
  destruct (context_ok_inv m Hctx) as (c & Hc & H1 & H2).
  unfold counter_reg_at, bind, get_context, shadow_counter, shadow_counters.
  rewrite Hvpmu, Hc. simpl.
  destruct (lookup_lt_is_Some_2 (counter_regs c) i) as [a Ha];
    [pose proof (in_bank m i Hi); lia|].
  now rewrite Ha.
Qed.

Lemma ctrl_reg_at_eq :
  ctrl_reg_at i m' = Some (shadow_ctrl m i, m', []).
Proof.
  destruct (context_ok_inv m Hctx) as (c & Hc & H1 & H2).
  unfold ctrl_reg_at, bind, get_context, shadow_ctrl, shadow_ctrls.
  rewrite Hvpmu, Hc. simpl.
  destruct (lookup_lt_is_Some_2 (ctrl_regs c) i) as [a Ha];
    [pose proof (in_bank m i Hi); lia|].
  now rewrite Ha.
Qed.
End Shadows.
End Leaves.

Lemma get_context_eq m :
  context_ok m = true ->
  exists c, get_context m = Some (c, m, []) /\ context (vpmu m) = Some c.
Proof.
  intros (c & Hc & _)%context_ok_inv. exists c. unfold get_context.
  now rewrite Hc.
Qed.

(** ** Loops over the bank *)

Lemma write_loop (w : nat -> list (Z * Z)) body l m :
  (forall i m', In i l -> glob m' = glob m -> vpmu m' = vpmu m ->
     body i m' = Some (tt, set_msrs m' (apply_writes (w i) (msrs m')),
                       write_events (w i))) ->
  for_each l body m
  = Some (tt, set_msrs m (apply_writes (flat_map w l) (msrs m)),
          write_events (flat_map w l)).
Proof.
  revert m. induction l as [|i l IH]; intros m H; simpl.
  - unfold ret. now rewrite set_msrs_id.
  - rewrite (bind_eq _ _ _ _ _ _ (H i m (or_introl eq_refl) eq_refl eq_refl)).
    rewrite IH.
    + simpl. now rewrite apply_writes_app, write_events_app.
    + intros j m' Hj Hg Hv. apply H; [now right|exact Hg|exact Hv].
Qed.

Lemma intercept_loop (w : nat -> list (Z * msr_intercept)) body l m :
  (forall i m', In i l -> glob m' = glob m -> vpmu m' = vpmu m ->
     body i m' = Some (tt, set_intercepts m'
                             (apply_intercepts (w i) (intercepts m')),
                       intercept_events (w i))) ->
  for_each l body m
  = Some (tt, set_intercepts m (apply_intercepts (flat_map w l) (intercepts m)),
          intercept_events (flat_map w l)).
Proof.
  revert m. induction l as [|i l IH]; intros m H; simpl.
  - unfold ret. now rewrite set_intercepts_id.
  - rewrite (bind_eq _ _ _ _ _ _ (H i m (or_introl eq_refl) eq_refl eq_refl)).
    rewrite IH.
    + simpl. now rewrite apply_intercepts_app, intercept_events_app.
    + intros j m' Hj Hg Hv. apply H; [now right|exact Hg|exact Hv].
Qed.

Lemma bank_loop_eq body m m1 t1 :
  for_each (bank m) body m = Some (tt, m1, t1) ->
  bank_loop body m = Some (tt, m1, t1).
Proof.
  intros H. unfold bank_loop, for_loop, bind, gets. fold (bank m).
  now rewrite H.
Qed.

Section BankLoops.
Variable m : machine.
Hypothesis Hlay : layout_ok (glob m) = true.

Lemma freeze_eq :
  bank_loop (fun i => t <- ctrls_at i ;; wrmsrl t 0) m
  = Some (tt, set_msrs m (apply_writes (freeze_writes m) (msrs m)),
          write_events (freeze_writes m)).
Proof.
  apply bank_loop_eq, write_loop. intros i m' Hi Hg Hv.
  rewrite (bind_eq _ _ _ _ _ _ (ctrls_at_eq m m' Hg i Hi Hlay)).
  reflexivity.
Qed.

Lemma unset_msr_bitmap_eq :
  amd_vpmu_unset_msr_bitmap m
  = Some (tt,
          set_vpmu (set_intercepts m
                      (apply_intercepts (full_trap_intercepts m) (intercepts m)))
                   (set_priv_context (vpmu m) 0),
          intercept_events (full_trap_intercepts m)).
Proof.
  unfold amd_vpmu_unset_msr_bitmap.
  erewrite bind_eq.
  2:{ apply bank_loop_eq, (intercept_loop (fun i =>
        [(counter_addr m i, MSR_INTERCEPT_RW); (ctrl_addr m i, MSR_INTERCEPT_RW)])).
      intros i m' Hi Hg Hv.
      rewrite (bind_eq _ _ _ _ _ _ (counters_at_eq m m' Hg i Hi Hlay)).
      rewrite (bind_eq _ _ _ _ _ _
                 (eq_refl : svm_intercept_msr _ _ m' = Some (tt, _, _))).
      rewrite (bind_eq _ _ _ _ _ _
                 (ctrls_at_eq m (set_intercepts m' _) Hg i Hi Hlay)).
      reflexivity. }
  simpl. now rewrite app_nil_r.
Qed.

Lemma set_msr_bitmap_eq :
  amd_vpmu_set_msr_bitmap m
  = Some (tt,
          set_vpmu (set_intercepts m
                      (apply_intercepts (fast_path_intercepts m) (intercepts m)))
                   (set_priv_context (vpmu m) (-1)),
          intercept_events (fast_path_intercepts m)).
Proof.
  unfold amd_vpmu_set_msr_bitmap.
  erewrite bind_eq.
  2:{ apply bank_loop_eq, (intercept_loop (fun i =>
        [(counter_addr m i, MSR_INTERCEPT_NONE);
         (ctrl_addr m i, MSR_INTERCEPT_WRITE)])).
      intros i m' Hi Hg Hv.
      rewrite (bind_eq _ _ _ _ _ _ (counters_at_eq m m' Hg i Hi Hlay)).
      rewrite (bind_eq _ _ _ _ _ _
                 (eq_refl : svm_intercept_msr _ _ m' = Some (tt, _, _))).
      rewrite (bind_eq _ _ _ _ _ _
                 (ctrls_at_eq m (set_intercepts m' _) Hg i Hi Hlay)).
      reflexivity. }
  simpl. now rewrite app_nil_r.
Qed.

Hypothesis Hctx : context_ok m = true.

Lemma context_load_eq :
  context_load m
  = Some (tt, set_msrs m (apply_writes (full_load_writes m) (msrs m)),
          write_events (full_load_writes m)).
Proof.
  destruct (get_context_eq m Hctx) as (c & Hc & _).
  unfold context_load. rewrite (bind_eq _ _ _ _ _ _ Hc).
  erewrite bank_loop_eq; [reflexivity|].
  apply write_loop. intros i m' Hi Hg Hv.
  rewrite (bind_eq _ _ _ _ _ _ (counters_at_eq m m' Hg i Hi Hlay)).
  rewrite (bind_eq _ _ _ _ _ _ (counter_reg_at_eq m m' i Hi Hctx Hv)).
  rewrite (bind_eq _ _ _ _ _ _ (eq_refl : wrmsrl _ _ m' = Some (tt, _, _))).
  rewrite (bind_eq _ _ _ _ _ _
             (ctrls_at_eq m (set_msrs m' _) Hg i Hi Hlay)).
  rewrite (bind_eq _ _ _ _ _ _
             (ctrl_reg_at_eq m (set_msrs m' _) i Hi Hctx Hv)).
  reflexivity.
Qed.

Lemma ctrl_load_eq :
  bank_loop (fun i => t <- ctrls_at i ;; w <- ctrl_reg_at i ;; wrmsrl t w) m
  = Some (tt, set_msrs m (apply_writes (ctrl_load_writes m) (msrs m)),
          write_events (ctrl_load_writes m)).
Proof.
  apply bank_loop_eq, write_loop. intros i m' Hi Hg Hv.
  rewrite (bind_eq _ _ _ _ _ _ (ctrls_at_eq m m' Hg i Hi Hlay)).
  rewrite (bind_eq _ _ _ _ _ _ (ctrl_reg_at_eq m m' i Hi Hctx Hv)).
  reflexivity.
Qed.
End BankLoops.

(** ** Shadow arrays *)

Lemma save_counters_length h addr l cr :
  length (save_counters h addr l cr) = length cr.
Proof.
  revert cr. induction l as [|j l IH]; intros cr; [reflexivity|].
  simpl. unfold save_counters in *. simpl. now rewrite IH, length_insert.
Qed.

Lemma save_counters_other h addr l cr i :
  ~ In i l -> save_counters h addr l cr !! i = cr !! i.
Proof.
  revert cr. induction l as [|j l IH]; intros cr Hn; [reflexivity|].
  simpl in Hn. unfold save_counters in *. simpl. rewrite IH by tauto.
  apply list_lookup_insert_ne. intros ->. tauto.
Qed.

(** After the save, every index that the loop visited holds what the
    register file had at that counter's address. *)
Lemma save_counters_lookup h addr l cr i :
  In i l -> (i < length cr)%nat ->
  save_counters h addr l cr !! i = Some (h (addr i)).
Proof.
  revert cr. induction l as [|j l IH]; intros cr Hin Hlen; [destruct Hin|].
  change (save_counters h addr (j :: l) cr)
    with (save_counters h addr l (<[j := h (addr j)]> cr)).
  destruct (in_dec Nat.eq_dec i l) as [Hi|Hi].
  - apply IH; [exact Hi|]. now rewrite length_insert.
  - destruct Hin as [->|Hin]; [|tauto].
    rewrite save_counters_other by exact Hi.
    now apply list_lookup_insert_eq.
Qed.

Lemma set_shadow_id m cr tr :
  context (vpmu m) = Some (mkCtxt cr tr) -> set_shadow m cr tr = m.
Proof.
  destruct m as [g [f c p o] hv h b tk]. simpl. intros ->. reflexivity.
Qed.

Lemma store_counter_reg_eq m cr tr i v :
  context (vpmu m) = Some (mkCtxt cr tr) -> (i < length cr)%nat ->
  store_counter_reg i v m = Some (tt, set_shadow m (<[i := v]> cr) tr, []).
Proof.
  intros Hc Hi. unfold store_counter_reg, bind, get_context. rewrite Hc. simpl.
  destruct (decide (i < length cr)%nat); [reflexivity|contradiction].
Qed.

Lemma store_ctrl_reg_eq m cr tr i v :
  context (vpmu m) = Some (mkCtxt cr tr) -> (i < length tr)%nat ->
  store_ctrl_reg i v m = Some (tt, set_shadow m cr (<[i := v]> tr), []).
Proof.
  intros Hc Hi. unfold store_ctrl_reg, bind, get_context. rewrite Hc. simpl.
  destruct (decide (i < length tr)%nat); [reflexivity|contradiction].
Qed.

Lemma context_shadows m :
  context_ok m = true ->
  context (vpmu m) = Some (mkCtxt (shadow_counters m) (shadow_ctrls m))
  /\ length (shadow_counters m) = num_counters (glob m)
  /\ length (shadow_ctrls m) = num_counters (glob m).
Proof.
  intros (c & Hc & H1 & H2)%context_ok_inv.
  unfold shadow_counters, shadow_ctrls. rewrite Hc. now destruct c.
Qed.

Section ShadowLoops.
Variable m : machine.
Hypothesis Hlay : layout_ok (glob m) = true.

Lemma save_loop l :
  forall m' cr tr,
    (forall i, In i l -> In i (bank m)) ->
    glob m' = glob m -> msrs m' = msrs m ->
    context (vpmu m') = Some (mkCtxt cr tr) ->
    length cr = num_counters (glob m) ->
    for_each l (fun i => c <- counters_at i ;; v <- rdmsrl c ;;
                         store_counter_reg i v) m'
    = Some (tt,
            set_shadow m' (save_counters (msrs m) (counter_addr m) l cr) tr,
            read_events (msrs m) (counter_addr m) l).
Proof.
  induction l as [|i l IH]; intros m' cr tr Hsub Hg Hh Hc Hlen.
  - simpl. unfold ret. now rewrite (set_shadow_id m' cr tr Hc).
  - assert (Hi : In i (bank m)) by (apply Hsub; now left).
    simpl for_each. erewrite bind_eq.
    2:{ rewrite (bind_eq _ _ _ _ _ _ (counters_at_eq m m' Hg i Hi Hlay)).
        rewrite (bind_eq _ _ _ _ _ _
                   (eq_refl : rdmsrl _ m' = Some (_, m', _))).
        rewrite (store_counter_reg_eq m' cr tr i _ Hc)
          by (apply in_bank in Hi; lia).
        reflexivity. }
    rewrite (IH _ (<[i := msrs m' (counter_addr m i)]> cr) tr);
      try reflexivity; try assumption.
    + simpl. now rewrite Hh.
    + intros j Hj. apply Hsub. now right.
    + now rewrite length_insert.
Qed.

Hypothesis Hctx : context_ok m = true.

Lemma context_save_eq :
  context_save m
  = Some (tt,
          set_shadow m
            (save_counters (msrs m) (counter_addr m) (bank m) (shadow_counters m))
            (shadow_ctrls m),
          read_events (msrs m) (counter_addr m) (bank m)).
Proof.
  destruct (get_context_eq m Hctx) as (c & Hc & _).
  destruct (context_shadows m Hctx) as (Hs & H1 & H2).
  unfold context_save. rewrite (bind_eq _ _ _ _ _ _ Hc).
  erewrite bank_loop_eq; [reflexivity|].
  now apply save_loop.
Qed.

Lemma update_loop a v l :
  (forall i, In i l -> In i (bank m)) ->
  context_update_loop a v l m
  = Some (tt, update_shadow m (find_reg (ctrl_addr m) (counter_addr m) a l) v,
          []).
Proof.
  destruct (context_shadows m Hctx) as (Hs & H1 & H2).
  induction l as [|i l IH]; intros Hsub; [reflexivity|].
  assert (Hi : In i (bank m)) by (apply Hsub; now left).
  pose proof (in_bank m i Hi) as Hlt.
  simpl context_update_loop. simpl find_reg.
  rewrite (bind_eq _ _ _ _ _ _ (ctrls_at_eq m m eq_refl i Hi Hlay)).
  destruct (a =? ctrl_addr m i).
  - rewrite (store_ctrl_reg_eq m _ _ i v Hs) by lia. reflexivity.
  - rewrite (bind_eq _ _ _ _ _ _ (counters_at_eq m m eq_refl i Hi Hlay)).
    destruct (a =? counter_addr m i).
    + rewrite (store_counter_reg_eq m _ _ i v Hs) by lia. reflexivity.
    + rewrite IH by (intros j Hj; apply Hsub; now right). reflexivity.
Qed.

Lemma context_update_eq msr v :
  context_update msr v m = Some (tt, update_shadow m (matched_reg m msr) v, []).
Proof.
  destruct (get_context_eq m Hctx) as (c & Hc & _).
  unfold context_update. rewrite (bind_eq _ _ _ _ _ _ Hc).
  unfold bind, gets. fold (redirect m msr). fold (bank m).
  rewrite update_loop by tauto. reflexivity.
Qed.

(** An address outside both tables matches no entry. *)
Lemma find_reg_none a l :
  (forall i, In i l -> In i (bank m)) ->
  ~ in_table (ctrls (glob m)) a -> ~ in_table (counters (glob m)) a ->
  find_reg (ctrl_addr m) (counter_addr m) a l = None.
Proof.
  intros Hsub Hct Hcs. induction l as [|i l IH]; [reflexivity|].
  assert (Hi : In i (bank m)) by (apply Hsub; now left).
  pose proof (in_bank m i Hi) as Hlt.
  pose proof Hlay as [Lc Lt]%andb_true_iff.
  simpl. destruct (Z.eqb_spec a (ctrl_addr m i)) as [E|_].
  - exfalso. apply Hct. pose proof (table_at_ok _ _ i Lt Hlt) as Ht.
    fold (ctrl_addr m i) in Ht. rewrite <- E in Ht.
    destruct (ctrls (glob m)) as [ct|]; [|discriminate].
    simpl in *. apply list_elem_of_In. eapply list_elem_of_lookup_2, Ht.
  - destruct (Z.eqb_spec a (counter_addr m i)) as [E|_].
    + exfalso. apply Hcs. pose proof (table_at_ok _ _ i Lc Hlt) as Ht.
      fold (counter_addr m i) in Ht. rewrite <- E in Ht.
      destruct (counters (glob m)) as [cs|]; [|discriminate].
      simpl in *. apply list_elem_of_In. eapply list_elem_of_lookup_2, Ht.
    + apply IH. intros j Hj. apply Hsub. now right.
Qed.
End ShadowLoops.

(** ** Symbolic execution of the monad's primitives *)

Lemma bind_ret {A B} (a : A) (f : A -> M B) m : bind (ret a) f m = f a m.
Proof. unfold bind, ret. now destruct (f a m) as [[[b m2] t2]|]. Qed.

Lemma bind_gets {A B} (g : machine -> A) (f : A -> M B) m :
  bind (gets g) f m = f (g m) m.
Proof. unfold bind, gets. now destruct (f (g m) m) as [[[b m2] t2]|]. Qed.

Lemma bind_modify {B} (g : machine -> machine) (f : unit -> M B) m :
  bind (modify g) f m = f tt (g m).
Proof. unfold bind, modify. now destruct (f tt (g m)) as [[[b m2] t2]|]. Qed.

Lemma bind_ret_r {A} (x : M A) m a m1 t1 (b : Z) :
  x m = Some (a, m1, t1) -> bind x (fun _ => ret b) m = Some (b, m1, t1).
Proof. intros H. rewrite (bind_eq _ _ _ _ _ _ H). simpl. now rewrite app_nil_r. Qed.

(** Unfolds the flag and bitmap accessors and runs them. *)
Ltac exec :=
  repeat first
    [ rewrite bind_ret
    | rewrite bind_gets
    | rewrite bind_modify
    | progress unfold vpmu_is_set, vpmu_set, vpmu_reset, vpmu_clear,
        has_hvm_container_vcpu, is_msr_bitmap_on, msr_bitmap_on, msr_bitmap_off ].

(** ** [amd_vpmu_save] *)

Lemma freeze_writes_zero m : Forall (fun w => snd w = 0) (freeze_writes m).
Proof.
  unfold freeze_writes. induction (bank m) as [|i l IH]; simpl; constructor;
    [reflexivity|exact IH].
Qed.

Lemma freeze_writes_addr m i :
  In i (bank m) -> In (ctrl_addr m i) (map fst (freeze_writes m)).
Proof.
  intros Hi. apply in_map_iff. exists (ctrl_addr m i, 0). split; [reflexivity|].
  unfold freeze_writes. apply in_flat_map. exists i. split; [exact Hi|now left].
Qed.

Lemma save_freeze_eq m :
  layout_ok (glob m) = true -> save_requested m = false ->
  amd_vpmu_save m
  = Some (0,
          set_msrs (with_flags m (flag_set (flags (vpmu m)) VPMU_FROZEN))
                   (apply_writes (freeze_writes m) (msrs m)),
          write_events (freeze_writes m)).
Proof.
  intros Hlay Hs. unfold amd_vpmu_save. exec.
  fold (save_requested m). rewrite Hs. cbn [negb]. exec.
  fold (with_flags m (flag_set (flags (vpmu m)) VPMU_FROZEN)).
  set (m1 := with_flags m _).
  apply (bind_ret_r _ _ tt), (freeze_eq m1 Hlay).
Qed.

Lemma save_not_loaded_eq m :
  save_requested m = true -> loaded m = false ->
  amd_vpmu_save m = Some (0, m, []).
Proof.
  intros Hs Hl. unfold amd_vpmu_save. exec.
  fold (save_requested m). rewrite Hs. cbn [negb]. exec.
  fold (loaded m). now rewrite Hl.
Qed.

Lemma save_full_eq m :
  machine_ok m = true -> save_requested m = true -> loaded m = true ->
  amd_vpmu_save m
  = Some (1,
          (let m1 := set_shadow m
                       (save_counters (msrs m) (counter_addr m) (bank m)
                                      (shadow_counters m))
                       (shadow_ctrls m) in
           if save_unsets_bitmap m
           then set_vpmu (set_intercepts m1
                            (apply_intercepts (full_trap_intercepts m)
                                              (intercepts m)))
                         (set_priv_context (vpmu m1) 0)
           else m1),
          read_events (msrs m) (counter_addr m) (bank m)
          ++ (if save_unsets_bitmap m
              then intercept_events (full_trap_intercepts m) else [])).
Proof.
  intros Hok Hs Hl. unfold amd_vpmu_save. exec.
  fold (save_requested m). rewrite Hs. cbn [negb]. exec.
  fold (loaded m). rewrite Hl. cbn [negb].
  pose proof (machine_ok_layout m Hok) as Hlay.
  pose proof (machine_ok_context m Hok) as Hctx.
  rewrite (bind_eq _ _ _ _ _ _ (context_save_eq m Hlay Hctx)).
  set (m1 := set_shadow m _ _). exec.
  change (flag_is_set (flags (vpmu m1)) VPMU_RUNNING) with (running m).
  change (is_hvm m1) with (is_hvm m).
  change (negb (priv_context (vpmu m1) =? 0)) with (bitmap_on m).
  fold (save_unsets_bitmap m).
  destruct (save_unsets_bitmap m).
  - rewrite (bind_ret_r _ _ _ _ _ 1 (unset_msr_bitmap_eq m1 Hlay)). reflexivity.
  - exec. unfold ret. now rewrite app_nil_r.
Qed.

(** ** [amd_vpmu_load] *)

Lemma load_loaded_eq m :
  machine_ok m = true -> loaded m = true ->
  amd_vpmu_load m
  = Some (tt,
          set_msrs (with_flags m (flag_reset (flags (vpmu m)) VPMU_FROZEN))
                   (apply_writes (ctrl_load_writes m) (msrs m)),
          write_events (ctrl_load_writes m)).
Proof.
  intros Hok Hl.
  pose proof (machine_ok_layout m Hok) as Hlay.
  pose proof (machine_ok_context m Hok) as Hctx.
  destruct (get_context_eq m Hctx) as (c & Hc & _).
  unfold amd_vpmu_load. rewrite (bind_eq _ _ _ _ _ _ Hc). exec.
  fold (with_flags m (flag_reset (flags (vpmu m)) VPMU_FROZEN)).
  set (m1 := with_flags m _).
  assert (E : flag_is_set (flags (vpmu m1)) VPMU_CONTEXT_LOADED = true).
  { subst m1. simpl. now rewrite flag_reset_other. }
  rewrite E. now rewrite (ctrl_load_eq m1 Hlay Hctx).
Qed.

Lemma load_full_eq m :
  machine_ok m = true -> loaded m = false ->
  amd_vpmu_load m
  = Some (tt,
          set_msrs (with_flags m
                      (flag_set (flag_reset (flags (vpmu m)) VPMU_FROZEN)
                                VPMU_CONTEXT_LOADED))
                   (apply_writes (full_load_writes m) (msrs m)),
          write_events (full_load_writes m)).
Proof.
  intros Hok Hl.
  pose proof (machine_ok_layout m Hok) as Hlay.
  pose proof (machine_ok_context m Hok) as Hctx.
  destruct (get_context_eq m Hctx) as (c & Hc & _).
  unfold amd_vpmu_load. rewrite (bind_eq _ _ _ _ _ _ Hc). exec.
  fold (with_flags m (flag_reset (flags (vpmu m)) VPMU_FROZEN)).
  set (m1 := with_flags m _).
  assert (E : flag_is_set (flags (vpmu m1)) VPMU_CONTEXT_LOADED = false).
  { subst m1. simpl. now rewrite flag_reset_other. }
  rewrite E. exec.
  set (m2 := set_vpmu m1 _).
  now rewrite (context_load_eq m2 Hlay Hctx).
Qed.

(** In the two layouts that [amd_vpmu_init] selects, the control table
    holds control registers and the counter table counter registers. *)
Lemma resolved_ctrl_type m i :
  glob m = layout_f10h \/ glob m = layout_f15h -> In i (bank m) ->
  get_pmu_reg_type (ctrl_addr m i) = MSR_TYPE_CTRL
  /\ get_pmu_reg_type (counter_addr m i) = MSR_TYPE_COUNTER.
Proof.
  unfold bank, ctrl_addr, counter_addr.
  intros [-> | ->] Hi; simpl in Hi;
    repeat (destruct Hi as [<-|Hi]; [split; reflexivity|]); destruct Hi.
Qed.

Lemma ctrl_load_writes_in m a v :
  In (a, v) (ctrl_load_writes m) ->
  exists i, In i (bank m) /\ a = ctrl_addr m i /\ v = shadow_ctrl m i.
Proof.
  unfold ctrl_load_writes. intros (i & Hi & [E|[]])%in_flat_map.
  inversion E. eauto.
Qed.

Lemma write_events_in ws a v : In (EvWrmsr a v) (write_events ws) <-> In (a, v) ws.
Proof.
  unfold write_events. rewrite in_map_iff. split.
  - intros ([a' v'] & E & Hin). simpl in E. now inversion E; subst.
  - intros Hin. now exists (a, v).
Qed.

(** ** Boot-time and per-guest initialisation *)

Example init_f15h : amd_vpmu_init 0x15 64 4096 globals_boot = (0, layout_f15h).
Proof. reflexivity. Qed.

Example init_f10h : amd_vpmu_init 0x12 64 4096 globals_boot = (0, layout_f10h).
Proof. reflexivity. Qed.

Example init_unsupported :
  amd_vpmu_init 0x11 64 4096 globals_boot = (- EINVAL, globals_boot).
Proof. reflexivity. Qed.

Example reg_type_samples :
  map get_pmu_reg_type
      [MSR_K7_EVNTSEL2; MSR_K7_PERFCTR0; MSR_AMD_FAM15H_EVNTSEL4;
       MSR_AMD_FAM15H_PERFCTR5; MSR_AMD_FAM15H_PERFCTR5 + 1]
  = [MSR_TYPE_CTRL; MSR_TYPE_COUNTER; MSR_TYPE_CTRL; MSR_TYPE_COUNTER; -1].
Proof. reflexivity. Qed.

Example fam15h_addr_samples :
  map get_fam15h_addr [MSR_K7_EVNTSEL2; MSR_K7_PERFCTR3; MSR_AMD_FAM15H_EVNTSEL5]
  = [MSR_AMD_FAM15H_EVNTSEL2; MSR_AMD_FAM15H_PERFCTR3; MSR_AMD_FAM15H_EVNTSEL5].
Proof. reflexivity. Qed.

(** A successful [amd_vpmu_init] selects one of the two layouts, and both
    are well formed. *)
Lemma amd_vpmu_init_resolves x86 size page g :
  fst (amd_vpmu_init x86 size page g) = 0 ->
  (snd (amd_vpmu_init x86 size page g) = layout_f10h
   \/ snd (amd_vpmu_init x86 size page g) = layout_f15h)
  /\ layout_ok (snd (amd_vpmu_init x86 size page g)) = true.
Proof.
  unfold amd_vpmu_init.
  destruct (x86 =? 21);
    [|destruct ((x86 =? 16) || (x86 =? 18) || (x86 =? 20) || (x86 =? 22))];
    cbv zeta; try discriminate;
    match goal with |- context [if ?c then _ else _] => destruct c end;
    simpl; try discriminate; intros _; split; auto.
Qed.

(** A successful [svm_vpmu_initialise] of a fresh vCPU yields the machine
    that the samples start from, and it is well formed. *)
Lemma initialise_ready g hvm tok mode :
  mode <> XENPMU_MODE_OFF -> counters g <> None ->
  svm_vpmu_initialise mode true (fresh_machine g hvm tok)
  = Some (0, ready_machine g hvm tok, []).
Proof.
  intros Hm Hc. unfold svm_vpmu_initialise.
  apply Z.eqb_neq in Hm. rewrite Hm. exec.
  change (glob (fresh_machine g hvm tok)) with g.
  destruct (counters g); [|contradiction]. simpl. exec. reflexivity.
Qed.

Lemma ready_machine_ok g hvm tok :
  layout_ok g = true -> machine_ok (ready_machine g hvm tok) = true.
Proof.
  intros Hl. unfold machine_ok, context_ok. simpl. rewrite Hl.
  now rewrite length_replicate, Nat.eqb_refl.
Qed.

(** ** Frozen and forced saves *)

Lemma full_trap_rw m :
  Forall (fun w => snd w = MSR_INTERCEPT_RW) (full_trap_intercepts m).
Proof.
  unfold full_trap_intercepts. induction (bank m) as [|i l IH]; simpl;
    repeat constructor. exact IH.
Qed.

Lemma full_trap_in m i :
  In i (bank m) ->
  In (counter_addr m i, MSR_INTERCEPT_RW) (full_trap_intercepts m)
  /\ In (ctrl_addr m i, MSR_INTERCEPT_RW) (full_trap_intercepts m).
Proof.
  intros Hi. unfold full_trap_intercepts.
  split; apply in_flat_map; exists i; simpl; tauto.
Qed.

Lemma intercept_events_in ws a md :
  In (EvIntercept a md) (intercept_events ws) <-> In (a, md) ws.
Proof.
  unfold intercept_events. rewrite in_map_iff. split.
  - intros ([a' v'] & E & Hin). simpl in E. now inversion E; subst.
  - intros Hin. now exists (a, md).
Qed.

Lemma read_events_in h addr l e :
  In e (read_events h addr l) ->
  exists i, In i l /\ e = EvRdmsr (addr i) (h (addr i)).
Proof.
  unfold read_events. intros (i & Hi & [E|[]])%in_flat_map. eauto.
Qed.

(** C6: with [VPMU_CONTEXT_SAVE] unset, on any context, loaded or not,
    [amd_vpmu_save] sets [VPMU_FROZEN], writes zero to every control
    register of the bank and nothing else, and returns 0 ("stopped"); the
    shadow arrays, [VPMU_CONTEXT_LOADED] and [VPMU_RUNNING] are as before,
    so a context that was running is still marked running. *)
Theorem C6_ordinary_save_freezes (m : machine) :
  layout_ok (glob m) = true -> save_requested m = false ->
  exists m',
    amd_vpmu_save m = Some (0, m', write_events (freeze_writes m))
    /\ frozen m' = true
    /\ (forall i, In i (bank m) ->
          In (EvWrmsr (ctrl_addr m i) 0) (write_events (freeze_writes m))
          /\ msrs m' (ctrl_addr m i) = 0)
    /\ Forall (fun w => snd w = 0) (freeze_writes m)
    /\ context (vpmu m') = context (vpmu m)
    /\ loaded m' = loaded m
    /\ running m' = running m
    /\ flags (vpmu m') = flag_set (flags (vpmu m)) VPMU_FROZEN
    /\ intercepts m' = intercepts m
    /\ token m' = token m.
Proof.
  intros Hlay Hs. eexists. split; [now apply save_freeze_eq|].
  unfold frozen, loaded, running. simpl. flag_simpl.
  repeat split; try reflexivity.
  - apply write_events_in. unfold freeze_writes. apply in_flat_map.
    exists i. split; [assumption|now left].
  - apply apply_writes_const; [apply freeze_writes_zero|].
    now apply freeze_writes_addr.
  - apply freeze_writes_zero.
Qed.

Lemma C6_witness :
  result_of (amd_vpmu_save sample_running) = Some 0
  /\ running sample_running = true /\ loaded sample_running = false.
Proof.
  destruct (C6_ordinary_save_freezes sample_running eq_refl eq_refl)
    as (m' & E & _).
  rewrite E. repeat split.
Defined.

(** C7, as specified, fails: with [VPMU_CONTEXT_SAVE] set on a
    context that is not loaded, [amd_vpmu_save] returns 0, the result of
    the freeze path, and not 1, the result of a completed save. *)
Lemma C7_counterexample :
  save_requested sample_save_unloaded = true
  /\ loaded sample_save_unloaded = false
  /\ result_of (amd_vpmu_save sample_save_unloaded) = Some 0
  /\ result_of (amd_vpmu_save sample_save_unloaded)
     <> result_of (amd_vpmu_save sample_save_loaded)
  /\ result_of (amd_vpmu_save sample_save_loaded) = Some 1.
Proof. repeat split. discriminate. Qed.

(** C7, amended: with [VPMU_CONTEXT_SAVE] set, [amd_vpmu_save] on a context
    that is not loaded changes nothing and returns 0 (the "stopped" value);
    on a loaded context it reads every counter register of the bank into
    the counter shadow, reads no other register and leaves the control
    shadow alone, reverts every register of the bank to full read-write
    trap exactly when [VPMU_RUNNING] is unset, the vCPU is an HVM vCPU and
    the MSR bitmap is on, and returns 1 ("saved"). *)
Theorem C7_forced_save (m : machine) :
  machine_ok m = true -> save_requested m = true ->
  (loaded m = false -> amd_vpmu_save m = Some (0, m, []))
  /\ (loaded m = true ->
      exists m' t,
        amd_vpmu_save m = Some (1, m', t)
        /\ (forall i, In i (bank m) ->
              shadow_counters m' !! i = Some (msrs m (counter_addr m i)))
        /\ shadow_ctrls m' = shadow_ctrls m
        /\ flags (vpmu m') = flags (vpmu m)
        /\ msrs m' = msrs m
        /\ (forall a v, In (EvRdmsr a v) t ->
              exists i, In i (bank m) /\ a = counter_addr m i)
        /\ (forall a v, ~ In (EvWrmsr a v) t)
        /\ if negb (running m) && is_hvm m && bitmap_on m
           then bitmap_on m' = false
                /\ (forall i, In i (bank m) ->
                      intercepts m' (counter_addr m i) = MSR_INTERCEPT_RW
                      /\ intercepts m' (ctrl_addr m i) = MSR_INTERCEPT_RW
                      /\ In (EvIntercept (counter_addr m i) MSR_INTERCEPT_RW) t
                      /\ In (EvIntercept (ctrl_addr m i) MSR_INTERCEPT_RW) t)
           else bitmap_on m' = bitmap_on m
                /\ intercepts m' = intercepts m
                /\ (forall a md, ~ In (EvIntercept a md) t)).
Proof.
  intros Hok Hs. split; [now apply save_not_loaded_eq|].
  intros Hl. do 2 eexists. split; [now apply save_full_eq|].
  pose proof (context_shadows m (machine_ok_context m Hok)) as (_ & Hlen & _).
  fold (save_unsets_bitmap m).
  assert (Hrd : forall e, In e (read_events (msrs m) (counter_addr m) (bank m)) ->
                          exists i, In i (bank m)
                                    /\ e = EvRdmsr (counter_addr m i)
                                             (msrs m (counter_addr m i)))
    by apply read_events_in.
  assert (Hic : forall e ws, In e (intercept_events ws) ->
                             exists a md, e = EvIntercept a md).
  { intros e ws ([a md] & <- & _)%in_map_iff. eauto. }
  destruct (save_unsets_bitmap m); cbn zeta.
  - split; [|split; [reflexivity|split; [reflexivity|split; [reflexivity|]]]].
    { intros i Hi.
      change (save_counters (msrs m) (counter_addr m) (bank m) (shadow_counters m)
                !! i = Some (msrs m (counter_addr m i))).
      apply save_counters_lookup; [exact Hi|]. apply in_bank in Hi. lia. }
    split; [|split; [|split; [reflexivity|]]].
    + intros a v [H|H]%in_app_iff.
      * destruct (Hrd _ H) as (i & Hi & E). inversion E. eauto.
      * destruct (Hic _ _ H) as (? & ? & E). discriminate E.
    + intros a v [H|H]%in_app_iff.
      * destruct (Hrd _ H) as (i & Hi & E). discriminate E.
      * destruct (Hic _ _ H) as (? & ? & E). discriminate E.
    + intros i Hi. destruct (full_trap_in m i Hi) as [H1 H2]. simpl.
      repeat split.
      * apply apply_intercepts_const; [apply full_trap_rw|].
        apply in_map_iff. now exists (counter_addr m i, MSR_INTERCEPT_RW).
      * apply apply_intercepts_const; [apply full_trap_rw|].
        apply in_map_iff. now exists (ctrl_addr m i, MSR_INTERCEPT_RW).
      * apply in_app_iff. right. now apply intercept_events_in.
      * apply in_app_iff. right. now apply intercept_events_in.
  - rewrite app_nil_r.
    split; [|split; [reflexivity|split; [reflexivity|split; [reflexivity|]]]].
    { intros i Hi.
      change (save_counters (msrs m) (counter_addr m) (bank m) (shadow_counters m)
                !! i = Some (msrs m (counter_addr m i))).
      apply save_counters_lookup; [exact Hi|]. apply in_bank in Hi. lia. }
    split; [|split; [|repeat split]].
    + intros a v H. destruct (Hrd _ H) as (i & Hi & E). inversion E. eauto.
    + intros a v H. destruct (Hrd _ H) as (i & Hi & E). discriminate E.
    + intros a md H. destruct (Hrd _ H) as (i & Hi & E). discriminate E.
Qed.

Lemma C7_witness :
  result_of (amd_vpmu_save sample_save_unloaded) = Some 0
  /\ result_of (amd_vpmu_save sample_save_loaded) = Some 1.
Proof.
  split.
  - rewrite (proj1 (C7_forced_save sample_save_unloaded eq_refl eq_refl) eq_refl).
    reflexivity.
  - destruct (proj2 (C7_forced_save sample_save_loaded eq_refl eq_refl) eq_refl)
      as (m' & t & E & _).
    rewrite E. reflexivity.
Defined.

(** ** Loading *)

(** C9: [amd_vpmu_load] always clears [VPMU_FROZEN].  On a context with
    [VPMU_CONTEXT_LOADED] set it writes the control shadow to the control
    registers and nothing else; otherwise it sets the flag and writes every
    counter and control register from the shadow.  Either way the flag is
    set afterwards, so a second load right after rewrites the control
    registers only. *)
Theorem C9_load_reloads_controls_when_loaded (m : machine) :
  machine_ok m = true ->
  exists m' t,
    amd_vpmu_load m = Some (tt, m', t)
    /\ frozen m' = false
    /\ loaded m' = true
    /\ running m' = running m
    /\ context (vpmu m') = context (vpmu m)
    /\ (if loaded m
        then t = write_events (ctrl_load_writes m)
             /\ msrs m' = apply_writes (ctrl_load_writes m) (msrs m)
        else t = write_events (full_load_writes m)
             /\ msrs m' = apply_writes (full_load_writes m) (msrs m))
    /\ (forall a v, In (a, v) (ctrl_load_writes m) ->
          exists i, In i (bank m) /\ a = ctrl_addr m i /\ v = shadow_ctrl m i)
    /\ (glob m = layout_f10h \/ glob m = layout_f15h ->
        forall a v, In (a, v) (ctrl_load_writes m) ->
                    get_pmu_reg_type a = MSR_TYPE_CTRL)
    /\ (forall i, In i (bank m) ->
          In (counter_addr m i, shadow_counter m i) (full_load_writes m)
          /\ In (ctrl_addr m i, shadow_ctrl m i) (full_load_writes m))
    /\ exists m'',
         amd_vpmu_load m' = Some (tt, m'', write_events (ctrl_load_writes m))
         /\ msrs m'' = apply_writes (ctrl_load_writes m) (msrs m')
         /\ frozen m'' = false /\ loaded m'' = true.
Proof.
  intros Hok.
  assert (Hrest :
    (forall a v, In (a, v) (ctrl_load_writes m) ->
       exists i, In i (bank m) /\ a = ctrl_addr m i /\ v = shadow_ctrl m i)
    /\ (glob m = layout_f10h \/ glob m = layout_f15h ->
        forall a v, In (a, v) (ctrl_load_writes m) ->
                    get_pmu_reg_type a = MSR_TYPE_CTRL)
    /\ (forall i, In i (bank m) ->
          In (counter_addr m i, shadow_counter m i) (full_load_writes m)
          /\ In (ctrl_addr m i, shadow_ctrl m i) (full_load_writes m))).
  { split; [apply ctrl_load_writes_in|split].
    - intros Hg a v (i & Hi & -> & _)%ctrl_load_writes_in.
      now apply resolved_ctrl_type.
    - intros i Hi. unfold full_load_writes.
      split; apply in_flat_map; exists i; simpl; tauto. }
  destruct Hrest as (R1 & R2 & R3).
  destruct (loaded m) eqn:Hl.
  - do 2 eexists. split; [now apply load_loaded_eq|].
    set (m1 := set_msrs _ _).
    assert (Hl1 : loaded m1 = true).
    { unfold loaded, m1. simpl. now flag_simpl. }
    assert (Hf1 : frozen m1 = false).
    { unfold frozen, m1. simpl. now flag_simpl. }
    split_and!; try assumption; try reflexivity.
    + unfold running, m1. simpl. now flag_simpl.
    + eexists. split; [exact (load_loaded_eq m1 Hok Hl1)|].
      unfold loaded, frozen. simpl. flag_simpl. fold (loaded m).
      now rewrite Hl.
  - do 2 eexists. split; [now apply load_full_eq|].
    set (m1 := set_msrs _ _).
    assert (Hl1 : loaded m1 = true).
    { unfold loaded, m1. simpl. now flag_simpl. }
    assert (Hf1 : frozen m1 = false).
    { unfold frozen, m1. simpl. now flag_simpl. }
    split_and!; try assumption; try reflexivity.
    + unfold running, m1. simpl. now flag_simpl.
    + eexists. split; [exact (load_loaded_eq m1 Hok Hl1)|].
      unfold loaded, frozen. simpl. now flag_simpl.
Qed.

Lemma C9_witness :
  events_of (amd_vpmu_load sample_frozen)
  = write_events (full_load_writes sample_frozen).
Proof.
  destruct (C9_load_reloads_controls_when_loaded sample_frozen eq_refl)
    as (m' & t & E & _ & _ & _ & _ & Ht & _).
  rewrite E. simpl in Ht. destruct Ht as [Ht _]. exact Ht.
Defined.

(** ** Initialisation *)

(** C5, as specified, fails: with the mode on and an empty layout
    table (here after the size check has emptied it), the result of
    [svm_vpmu_initialise] is the error [-EINVAL], not the 0 that it returns
    when the mode is off. *)
Lemma C5_counterexample :
  fst (amd_vpmu_init 0x15 4090 4096 globals_boot) = - ENOSPC
  /\ num_counters globals_too_big = 0%nat
  /\ result_of (svm_vpmu_initialise 1 true sample_disabled) = Some (- EINVAL)
  /\ result_of (svm_vpmu_initialise XENPMU_MODE_OFF true sample_disabled) = Some 0
  /\ result_of (svm_vpmu_initialise 1 true sample_disabled)
     <> result_of (svm_vpmu_initialise XENPMU_MODE_OFF true sample_disabled).
Proof. repeat split. discriminate. Qed.

(** C5, amended: [svm_vpmu_initialise] returns 0, no error, when the mode
    is off; it returns the error [-EINVAL] when the layout table is empty,
    which is the case for every initialisation after the size check of
    [amd_vpmu_init] has failed and forced the bank size to 0; it returns
    [-ENOMEM] when the allocation fails.  In all three cases the virtual
    CPU is left as it was: no context, no flag, no operation table. *)
Theorem C5_initialise_without_context (mode : Z) (alloc_ok : bool) (m : machine) :
  (mode = XENPMU_MODE_OFF ->
   svm_vpmu_initialise mode alloc_ok m = Some (0, m, []))
  /\ (mode <> XENPMU_MODE_OFF -> counters (glob m) = None ->
      svm_vpmu_initialise mode alloc_ok m = Some (- EINVAL, m, []))
  /\ (mode <> XENPMU_MODE_OFF -> counters (glob m) <> None -> alloc_ok = false ->
      svm_vpmu_initialise mode alloc_ok m = Some (- ENOMEM, m, []))
  /\ (forall x86 size page g,
        fst (amd_vpmu_init x86 size page g) = - ENOSPC ->
        glob m = snd (amd_vpmu_init x86 size page g) ->
        num_counters (glob m) = 0%nat
        /\ (mode <> XENPMU_MODE_OFF ->
            svm_vpmu_initialise mode alloc_ok m = Some (- EINVAL, m, []))).
Proof.
  assert (Hinval : mode <> XENPMU_MODE_OFF -> counters (glob m) = None ->
                   svm_vpmu_initialise mode alloc_ok m = Some (- EINVAL, m, [])).
  { intros Hm Hc. unfold svm_vpmu_initialise.
    apply Z.eqb_neq in Hm. rewrite Hm. exec. now rewrite Hc. }
  split; [|split; [exact Hinval|split]].
  - intros ->. reflexivity.
  - intros Hm Hc ->. unfold svm_vpmu_initialise.
    apply Z.eqb_neq in Hm. rewrite Hm. exec.
    destruct (counters (glob m)); [reflexivity|contradiction].
  - intros x86 size page g Hret Hg.
    assert (Hs : num_counters (glob m) = 0%nat /\ counters (glob m) = None).
    { rewrite Hg. revert Hret. unfold amd_vpmu_init.
      destruct (x86 =? 21);
        [|destruct ((x86 =? 16) || (x86 =? 18) || (x86 =? 20) || (x86 =? 22))];
        cbv zeta; try discriminate;
        match goal with |- context [if ?c then _ else _] => destruct c end;
        simpl; try discriminate; auto. }
    destruct Hs as [Hn Hc]. split; [exact Hn|]. intros Hm. now apply Hinval.
Qed.

Lemma C5_witness :
  svm_vpmu_initialise 1 true sample_disabled = Some (- EINVAL, sample_disabled, []).
Proof.
  apply (proj2 (proj2 (proj2
           (C5_initialise_without_context 1 true sample_disabled)))
           0x15 4090 4096 globals_boot eq_refl eq_refl).
  discriminate.
Defined.

(** ** A write the arbiter turns down *)

Lemma acquire_denied m who :
  result_of (acquire_pmu_ownership who m) = Some false ->
  acquire_pmu_ownership who m = Some (false, m, [EvAcquire who false]).
Proof.
  unfold acquire_pmu_ownership. destruct (token m) as [o|]; [|discriminate].
  destruct (decide (o = who)); [discriminate|reflexivity].
Qed.

Lemma do_wrmsr_unfold msr v m :
  amd_vpmu_do_wrmsr msr v 0 m
  = (if first_enable m msr (forced_value m msr v)
     then
       granted <- acquire_pmu_ownership PMU_OWNER_HVM ;;
       if negb granted then ret 1
       else
         vpmu_set VPMU_RUNNING ;;;
         bitmap <- is_msr_bitmap_on ;;
         (if is_hvm m && bitmap then amd_vpmu_set_msr_bitmap else ret tt) ;;;
         do_wrmsr_commit msr (forced_value m msr v)
     else do_wrmsr_commit msr (forced_value m msr v)) m.
Proof.
  unfold amd_vpmu_do_wrmsr. change (ASSERT (0 =? 0)) with (@ret unit tt).
  exec. reflexivity.
Qed.

(** C3: a control-register write with the enable bit set, on a context
    with [VPMU_RUNNING] unset, for which [acquire_pmu_ownership] is denied,
    returns 1 ("handled") and does nothing else: the machine (register
    file, shadow arrays, flags, intercept settings, token) is the one
    before the call, and the only call made is the denied acquisition. *)
Theorem C3_denied_write_is_dropped (m : machine) (msr v : Z) :
  get_pmu_reg_type msr = MSR_TYPE_CTRL ->
  is_pmu_enabled v = true ->
  running m = false ->
  result_of (acquire_pmu_ownership PMU_OWNER_HVM m) = Some false ->
  amd_vpmu_do_wrmsr msr v 0 m = Some (1, m, [EvAcquire PMU_OWNER_HVM false]).
Proof.
  intros Ht He Hr Hd. rewrite do_wrmsr_unfold.
  unfold first_enable. rewrite Ht, enabled_forced, He, Hr. simpl.
  now rewrite (bind_eq _ _ _ _ _ _ (acquire_denied m _ Hd)).
Qed.

Lemma C3_witness :
  amd_vpmu_do_wrmsr MSR_K7_EVNTSEL0 EVNTSEL_ENABLE 0 sample_contended
  = Some (1, sample_contended, [EvAcquire PMU_OWNER_HVM false]).
Proof.
  apply C3_denied_write_is_dropped; reflexivity.
Defined.

(** ** Stepping through a handler *)

Lemma wp_ret {A} (a : A) m (Q : A -> machine -> list event -> Prop) :
  Q a m [] -> wp (ret a) m Q.
Proof. exact (fun H => H). Qed.

Lemma wp_gets {A} (g : machine -> A) m (Q : A -> machine -> list event -> Prop) :
  Q (g m) m [] -> wp (gets g) m Q.
Proof. exact (fun H => H). Qed.

Lemma wp_modify (g : machine -> machine) m
  (Q : unit -> machine -> list event -> Prop) :
  Q tt (g m) [] -> wp (modify g) m Q.
Proof. exact (fun H => H). Qed.

Lemma wp_wrmsrl a v m (Q : unit -> machine -> list event -> Prop) :
  Q tt (set_msrs m (upd (msrs m) a v)) [EvWrmsr a v] -> wp (wrmsrl a v) m Q.
Proof. exact (fun H => H). Qed.

Lemma wp_rdmsrl a m (Q : Z -> machine -> list event -> Prop) :
  Q (msrs m a) m [EvRdmsr a (msrs m a)] -> wp (rdmsrl a) m Q.
Proof. exact (fun H => H). Qed.

Ltac wp_step :=
  lazymatch goal with
  | |- wp (bind _ _) _ _ => apply wp_bind
  | |- wp (ret _) _ _ => apply wp_ret
  | |- wp (gets _) _ _ => apply wp_gets
  | |- wp (modify _) _ _ => apply wp_modify
  | |- wp (wrmsrl _ _) _ _ => apply wp_wrmsrl
  | |- wp (rdmsrl _) _ _ => apply wp_rdmsrl
  | |- wp (vpmu_is_set _) _ _ => unfold vpmu_is_set
  | |- wp (vpmu_set _) _ _ => unfold vpmu_set
  | |- wp (vpmu_reset _) _ _ => unfold vpmu_reset
  | |- wp vpmu_clear _ _ => unfold vpmu_clear
  | |- wp has_hvm_container_vcpu _ _ => unfold has_hvm_container_vcpu
  | |- wp is_msr_bitmap_on _ _ => unfold is_msr_bitmap_on
  end; cbv beta.

Ltac wp_steps := repeat wp_step.

Lemma same_bank_refl m : same_bank m m.
Proof. now repeat split. Qed.

Lemma same_bank_trans m1 m2 m3 :
  same_bank m1 m2 -> same_bank m2 m3 -> same_bank m1 m3.
Proof.
  intros (A1 & A2 & A3) (B1 & B2 & B3). repeat split; congruence.
Qed.

Lemma same_bank_ok m m' : same_bank m m' -> machine_ok m' = machine_ok m.
Proof.
  intros (Hg & _ & Hc). unfold machine_ok, context_ok. now rewrite Hg, Hc.
Qed.

Lemma same_bank_matched m m' msr :
  same_bank m m' -> matched_reg m' msr = matched_reg m msr.
Proof.
  intros (Hg & _ & _).
  unfold matched_reg, redirect, bank, ctrl_addr, counter_addr. now rewrite Hg.
Qed.

Lemma same_bank_update m m' r v :
  same_bank m m' ->
  context (vpmu (update_shadow m' r v)) = context (vpmu (update_shadow m r v)).
Proof.
  intros (_ & _ & Hc). unfold update_shadow, shadow_counters, shadow_ctrls.
  rewrite Hc. now destruct r as [[i|i]|].
Qed.

(** ** The blocks of [amd_vpmu_do_wrmsr] *)

Lemma stop_counting_wp m msr v :
  layout_ok (glob m) = true ->
  wp (stop_counting msr v) m (fun _ m' t =>
    same_bank m m'
    /\ running m'
       = (if (get_pmu_reg_type msr =? MSR_TYPE_CTRL) && negb (is_pmu_enabled v)
          then false else running m)).
Proof.
  intros Hlay. unfold stop_counting. wp_steps. fold (running m).
  destruct ((get_pmu_reg_type msr =? MSR_TYPE_CTRL) && negb (is_pmu_enabled v))
    eqn:Hc; cbn [andb].
  - destruct (running m) eqn:Hr; [|wp_steps; split; [apply same_bank_refl|exact Hr]].
    wp_steps. set (m1 := set_vpmu m _).
    assert (Hr1 : running m1 = false).
    { unfold running, m1. simpl. now flag_simpl. }
    change (is_hvm m1) with (is_hvm m).
    destruct (is_hvm m && negb (priv_context (vpmu m1) =? 0)).
    + eapply wp_eq; [exact (unset_msr_bitmap_eq m1 Hlay)|].
      unfold wp, release_pmu_ownship. simpl.
      destruct (token m) as [o|]; [destruct (decide (o = PMU_OWNER_HVM))|];
        (split; [now repeat split|]); unfold running; simpl; now flag_simpl.
    + wp_steps. unfold wp, release_pmu_ownship.
      destruct (token m1) as [o|]; [destruct (decide (o = PMU_OWNER_HVM))|];
        (split; [now repeat split|]); exact Hr1.
  - wp_steps. split; [apply same_bank_refl|reflexivity].
Qed.

Lemma stale_false m :
  negb (loaded m) || frozen m = false -> loaded m = true /\ frozen m = false.
Proof. destruct (loaded m), (frozen m); simpl; intros E; now try discriminate. Qed.

Lemma reload_wp m :
  machine_ok m = true ->
  wp reload_if_stale m (fun _ m' t =>
    same_bank m m' /\ loaded m' = true /\ frozen m' = false
    /\ running m' = running m).
Proof.
  intros Hok. unfold reload_if_stale. wp_steps. fold (loaded m) (frozen m).
  destruct (negb (loaded m) || frozen m) eqn:E.
  - wp_step.
    eapply wp_eq;
      [exact (context_load_eq m (machine_ok_layout m Hok) (machine_ok_context m Hok))|].
    wp_steps. unfold loaded, frozen, running. simpl. flag_simpl.
    now repeat split.
  - wp_steps. destruct (stale_false m E) as [Hl Hf].
    split; [apply same_bank_refl|]. now repeat split.
Qed.

(** What an accepted write leaves behind. *)
Lemma commit_wp m msr v :
  machine_ok m = true ->
  wp (do_wrmsr_commit msr v) m (fun r m' t =>
    r = 1
    /\ same_bank (update_shadow m (matched_reg m msr) v) m'
    /\ (exists t0, t = t0 ++ [EvWrmsr msr v])
    /\ msrs m' msr = v
    /\ loaded m' = true /\ frozen m' = false
    /\ running m'
       = (if (get_pmu_reg_type msr =? MSR_TYPE_CTRL) && negb (is_pmu_enabled v)
          then false else running m)).
Proof.
  intros Hok. unfold do_wrmsr_commit. wp_step.
  eapply wp_mono; [exact (stop_counting_wp m msr v (machine_ok_layout m Hok))|].
  intros _ m1 t1 (Hb1 & Hr1). cbv beta. wp_step.
  assert (Hok1 : machine_ok m1 = true) by now rewrite (same_bank_ok m m1 Hb1).
  eapply wp_mono; [exact (reload_wp m1 Hok1)|].
  intros _ m2 t2 (Hb2 & Hl2 & Hf2 & Hr2). cbv beta. wp_step.
  pose proof (same_bank_trans _ _ _ Hb1 Hb2) as Hb.
  assert (Hok2 : machine_ok m2 = true) by now rewrite (same_bank_ok m m2 Hb).
  eapply wp_eq;
    [exact (context_update_eq m2 (machine_ok_layout m2 Hok2)
              (machine_ok_context m2 Hok2) msr v)|].
  wp_steps. rewrite (same_bank_matched m m2 msr Hb).
  split; [reflexivity|]. split.
  { destruct Hb as (Hg & Hh & Hc). repeat split; simpl.
    - destruct (matched_reg m msr) as [[i|i]|]; simpl; congruence.
    - destruct (matched_reg m msr) as [[i|i]|]; simpl; congruence.
    - symmetry. apply same_bank_update. now repeat split. }
  split; [exists (t1 ++ t2); simpl; now rewrite app_assoc|].
  split; [simpl; apply upd_same|].
  assert (Hflags : forall r, flags (vpmu (update_shadow m2 r v)) = flags (vpmu m2)).
  { now intros [[i|i]|]. }
  unfold loaded, frozen, running in *. simpl. rewrite !Hflags.
  repeat split; congruence.
Qed.

(** The write is not one that the arbiter turns down. *)
Lemma accepted_cases m msr v :
  first_enable m msr (forced_value m msr v) && denied m PMU_OWNER_HVM = false ->
  first_enable m msr (forced_value m msr v) = false
  \/ (first_enable m msr (forced_value m msr v) = true
      /\ (token m = None \/ token m = Some PMU_OWNER_HVM)).
Proof.
  destruct (first_enable m msr (forced_value m msr v)); [|now left].
  unfold denied. simpl. intros H. right. split; [reflexivity|].
  destruct (token m) as [[]|]; simpl in H; try discriminate; auto.
Qed.

Lemma do_wrmsr_accepted m msr v :
  machine_ok m = true ->
  first_enable m msr (forced_value m msr v) && denied m PMU_OWNER_HVM = false ->
  wp (amd_vpmu_do_wrmsr msr v 0) m (fun r m' t =>
    r = 1
    /\ same_bank (update_shadow m (matched_reg m msr) (forced_value m msr v)) m'
    /\ (exists t0, t = t0 ++ [EvWrmsr msr (forced_value m msr v)])
    /\ msrs m' msr = forced_value m msr v
    /\ loaded m' = true /\ frozen m' = false).
Proof.
  intros Hok Hacc. unfold wp. rewrite do_wrmsr_unfold.
  set (v' := forced_value m msr v) in *.
  set (Q := fun (r : Z) (m' : machine) (t : list event) =>
              r = 1 /\ same_bank (update_shadow m (matched_reg m msr) v') m'
              /\ (exists t0, t = t0 ++ [EvWrmsr msr v'])
              /\ msrs m' msr = v' /\ loaded m' = true /\ frozen m' = false).
  assert (HQ : forall r m' t p, Q r m' t -> Q r m' (p ++ t)).
  { intros r m' t p (Hr & Hb & (t0 & ->) & Hrest). unfold Q.
    split; [exact Hr|]. split; [exact Hb|].
    split; [exists (p ++ t0); now rewrite app_assoc|exact Hrest]. }
  assert (Hcommit : forall m1,
    same_bank m m1 -> wp (do_wrmsr_commit msr v') m1 Q).
  { intros m1 Hb.
    assert (Hok1 : machine_ok m1 = true) by now rewrite (same_bank_ok m m1 Hb).
    eapply wp_mono; [exact (commit_wp m1 msr v' Hok1)|].
    intros r m' t (Hr & Hb' & Ht & Hv & Hl & Hf & _). unfold Q.
    rewrite (same_bank_matched m m1 msr Hb) in Hb'.
    split; [exact Hr|]. split; [|now repeat split].
    destruct Hb' as (B1 & B2 & B3). destruct Hb as (A1 & A2 & A3).
    repeat split.
    - rewrite B1. destruct (matched_reg m msr) as [[i|i]|]; simpl; congruence.
    - rewrite B2. destruct (matched_reg m msr) as [[i|i]|]; simpl; congruence.
    - rewrite B3. apply same_bank_update. now repeat split. }
  destruct (accepted_cases m msr v Hacc) as [E | [E Htok]]; fold v' in E; rewrite E.
  - exact (Hcommit m (same_bank_refl m)).
  - match goal with |- match ?x m with _ => _ end => change (wp x m Q) end.
    wp_step.
    assert (Hacq : exists m1,
      acquire_pmu_ownership PMU_OWNER_HVM m
      = Some (true, m1, [EvAcquire PMU_OWNER_HVM true]) /\ same_bank m m1
        /\ vpmu m1 = vpmu m).
    { unfold acquire_pmu_ownership. destruct Htok as [-> | ->].
      - eexists. split; [reflexivity|]. now repeat split.
      - simpl. eexists. split; [reflexivity|]. now repeat split. }
    destruct Hacq as (m1 & Hacq & Hb1 & Hv1).
    eapply wp_eq; [exact Hacq|]. cbn [negb]. wp_steps.
    set (m2 := set_vpmu m1 _).
    assert (Hb2 : same_bank m m2).
    { destruct Hb1 as (A1 & A2 & A3). now repeat split. }
    destruct (is_hvm m && negb (priv_context (vpmu m2) =? 0)).
    + assert (Hlay2 : layout_ok (glob m2) = true).
      { apply machine_ok_layout. now rewrite (same_bank_ok m m2 Hb2). }
      eapply wp_eq; [exact (set_msr_bitmap_eq m2 Hlay2)|].
      eapply wp_mono; [apply Hcommit|].
      * destruct Hb2 as (A1 & A2 & A3). now repeat split.
      * intros r m' t H. repeat apply HQ. exact H.
    + wp_steps. eapply wp_mono; [apply (Hcommit m2 Hb2)|].
      intros r m' t H. repeat apply HQ. exact H.
Qed.

(** ** Reading back, aliases and unmatched addresses *)

Lemma reload_fresh m :
  loaded m = true -> frozen m = false -> reload_if_stale m = Some (tt, m, []).
Proof.
  intros Hl Hf. unfold reload_if_stale. exec.
  fold (loaded m) (frozen m). now rewrite Hl, Hf.
Qed.

Lemma rdmsr_fresh m msr :
  loaded m = true -> frozen m = false ->
  amd_vpmu_do_rdmsr msr m
  = Some ((1, msrs m msr), m, [EvRdmsr msr (msrs m msr)]).
Proof.
  intros Hl Hf. unfold amd_vpmu_do_rdmsr.
  now rewrite (bind_eq _ _ _ _ _ _ (reload_fresh m Hl Hf)).
Qed.

Lemma acquire_result m who :
  result_of (acquire_pmu_ownership who m) = Some (negb (denied m who)).
Proof.
  unfold acquire_pmu_ownership, denied. destruct (token m) as [o|]; [|reflexivity].
  destruct (decide (o = who)) as [E|E].
  - now rewrite (bool_decide_eq_true_2 _ E).
  - now rewrite (bool_decide_eq_false_2 _ E).
Qed.

Lemma do_wrmsr_rejected m msr v :
  accepted m msr v = false ->
  amd_vpmu_do_wrmsr msr v 0 m = Some (1, m, [EvAcquire PMU_OWNER_HVM false]).
Proof.
  unfold accepted. intros [E D]%negb_false_iff%andb_true_iff.
  rewrite do_wrmsr_unfold, E.
  assert (Hd : result_of (acquire_pmu_ownership PMU_OWNER_HVM m) = Some false)
    by now rewrite acquire_result, D.
  now rewrite (bind_eq _ _ _ _ _ _ (acquire_denied m _ Hd)).
Qed.

Lemma do_wrmsr_accepted_run m msr v :
  machine_ok m = true -> accepted m msr v = true ->
  exists m' t0,
    amd_vpmu_do_wrmsr msr v 0 m
    = Some (1, m', t0 ++ [EvWrmsr msr (forced_value m msr v)])
    /\ same_bank (update_shadow m (matched_reg m msr) (forced_value m msr v)) m'
    /\ msrs m' msr = forced_value m msr v
    /\ loaded m' = true /\ frozen m' = false.
Proof.
  intros Hok Hacc. apply negb_true_iff in Hacc.
  destruct (wp_run _ _ _ (do_wrmsr_accepted m msr v Hok Hacc))
    as (r & m' & t & E & -> & Hb & (t0 & ->) & Hrest).
  now exists m', t0.
Qed.

Lemma guest_mode_bit v :
  is_guest_mode v = true -> Z.lor v EVNTSEL_GUEST_ONLY = v.
Proof.
  unfold is_guest_mode. intros H%negb_true_iff%Z.eqb_neq.
  apply Z.bits_inj'; intros n Hn. rewrite Z.lor_spec.
  destruct (Z.testbit v n) eqn:Hv; [reflexivity|]. simpl.
  destruct (Z.eq_dec n 40) as [->|Hne].
  - exfalso. apply H. apply Z.bits_inj'; intros k Hk.
    rewrite Z.land_spec, Z.bits_0.
    destruct (Z.eq_dec k 40) as [->|Hk40]; [now rewrite Hv|].
    change (Z.shiftl 1 MSR_F10H_EVNTSEL_GO_SHIFT) with (2 ^ 40).
    rewrite (Z.pow2_bits_false 40 k) by lia. apply andb_false_r.
  - change EVNTSEL_GUEST_ONLY with (2 ^ 40).
    apply Z.pow2_bits_false. lia.
Qed.

Lemma forced_value_hvm_ctrl m msr v :
  is_hvm m = true -> get_pmu_reg_type msr = MSR_TYPE_CTRL ->
  forced_value m msr v = Z.lor v EVNTSEL_GUEST_ONLY.
Proof.
  intros Hh Ht. unfold forced_value. rewrite Hh, Ht. simpl.
  destruct (is_guest_mode v) eqn:E; simpl; [|reflexivity].
  symmetry. now apply guest_mode_bit.
Qed.

Lemma forced_value_other m msr v :
  is_hvm m = false \/ get_pmu_reg_type msr <> MSR_TYPE_CTRL ->
  forced_value m msr v = v.
Proof.
  unfold forced_value. intros [-> | H]; [reflexivity|].
  apply Z.eqb_neq in H. rewrite H. now rewrite andb_false_r.
Qed.

Lemma guest_only_other_bits v n :
  0 <= n -> n <> 40 ->
  Z.testbit (Z.lor v EVNTSEL_GUEST_ONLY) n = Z.testbit v n.
Proof.
  intros Hn Hne. rewrite Z.lor_spec. change EVNTSEL_GUEST_ONLY with (2 ^ 40).
  rewrite (Z.pow2_bits_false 40 n) by lia. apply orb_false_r.
Qed.

Lemma same_bank_shadows m m' :
  same_bank m m' ->
  shadow_counters m' = shadow_counters m /\ shadow_ctrls m' = shadow_ctrls m.
Proof.
  intros (_ & _ & Hc). unfold shadow_counters, shadow_ctrls. now rewrite Hc.
Qed.

(** C8, as specified, fails: on an HVM vCPU whose first enabling write
    is turned down by the arbiter, the register reads back as it was (here
    0), without the enable bit and without the guest-only bit. *)
Lemma C8_counterexample :
  is_hvm sample_contended = true
  /\ get_pmu_reg_type MSR_K7_EVNTSEL0 = MSR_TYPE_CTRL
  /\ is_pmu_enabled EVNTSEL_ENABLE = true
  /\ machine_of (amd_vpmu_do_wrmsr MSR_K7_EVNTSEL0 EVNTSEL_ENABLE 0 sample_contended)
     = Some sample_contended
  /\ result_of (amd_vpmu_do_rdmsr MSR_K7_EVNTSEL0 sample_contended) = Some (1, 0)
  /\ is_guest_mode 0 = false.
Proof. repeat split. Qed.

(** C8, amended: on an HVM vCPU every trapped control-register write,
    with or without the enable bit, goes on with the guest's value with the
    guest-only bit (bit 40) forced on: that bit is set, the enable bit and
    every other bit are as the guest wrote them.  Unless the arbiter turns
    the write down (enable bit set, [VPMU_RUNNING] unset, acquisition
    denied), the forced value is what the matching control shadow entry
    receives and what the closing hardware write carries, and a read of
    the same register right after it returns that value.  A write that is
    turned down returns with nothing written. *)
Theorem C8_accepted_write_reads_back_guest_only (m : machine) (msr v : Z) :
  machine_ok m = true ->
  is_hvm m = true ->
  get_pmu_reg_type msr = MSR_TYPE_CTRL ->
  (is_guest_mode (Z.lor v EVNTSEL_GUEST_ONLY) = true
   /\ is_pmu_enabled (Z.lor v EVNTSEL_GUEST_ONLY) = is_pmu_enabled v
   /\ forall n, 0 <= n -> n <> 40 ->
                Z.testbit (Z.lor v EVNTSEL_GUEST_ONLY) n = Z.testbit v n)
  /\ ((is_pmu_enabled v = true ->
       running m = true
       \/ result_of (acquire_pmu_ownership PMU_OWNER_HVM m) = Some true) ->
      exists m' t0,
        amd_vpmu_do_wrmsr msr v 0 m
        = Some (1, m', t0 ++ [EvWrmsr msr (Z.lor v EVNTSEL_GUEST_ONLY)])
        /\ (forall i, matched_reg m msr = Some (inl i) ->
              shadow_ctrls m' = <[i := Z.lor v EVNTSEL_GUEST_ONLY]> (shadow_ctrls m)
              /\ shadow_counters m' = shadow_counters m)
        /\ amd_vpmu_do_rdmsr msr m'
           = Some ((1, Z.lor v EVNTSEL_GUEST_ONLY), m',
                   [EvRdmsr msr (Z.lor v EVNTSEL_GUEST_ONLY)]))
  /\ (is_pmu_enabled v = true -> running m = false ->
      result_of (acquire_pmu_ownership PMU_OWNER_HVM m) = Some false ->
      amd_vpmu_do_wrmsr msr v 0 m
      = Some (1, m, [EvAcquire PMU_OWNER_HVM false])).
Proof.
  intros Hok Hh Ht.
  pose proof (forced_value_hvm_ctrl m msr v Hh Ht) as Hfv.
  split; [|split].
  - split; [|split].
    + rewrite <- Hfv. now apply guest_mode_forced.
    + rewrite <- Hfv. apply enabled_forced.
    + intros n. apply guest_only_other_bits.
  - intros Hacc.
    assert (Ha : accepted m msr v = true).
    { unfold accepted, first_enable. apply negb_true_iff.
      rewrite enabled_forced.
      destruct (is_pmu_enabled v); [|now rewrite andb_false_r].
      destruct (Hacc eq_refl) as [Hr | Hg].
      - rewrite Hr. now rewrite !andb_false_r.
      - rewrite acquire_result in Hg. injection Hg as Hg.
        apply negb_true_iff in Hg. rewrite Hg. apply andb_false_r. }
    destruct (do_wrmsr_accepted_run m msr v Hok Ha)
      as (m' & t0 & E & Hb & Hv & Hl & Hf).
    rewrite Hfv in E, Hb, Hv. exists m', t0.
    split; [exact E|]. split.
    + intros i Hi. rewrite Hi in Hb.
      apply same_bank_shadows in Hb as [H1 H2]. now rewrite H1, H2.
    + rewrite (rdmsr_fresh m' msr Hl Hf). now rewrite Hv.
  - intros He Hr Hd. apply do_wrmsr_rejected.
    unfold accepted, first_enable. apply negb_false_iff.
    rewrite enabled_forced, He, Hr, Ht.
    rewrite acquire_result in Hd. injection Hd as Hd.
    apply negb_false_iff in Hd. now rewrite Hd.
Qed.

Lemma C8_witness :
  (exists m' t0,
     amd_vpmu_do_wrmsr MSR_K7_EVNTSEL0 EVNTSEL_ENABLE 0 sample_f10h
     = Some (1, m', t0 ++ [EvWrmsr MSR_K7_EVNTSEL0
                             (Z.lor EVNTSEL_ENABLE EVNTSEL_GUEST_ONLY)])
     /\ result_of (amd_vpmu_do_rdmsr MSR_K7_EVNTSEL0 m')
        = Some (1, Z.lor EVNTSEL_ENABLE EVNTSEL_GUEST_ONLY))
  /\ (exists m' t0,
        amd_vpmu_do_wrmsr MSR_K7_EVNTSEL1 5 0 sample_f10h
        = Some (1, m', t0 ++ [EvWrmsr MSR_K7_EVNTSEL1
                                (Z.lor 5 EVNTSEL_GUEST_ONLY)])
        /\ shadow_ctrls m' = [0; Z.lor 5 EVNTSEL_GUEST_ONLY; 0; 0]
        /\ result_of (amd_vpmu_do_rdmsr MSR_K7_EVNTSEL1 m')
           = Some (1, Z.lor 5 EVNTSEL_GUEST_ONLY)).
Proof.
  split.
  - destruct (proj1 (proj2 (C8_accepted_write_reads_back_guest_only
                              sample_f10h MSR_K7_EVNTSEL0 EVNTSEL_ENABLE
                              eq_refl eq_refl eq_refl))
                (fun _ => or_intror eq_refl))
      as (m' & t0 & E & _ & R).
    exists m', t0. split; [exact E|]. now rewrite R.
  - assert (Hn : is_pmu_enabled 5 = true ->
                 running sample_f10h = true
                 \/ result_of (acquire_pmu_ownership PMU_OWNER_HVM sample_f10h)
                    = Some true)
      by (intros _; right; reflexivity).
    destruct (proj1 (proj2 (C8_accepted_write_reads_back_guest_only
                              sample_f10h MSR_K7_EVNTSEL1 5
                              eq_refl eq_refl eq_refl)) Hn)
      as (m' & t0 & E & S & R).
    exists m', t0. split; [exact E|]. split.
    + exact (proj1 (S 1%nat eq_refl)).
    + now rewrite R.
Defined.






(** C10, as specified, fails: on family 10h the extended-bank control
    address matches no table entry, yet a write to it that sets the enable
    bit while another category holds the token is dropped without any
    write to hardware; and when such a write is processed on an HVM vCPU,
    the value that reaches hardware carries the guest-only bit, which the
    guest did not write. *)
Lemma C10_counterexample :
  ~ in_table (ctrls (glob sample_contended))
             (redirect sample_contended MSR_AMD_FAM15H_EVNTSEL0)
  /\ ~ in_table (counters (glob sample_contended))
                (redirect sample_contended MSR_AMD_FAM15H_EVNTSEL0)
  /\ amd_vpmu_do_wrmsr MSR_AMD_FAM15H_EVNTSEL0 EVNTSEL_ENABLE 0 sample_contended
     = Some (1, sample_contended, [EvAcquire PMU_OWNER_HVM false])
  /\ last (events_of (amd_vpmu_do_wrmsr MSR_AMD_FAM15H_EVNTSEL0 5 0 sample_f10h))
     = Some (EvWrmsr MSR_AMD_FAM15H_EVNTSEL0 (Z.lor 5 EVNTSEL_GUEST_ONLY))
  /\ Z.lor 5 EVNTSEL_GUEST_ONLY <> 5.
Proof.
  split; [|split; [|split; [reflexivity|split; [reflexivity|discriminate]]]].
  - simpl. intros H. repeat (destruct H as [H|H]; [discriminate H|]). exact H.
  - simpl. intros H. repeat (destruct H as [H|H]; [discriminate H|]). exact H.
Qed.

(** C10, amended: a write whose address, after alias redirection, is in
    neither table leaves both shadow arrays as they were.  If it is not
    turned down by the arbiter it returns 1 and ends with a write of the
    value to the address as trapped, the value being the guest's, with the
    guest-only bit forced on when the address is of control type and the
    vCPU an HVM vCPU.  If it is turned down (control type, enable bit set,
    [VPMU_RUNNING] unset, token denied) it returns 1 and writes nothing. *)
Theorem C10_unmatched_write_keeps_shadows (m : machine) (msr v : Z) :
  machine_ok m = true ->
  ~ in_table (ctrls (glob m)) (redirect m msr) ->
  ~ in_table (counters (glob m)) (redirect m msr) ->
  (accepted m msr v = true ->
   exists m' t0,
     amd_vpmu_do_wrmsr msr v 0 m
     = Some (1, m', t0 ++ [EvWrmsr msr (forced_value m msr v)])
     /\ shadow_counters m' = shadow_counters m
     /\ shadow_ctrls m' = shadow_ctrls m
     /\ msrs m' msr = forced_value m msr v)
  /\ (accepted m msr v = false ->
      amd_vpmu_do_wrmsr msr v 0 m = Some (1, m, [EvAcquire PMU_OWNER_HVM false]))
  /\ (get_pmu_reg_type msr <> MSR_TYPE_CTRL ->
      accepted m msr v = true /\ forced_value m msr v = v)
  /\ (is_hvm m = false -> forced_value m msr v = v)
  /\ (is_hvm m = true -> get_pmu_reg_type msr = MSR_TYPE_CTRL ->
      forced_value m msr v = Z.lor v EVNTSEL_GUEST_ONLY).
Proof.
  intros Hok Hct Hcs.
  assert (Hm : matched_reg m msr = None).
  { apply find_reg_none; [now apply machine_ok_layout|tauto|assumption..]. }
  split; [|split; [apply do_wrmsr_rejected|split; [|split]]].
  - intros Ha.
    destruct (do_wrmsr_accepted_run m msr v Hok Ha) as (m' & t0 & E & Hb & Hv & _).
    rewrite Hm in Hb. apply same_bank_shadows in Hb as [H1 H2].
    exists m', t0. now repeat split.
  - intros Ht. split; [|apply forced_value_other; now right].
    unfold accepted, first_enable. apply Z.eqb_neq in Ht. now rewrite Ht.
  - intros Hh. apply forced_value_other. now left.
  - apply forced_value_hvm_ctrl.
Qed.

Lemma f10h_extended_unmatched a :
  MSR_AMD_FAM15H_EVNTSEL0 <= a <= MSR_AMD_FAM15H_PERFCTR5 ->
  ~ in_table (ctrls (glob sample_f10h)) (redirect sample_f10h a)
  /\ ~ in_table (counters (glob sample_f10h)) (redirect sample_f10h a).
Proof.
  intros Ha. unfold redirect. simpl.
  unfold MSR_AMD_FAM15H_EVNTSEL0, MSR_AMD_FAM15H_PERFCTR5 in Ha.
  split; intros H; repeat (destruct H as [H|H]; [cbv in H; lia|]); exact H.
Qed.

Lemma C10_witness :
  exists m' t0,
    amd_vpmu_do_wrmsr MSR_AMD_FAM15H_PERFCTR0 7 0 sample_f10h
    = Some (1, m', t0 ++ [EvWrmsr MSR_AMD_FAM15H_PERFCTR0 7])
    /\ shadow_counters m' = [0; 0; 0; 0] /\ shadow_ctrls m' = [0; 0; 0; 0].
Proof.
  assert (Hr : MSR_AMD_FAM15H_EVNTSEL0 <= MSR_AMD_FAM15H_PERFCTR0
               <= MSR_AMD_FAM15H_PERFCTR5) by (split; discriminate).
  destruct (proj1 (C10_unmatched_write_keeps_shadows
                     sample_f10h MSR_AMD_FAM15H_PERFCTR0 7 eq_refl
                     (proj1 (f10h_extended_unmatched _ Hr))
                     (proj2 (f10h_extended_unmatched _ Hr)))
                  eq_refl)
    as (m' & t0 & E & H1 & H2 & _).
  exists m', t0. split; [exact E|]. split; [exact H1|exact H2].
Defined.

(** ** Frame rules *)

Create HintDb frame.

Section FrameRules.
Variable R : machine -> machine -> list event -> Prop.
Context {HR : Frame R}.

Lemma framed_ret {A} (a : A) : framed R (ret a).
Proof. intros m. apply frame_refl. Qed.

Lemma framed_fault {A} : framed R (@fault A).
Proof. intros m. exact I. Qed.

Lemma framed_gets {A} (g : machine -> A) : framed R (gets g).
Proof. intros m. apply frame_refl. Qed.

Lemma framed_of_option {A} (o : option A) : framed R (of_option o).
Proof. destruct o; [apply framed_ret|apply framed_fault]. Qed.

Lemma framed_bind {A B} (x : M A) (f : A -> M B) :
  framed R x -> (forall a, framed R (f a)) -> framed R (bind x f).
Proof.
  intros Hx Hf m. apply wlp_bind.
  eapply wlp_mono; [apply Hx|]. intros a m1 t1 H1. cbv beta in H1 |- *.
  eapply wlp_mono; [apply Hf|]. intros b m2 t2 H2. cbv beta in H2 |- *.
  exact (frame_trans m m1 m2 t1 t2 H1 H2).
Qed.

Lemma framed_if {A} (b : bool) (x y : M A) :
  framed R x -> framed R y -> framed R (if b then x else y).
Proof. now destruct b. Qed.

Lemma framed_for_each l body :
  (forall i, framed R (body i)) -> framed R (for_each l body).
Proof.
  intros Hb. induction l as [|i l IH]; simpl.
  - apply framed_ret.
  - apply framed_bind; [apply Hb|intros _; exact IH].
Qed.

Lemma framed_bank_loop body :
  (forall i, framed R (body i)) -> framed R (bank_loop body).
Proof.
  intros Hb. apply framed_bind; [apply framed_gets|].
  intros n. now apply framed_for_each.
Qed.

Lemma framed_table (f : machine -> option Z) :
  framed R (fun m => of_option (f m) m).
Proof.
  intros m. unfold wlp. destruct (f m); [apply frame_refl|exact I].
Qed.

Lemma framed_counters_at i : framed R (counters_at i).
Proof. apply (framed_table (fun m => table_at (counters (glob m)) i)). Qed.

Lemma framed_ctrls_at i : framed R (ctrls_at i).
Proof. apply (framed_table (fun m => table_at (ctrls (glob m)) i)). Qed.

Lemma framed_get_context : framed R get_context.
Proof.
  intros m. unfold wlp, get_context.
  destruct (context (vpmu m)); [apply frame_refl|exact I].
Qed.

Lemma framed_counter_reg_at i : framed R (counter_reg_at i).
Proof.
  apply framed_bind; [apply framed_get_context|intros c; apply framed_of_option].
Qed.

Lemma framed_ctrl_reg_at i : framed R (ctrl_reg_at i).
Proof.
  apply framed_bind; [apply framed_get_context|intros c; apply framed_of_option].
Qed.

Lemma framed_ASSERT b : framed R (ASSERT b).
Proof. destruct b; [apply framed_ret|apply framed_fault]. Qed.
End FrameRules.

#[export] Hint Resolve framed_ret framed_fault framed_gets framed_of_option
  framed_if framed_counters_at framed_ctrls_at framed_get_context
  framed_counter_reg_at framed_ctrl_reg_at framed_ASSERT : frame.

(** Decomposes a handler along its binds and loops and closes the leaves
    from the hint database. *)
Ltac frame :=
  repeat first
    [ solve [auto with frame]
    | apply framed_bank_loop; [exact _|intros ?]
    | apply framed_for_each; [exact _|intros ?]
    | apply framed_if
    | apply framed_bind; [exact _| |intros ?] ].

#[export] Instance keeps_ownership_frame : Frame keeps_ownership.
Proof.
  split.
  - intros m. split; [reflexivity|split; [reflexivity|]].
    intros who. split; [intros []|intros g []].
  - intros m1 m2 m3 t1 t2 (A1 & A2 & A3) (B1 & B2 & B3).
    split; [congruence|split; [congruence|]]. intros who. split.
    + intros [H|H]%in_app_iff; [now apply (A3 who)|now apply (B3 who)].
    + intros g [H|H]%in_app_iff;
        [now apply (proj2 (A3 who) g)|now apply (proj2 (B3 who) g)].
Qed.

#[export] Instance keeps_bitmap_off_frame : Frame keeps_bitmap_off.
Proof.
  split.
  - intros m Hoff. split; [exact Hoff|split; [reflexivity|]]. intros a md [].
  - intros m1 m2 m3 t1 t2 A B Hoff.
    destruct (A Hoff) as (A1 & A2 & A3). destruct (B A1) as (B1 & B2 & B3).
    split; [exact B1|split; [congruence|]].
    intros a md [H|H]%in_app_iff; [now apply (A3 a md)|now apply (B3 a md)].
Qed.

#[export] Hint Resolve keeps_ownership_frame keeps_bitmap_off_frame : frame.

(** *** Leaves that keep the token and [VPMU_RUNNING] *)

Lemma own_modify g :
  (forall m, token (g m) = token m /\ running (g m) = running m) ->
  framed keeps_ownership (modify g).
Proof.
  intros H m. destruct (H m) as [H1 H2]. unfold wlp, modify.
  split; [exact H1|split; [exact H2|]].
  intros who. split; [intros []|intros b []].
Qed.

Lemma own_vpmu_set x :
  Z.land x VPMU_RUNNING = 0 -> framed keeps_ownership (vpmu_set x).
Proof.
  intros Hx. apply own_modify. intros m. split; [reflexivity|].
  unfold running. simpl. now apply flag_set_other.
Qed.

Lemma own_vpmu_reset x :
  Z.land x VPMU_RUNNING = 0 -> framed keeps_ownership (vpmu_reset x).
Proof.
  intros Hx. apply own_modify. intros m. split; [reflexivity|].
  unfold running. simpl. now apply flag_reset_other.
Qed.

Lemma own_wrmsrl a v : framed keeps_ownership (wrmsrl a v).
Proof.
  intros m. unfold wlp, wrmsrl. split; [reflexivity|split; [reflexivity|]].
  intros who. split; [|intros g]; intros [H|[]]; discriminate H.
Qed.

Lemma own_rdmsrl a : framed keeps_ownership (rdmsrl a).
Proof.
  intros m. unfold wlp, rdmsrl. split; [reflexivity|split; [reflexivity|]].
  intros who. split; [|intros g]; intros [H|[]]; discriminate H.
Qed.

Lemma own_svm_intercept_msr a md : framed keeps_ownership (svm_intercept_msr a md).
Proof.
  intros m. unfold wlp, svm_intercept_msr.
  split; [reflexivity|split; [reflexivity|]].
  intros who. split; [|intros g]; intros [H|[]]; discriminate H.
Qed.

Lemma own_emit_free : framed keeps_ownership (emit EvFree).
Proof.
  intros m. unfold wlp, emit. split; [reflexivity|split; [reflexivity|]].
  intros who. split; [|intros g]; intros [H|[]]; discriminate H.
Qed.

Lemma own_put_context c : framed keeps_ownership (put_context c).
Proof. apply own_modify. now intros m. Qed.

Lemma own_msr_bitmap_on : framed keeps_ownership msr_bitmap_on.
Proof. apply own_modify. now intros m. Qed.

Lemma own_msr_bitmap_off : framed keeps_ownership msr_bitmap_off.
Proof. apply own_modify. now intros m. Qed.

#[export] Hint Resolve own_wrmsrl own_rdmsrl own_svm_intercept_msr own_emit_free
  own_put_context own_msr_bitmap_on own_msr_bitmap_off : frame.
#[export] Hint Extern 1 (framed keeps_ownership (vpmu_set _)) =>
  apply own_vpmu_set; reflexivity : frame.
#[export] Hint Extern 1 (framed keeps_ownership (vpmu_reset _)) =>
  apply own_vpmu_reset; reflexivity : frame.
#[export] Hint Extern 1 (framed _ (vpmu_is_set _)) =>
  unfold vpmu_is_set; apply framed_gets : frame.
#[export] Hint Extern 1 (framed _ has_hvm_container_vcpu) =>
  unfold has_hvm_container_vcpu; apply framed_gets : frame.
#[export] Hint Extern 1 (framed _ is_msr_bitmap_on) =>
  unfold is_msr_bitmap_on; apply framed_gets : frame.

Lemma own_store_counter_reg i v : framed keeps_ownership (store_counter_reg i v).
Proof.
  unfold store_counter_reg. apply framed_bind; [exact _|auto with frame|].
  intros c.
  destruct (decide (i < length (counter_regs c))%nat); auto with frame.
Qed.

Lemma own_store_ctrl_reg i v : framed keeps_ownership (store_ctrl_reg i v).
Proof.
  unfold store_ctrl_reg. apply framed_bind; [exact _|auto with frame|].
  intros c.
  destruct (decide (i < length (ctrl_regs c))%nat); auto with frame.
Qed.

#[export] Hint Resolve own_store_counter_reg own_store_ctrl_reg : frame.

Lemma own_set_msr_bitmap : framed keeps_ownership amd_vpmu_set_msr_bitmap.
Proof. unfold amd_vpmu_set_msr_bitmap. frame. Qed.

Lemma own_unset_msr_bitmap : framed keeps_ownership amd_vpmu_unset_msr_bitmap.
Proof. unfold amd_vpmu_unset_msr_bitmap. frame. Qed.

Lemma own_context_load : framed keeps_ownership context_load.
Proof. unfold context_load. frame. Qed.

Lemma own_context_save : framed keeps_ownership context_save.
Proof. unfold context_save. frame. Qed.

#[export] Hint Resolve own_set_msr_bitmap own_unset_msr_bitmap own_context_load
  own_context_save : frame.

Lemma own_context_update_loop msr v l :
  framed keeps_ownership (context_update_loop msr v l).
Proof.
  induction l as [|i l IH]; simpl; [auto with frame|]. frame.
Qed.

Lemma own_context_update msr v : framed keeps_ownership (context_update msr v).
Proof. unfold context_update. frame. apply own_context_update_loop. Qed.

Lemma own_reload_if_stale : framed keeps_ownership reload_if_stale.
Proof. unfold reload_if_stale. frame. Qed.

#[export] Hint Resolve own_context_update own_reload_if_stale : frame.

Lemma own_load : framed keeps_ownership amd_vpmu_load.
Proof. unfold amd_vpmu_load. frame. Qed.

Lemma own_save : framed keeps_ownership amd_vpmu_save.
Proof. unfold amd_vpmu_save. frame. Qed.

Lemma own_rdmsr msr : framed keeps_ownership (amd_vpmu_do_rdmsr msr).
Proof. unfold amd_vpmu_do_rdmsr. frame. Qed.

Lemma own_initialise mode alloc_ok :
  framed keeps_ownership (svm_vpmu_initialise mode alloc_ok).
Proof.
  unfold svm_vpmu_initialise. frame.
  destruct a; frame; apply own_modify; now intros m.
Qed.

(** *** Leaves that leave a switched-off MSR bitmap off *)

Lemma wlp_true {A} (x : M A) m : wlp x m (fun _ _ _ => True).
Proof. unfold wlp. now destruct (x m) as [[[a m1] t1]|]. Qed.

Lemma off_modify g :
  (forall m, bitmap_on m = false ->
             bitmap_on (g m) = false /\ intercepts (g m) = intercepts m) ->
  framed keeps_bitmap_off (modify g).
Proof.
  intros H m Hoff. destruct (H m Hoff) as [H1 H2].
  split; [exact H1|split; [exact H2|]]. intros a md [].
Qed.

Lemma off_flags (h : Z -> Z) :
  framed keeps_bitmap_off
    (modify (fun m => set_vpmu m (set_flags (vpmu m) (h (flags (vpmu m)))))).
Proof. apply off_modify. now intros m. Qed.

Lemma off_vpmu_set x : framed keeps_bitmap_off (vpmu_set x).
Proof. apply (off_flags (fun f => flag_set f x)). Qed.

Lemma off_vpmu_reset x : framed keeps_bitmap_off (vpmu_reset x).
Proof. apply (off_flags (fun f => flag_reset f x)). Qed.

Lemma off_vpmu_clear : framed keeps_bitmap_off vpmu_clear.
Proof. apply (off_flags (fun _ => flag_clear)). Qed.

Lemma off_put_context c : framed keeps_bitmap_off (put_context c).
Proof. apply off_modify. now intros m. Qed.

Lemma off_wrmsrl a v : framed keeps_bitmap_off (wrmsrl a v).
Proof.
  intros m Hoff. split; [exact Hoff|split; [reflexivity|]].
  intros b md [H|[]]. discriminate H.
Qed.

Lemma off_rdmsrl a : framed keeps_bitmap_off (rdmsrl a).
Proof.
  intros m Hoff. split; [exact Hoff|split; [reflexivity|]].
  intros b md [H|[]]. discriminate H.
Qed.

Lemma off_emit_free : framed keeps_bitmap_off (emit EvFree).
Proof.
  intros m Hoff. split; [exact Hoff|split; [reflexivity|]].
  intros b md [H|[]]. discriminate H.
Qed.

Lemma off_acquire who : framed keeps_bitmap_off (acquire_pmu_ownership who).
Proof.
  intros m. unfold wlp, acquire_pmu_ownership.
  destruct (token m) as [o|]; [destruct (decide (o = who))|];
    intros Hoff; (split; [exact Hoff|split; [reflexivity|]]);
    intros b md [H|[]]; discriminate H.
Qed.

Lemma off_release who : framed keeps_bitmap_off (release_pmu_ownship who).
Proof.
  intros m. unfold wlp, release_pmu_ownship.
  destruct (token m) as [o|]; [destruct (decide (o = who))|];
    intros Hoff; (split; [exact Hoff|split; [reflexivity|]]);
    intros b md [H|[]]; discriminate H.
Qed.

#[export] Hint Resolve off_vpmu_set off_vpmu_reset off_vpmu_clear off_put_context
  off_wrmsrl off_rdmsrl off_emit_free off_acquire off_release : frame.

(** A call guarded by the bitmap flag is not made while the flag is off. *)
Lemma off_bitmap_read {A} (f : bool -> M A) :
  framed keeps_bitmap_off (f false) ->
  framed keeps_bitmap_off (bind is_msr_bitmap_on f).
Proof.
  intros H m. unfold is_msr_bitmap_on. unfold wlp. rewrite bind_gets.
  fold (bitmap_on m). destruct (bitmap_on m) eqn:E.
  - eapply wlp_mono; [apply wlp_true|]. intros a m' t _ Hoff. congruence.
  - apply H.
Qed.

Ltac frame_off :=
  repeat first
    [ solve [auto with frame]
    | apply off_bitmap_read; cbv beta; rewrite ?andb_false_r
    | apply framed_bank_loop; [exact _|intros ?]
    | apply framed_for_each; [exact _|intros ?]
    | apply framed_if
    | apply framed_bind; [exact _| |intros ?] ].

Lemma off_store_counter_reg i v : framed keeps_bitmap_off (store_counter_reg i v).
Proof.
  unfold store_counter_reg. apply framed_bind; [exact _|auto with frame|].
  intros c.
  destruct (decide (i < length (counter_regs c))%nat); auto with frame.
Qed.

Lemma off_store_ctrl_reg i v : framed keeps_bitmap_off (store_ctrl_reg i v).
Proof.
  unfold store_ctrl_reg. apply framed_bind; [exact _|auto with frame|].
  intros c.
  destruct (decide (i < length (ctrl_regs c))%nat); auto with frame.
Qed.

#[export] Hint Resolve off_store_counter_reg off_store_ctrl_reg : frame.

Lemma off_context_load : framed keeps_bitmap_off context_load.
Proof. unfold context_load. frame_off. Qed.

Lemma off_context_save : framed keeps_bitmap_off context_save.
Proof. unfold context_save. frame_off. Qed.

Lemma off_context_update_loop msr v l :
  framed keeps_bitmap_off (context_update_loop msr v l).
Proof.
  induction l as [|i l IH]; simpl; [auto with frame|]. frame_off.
Qed.

Lemma off_context_update msr v : framed keeps_bitmap_off (context_update msr v).
Proof. unfold context_update. frame_off. apply off_context_update_loop. Qed.

#[export] Hint Resolve off_context_load off_context_save off_context_update : frame.

Lemma off_reload_if_stale : framed keeps_bitmap_off reload_if_stale.
Proof. unfold reload_if_stale. frame_off. Qed.

#[export] Hint Resolve off_reload_if_stale : frame.

Lemma off_load : framed keeps_bitmap_off amd_vpmu_load.
Proof. unfold amd_vpmu_load. frame_off. Qed.

Lemma off_save : framed keeps_bitmap_off amd_vpmu_save.
Proof. unfold amd_vpmu_save. frame_off. Qed.

Lemma off_rdmsr msr : framed keeps_bitmap_off (amd_vpmu_do_rdmsr msr).
Proof. unfold amd_vpmu_do_rdmsr. frame_off. Qed.

Lemma off_stop_counting msr v : framed keeps_bitmap_off (stop_counting msr v).
Proof. unfold stop_counting. frame_off. Qed.

#[export] Hint Resolve off_stop_counting : frame.

Lemma off_do_wrmsr msr v s : framed keeps_bitmap_off (amd_vpmu_do_wrmsr msr v s).
Proof. unfold amd_vpmu_do_wrmsr, do_wrmsr_commit. cbv zeta. frame_off. Qed.

Lemma off_destroy : framed keeps_bitmap_off amd_vpmu_destroy.
Proof.
  unfold amd_vpmu_destroy, xfree_context. frame_off.
Qed.

Lemma off_initialise mode alloc_ok :
  framed keeps_bitmap_off (svm_vpmu_initialise mode alloc_ok).
Proof.
  unfold svm_vpmu_initialise. frame_off.
  destruct a; frame_off; apply off_modify; now intros m.
Qed.

(** ** [VPMU_RUNNING] and the ownership token *)

Lemma wlp_ret {A} (a : A) m (Q : A -> machine -> list event -> Prop) :
  Q a m [] -> wlp (ret a) m Q.
Proof. exact (fun H => H). Qed.

Lemma wlp_gets {A} (g : machine -> A) m (Q : A -> machine -> list event -> Prop) :
  Q (g m) m [] -> wlp (gets g) m Q.
Proof. exact (fun H => H). Qed.

Lemma wlp_modify (g : machine -> machine) m
  (Q : unit -> machine -> list event -> Prop) :
  Q tt (g m) [] -> wlp (modify g) m Q.
Proof. exact (fun H => H). Qed.

Lemma wlp_framed {A} R (x : M A) m (Q : A -> machine -> list event -> Prop) :
  framed R x -> (forall a m' t, R m m' t -> Q a m' t) -> wlp x m Q.
Proof. intros H HQ. eapply wlp_mono; [apply H|]. intros a m' t. apply HQ. Qed.

Ltac wlp_step :=
  lazymatch goal with
  | |- wlp (bind _ _) _ _ => apply wlp_bind
  | |- wlp (ret _) _ _ => apply wlp_ret
  | |- wlp (gets _) _ _ => apply wlp_gets
  | |- wlp (modify _) _ _ => apply wlp_modify
  | |- wlp (vpmu_is_set _) _ _ => unfold vpmu_is_set
  | |- wlp (vpmu_set _) _ _ => unfold vpmu_set
  | |- wlp (vpmu_reset _) _ _ => unfold vpmu_reset
  | |- wlp vpmu_clear _ _ => unfold vpmu_clear
  | |- wlp has_hvm_container_vcpu _ _ => unfold has_hvm_container_vcpu
  | |- wlp is_msr_bitmap_on _ _ => unfold is_msr_bitmap_on
  end; cbv beta.

Ltac wlp_steps := repeat wlp_step.

(** Whether the write is one that stops the last counter. *)
Lemma stop_ownership m msr v :
  wlp (stop_counting msr v) m (fun _ m' t =>
    if (get_pmu_reg_type msr =? MSR_TYPE_CTRL) && negb (is_pmu_enabled v)
       && running m
    then running m' = false /\ In (EvRelease PMU_OWNER_HVM) t
         /\ (forall who g, ~ In (EvAcquire who g) t)
         /\ (token m' = token m \/ token m' = None)
    else keeps_ownership m m' t).
Proof.
  unfold stop_counting. wlp_steps. fold (running m).
  destruct ((get_pmu_reg_type msr =? MSR_TYPE_CTRL) && negb (is_pmu_enabled v)
            && running m); [|wlp_steps; apply frame_refl].
  wlp_steps. set (m1 := set_vpmu m _).
  assert (Hr1 : running m1 = false).
  { unfold running, m1. simpl. now flag_simpl. }
  apply (wlp_framed keeps_ownership).
  { apply framed_if; auto with frame. }
  intros _ m2 t2 (Ht & Hr & Hev). cbv beta.
  unfold wlp, release_pmu_ownship.
  assert (Hin : In (EvRelease PMU_OWNER_HVM) (t2 ++ [EvRelease PMU_OWNER_HVM])).
  { apply in_app_iff. right. now left. }
  assert (Hna : forall who g,
            ~ In (EvAcquire who g) (t2 ++ [EvRelease PMU_OWNER_HVM])).
  { intros who g [H|[H|[]]]%in_app_iff; [|discriminate H].
    now apply (proj2 (Hev who) g). }
  assert (Hr2 : running m2 = false) by congruence.
  destruct (token m2) as [o|] eqn:Etok;
    [destruct (decide (o = PMU_OWNER_HVM))|]; simpl;
    (split; [exact Hr2|split; [exact Hin|split; [exact Hna|]]]).
  - now right.
  - left. rewrite Etok. exact Ht.
  - now right.
Qed.

Lemma commit_ownership m msr v :
  wlp (do_wrmsr_commit msr v) m (fun _ m' t =>
    if (get_pmu_reg_type msr =? MSR_TYPE_CTRL) && negb (is_pmu_enabled v)
       && running m
    then running m' = false /\ In (EvRelease PMU_OWNER_HVM) t
         /\ (forall who g, ~ In (EvAcquire who g) t)
    else keeps_ownership m m' t).
Proof.
  unfold do_wrmsr_commit. wlp_step.
  eapply wlp_mono; [apply stop_ownership|]. intros u1 m1 t1 H1. cbv beta in H1 |- *.
  apply (wlp_framed keeps_ownership); [frame|].
  intros r m2 t2 H2.
  destruct ((get_pmu_reg_type msr =? MSR_TYPE_CTRL) && negb (is_pmu_enabled v)
            && running m).
  - destruct H2 as (Ht & Hr & Hev).
    destruct H1 as (A1 & A2 & A3 & _). split; [congruence|]. split.
    + apply in_app_iff. now left.
    + intros who g [H|H]%in_app_iff; [now apply (A3 who g)|].
      now apply (proj2 (Hev who) g).
  - exact (frame_trans _ _ _ _ _ H1 H2).
Qed.

(** What one call of [amd_vpmu_do_wrmsr] does to [VPMU_RUNNING] and the
    token, by the kind of write. *)
Lemma do_wrmsr_ownership m msr v s :
  wlp (amd_vpmu_do_wrmsr msr v s) m (fun _ m' t =>
    if first_enable m msr (forced_value m msr v)
    then if denied m PMU_OWNER_HVM
         then m' = m /\ t = [EvAcquire PMU_OWNER_HVM false]
         else running m' = true /\ token m' = Some PMU_OWNER_HVM
              /\ In (EvAcquire PMU_OWNER_HVM true) t
              /\ forall who, ~ In (EvRelease who) t
    else if (get_pmu_reg_type msr =? MSR_TYPE_CTRL)
            && negb (is_pmu_enabled (forced_value m msr v)) && running m
         then running m' = false /\ In (EvRelease PMU_OWNER_HVM) t
              /\ (forall who g, ~ In (EvAcquire who g) t)
         else keeps_ownership m m' t).
Proof.
  unfold amd_vpmu_do_wrmsr. wlp_step.
  destruct (s =? 0); [|exact I].
  change (ASSERT true) with (@ret unit tt). wlp_steps.
  fold (forced_value m msr v). set (v' := forced_value m msr v).
  fold (running m). fold (first_enable m msr v'). cbn [app].
  destruct (first_enable m msr v') eqn:Efe.
  - assert (He : is_pmu_enabled v' = true).
    { unfold first_enable in Efe.
      now apply andb_true_iff in Efe as [[_ He]%andb_true_iff _]. }
    wlp_step. unfold wlp at 1, acquire_pmu_ownership, denied.
    assert (Hgranted : forall m1,
      token m1 = Some PMU_OWNER_HVM -> running m1 = running m ->
      wlp (vpmu_set VPMU_RUNNING ;;;
           bitmap <- is_msr_bitmap_on ;;
           (if is_hvm m && bitmap then amd_vpmu_set_msr_bitmap else ret tt) ;;;
           do_wrmsr_commit msr v') m1
          (fun _ m' t =>
             running m' = true /\ token m' = Some PMU_OWNER_HVM
             /\ (forall who, ~ In (EvRelease who) t)
             /\ forall who g, ~ In (EvAcquire who g) t)).
    { intros m1 Htok Hrun. wlp_steps. set (m2 := set_vpmu m1 _).
      assert (Hr2 : running m2 = true).
      { unfold running, m2. simpl. now flag_simpl. }
      apply (wlp_framed keeps_ownership).
      { apply framed_if; auto with frame. }
      intros _ m3 t3 (Ht3 & Hr3 & Hev3). cbv beta.
      eapply wlp_mono; [apply commit_ownership|].
      intros r m4 t4. rewrite He. rewrite andb_false_r. cbn [andb].
      intros (Ht4 & Hr4 & Hev4).
      split; [congruence|]. split; [simpl in *; congruence|]. split.
      - intros who. simpl. intros [H|H]%in_app_iff;
          [now apply (Hev3 who)|now apply (Hev4 who)].
      - intros who g. simpl. intros [H|H]%in_app_iff;
          [now apply (proj2 (Hev3 who) g)|now apply (proj2 (Hev4 who) g)]. }
    destruct (token m) as [o|] eqn:Etok;
      [destruct (decide (o = PMU_OWNER_HVM)) as [->|Hne]|].
    + rewrite (bool_decide_eq_true_2 _ eq_refl). cbn [negb].
      eapply wlp_mono; [apply (Hgranted m Etok eq_refl)|].
      intros r m' t (A1 & A2 & A3 & A4).
      split; [exact A1|split; [exact A2|split; [now left|]]].
      intros who [H|H]; [discriminate H|now apply (A3 who)].
    + rewrite (bool_decide_eq_false_2 _ Hne). cbn [negb]. wlp_steps.
      now split.
    + cbn [negb].
      eapply wlp_mono; [apply (Hgranted (set_token m (Some PMU_OWNER_HVM)));
                        reflexivity|].
      intros r m' t (A1 & A2 & A3 & A4).
      split; [exact A1|split; [exact A2|split; [now left|]]].
      intros who [H|H]; [discriminate H|now apply (A3 who)].
  - eapply wlp_mono; [apply commit_ownership|]. intros r m' t H. exact H.
Qed.

Lemma destroy_ownership m :
  wlp amd_vpmu_destroy m (fun _ m' t =>
    running m' = false
    /\ (running m = true -> In (EvRelease PMU_OWNER_HVM) t)
    /\ (token m' = token m \/ token m' = None)).
Proof.
  unfold amd_vpmu_destroy. wlp_steps.
  apply (wlp_framed keeps_ownership).
  { apply framed_if; auto with frame. }
  intros _ m1 t1 (Ht1 & Hr1 & _). cbv beta. wlp_step.
  apply (wlp_framed keeps_ownership).
  { unfold xfree_context. frame. }
  intros _ m2 t2 (Ht2 & Hr2 & _). cbv beta. wlp_steps.
  change (flag_is_set (flags (vpmu m2)) VPMU_RUNNING) with (running m2).
  destruct (running m2) eqn:E.
  - assert (Hin : forall t0 t3,
              In (EvRelease PMU_OWNER_HVM)
                 ([] ++ [] ++ t1 ++ t2 ++ [] ++ (t0 ++ [EvRelease PMU_OWNER_HVM]) ++ t3)).
    { intros t0 t3. simpl. rewrite !in_app_iff. right. right. left. right. now left. }
    unfold wlp at 1, release_pmu_ownship.
    destruct (token m2) as [o|] eqn:Etok;
      [destruct (decide (o = PMU_OWNER_HVM))|]; wlp_steps;
      (split; [reflexivity|split; [intros _; apply (Hin [] [])|]]); simpl.
    + now right.
    + left. congruence.
    + now right.
  - wlp_steps. split; [reflexivity|]. split; [congruence|].
    simpl. left. congruence.
Qed.

Lemma step_running_owns m m' : step m m' -> running_owns m -> running_owns m'.
Proof.
  intros Hs Inv. unfold running_owns in *.
  destruct Hs as [msr v s m r m' t E | msr m r m' t E | m r m' t E | m r m' t E
                 | m r m' t E | mode alloc_ok m r m' t E | m f Hf | m h
                 | who m r m' t Hw E | who m r m' t Hw Htok E].
  - pose proof (wlp_run _ _ _ _ _ _ (do_wrmsr_ownership m msr v s) E) as P.
    cbv beta in P.
    destruct (first_enable m msr (forced_value m msr v)).
    + destruct (denied m PMU_OWNER_HVM).
      * destruct P as [-> _]. exact Inv.
      * now destruct P as (_ & P & _).
    + destruct ((get_pmu_reg_type msr =? MSR_TYPE_CTRL)
                && negb (is_pmu_enabled (forced_value m msr v)) && running m).
      * destruct P as (P & _). congruence.
      * destruct P as (P1 & P2 & _). rewrite P1, P2. exact Inv.
  - destruct (wlp_run _ _ _ _ _ _ (own_rdmsr msr m) E) as (P1 & P2 & _).
    rewrite P1, P2. exact Inv.
  - destruct (wlp_run _ _ _ _ _ _ (own_load m) E) as (P1 & P2 & _).
    rewrite P1, P2. exact Inv.
  - destruct (wlp_run _ _ _ _ _ _ (own_save m) E) as (P1 & P2 & _).
    rewrite P1, P2. exact Inv.
  - destruct (wlp_run _ _ _ _ _ _ (destroy_ownership m) E) as (P & _). congruence.
  - destruct (wlp_run _ _ _ _ _ _ (own_initialise mode alloc_ok m) E)
      as (P1 & P2 & _).
    rewrite P1, P2. exact Inv.
  - unfold running at 1. simpl. rewrite Hf. exact Inv.
  - exact Inv.
  - unfold acquire_pmu_ownership in E.
    destruct (token m) as [o|] eqn:Etok.
    + destruct (decide (o = who)); injection E as _ <- _; now rewrite Etok.
    + injection E as _ <- _. intros Hr. specialize (Inv Hr). discriminate Inv.
  - unfold release_pmu_ownship in E. rewrite Htok in E.
    destruct (decide (who = who)); [|contradiction].
    injection E as _ <- _. intros Hr. specialize (Inv Hr). congruence.
Qed.

Lemma reachable_running_owns m0 m :
  rtc step m0 m -> running_owns m0 -> running_owns m.
Proof.
  induction 1 as [|x y z Hs _ IH]; [trivial|].
  intros Inv. apply IH. now apply (step_running_owns x y).
Qed.

(** C1: a call of [amd_vpmu_do_wrmsr] that takes [VPMU_RUNNING] from unset
    to set has acquired the token in that call and holds it afterwards; a
    call that takes it from set to unset has released the token in that
    call; [amd_vpmu_destroy] leaves the flag unset and releases the token
    if it was set; the other entry points touch neither the flag nor the
    token.  Hence, from a context that starts with the flag unset, every
    reachable state that has [VPMU_RUNNING] set has the token held by the
    HVM category. *)
Theorem C1_running_tracks_ownership :
  (forall msr v s m r m' t,
     amd_vpmu_do_wrmsr msr v s m = Some (r, m', t) ->
     (running m = false -> running m' = true ->
      In (EvAcquire PMU_OWNER_HVM true) t /\ token m' = Some PMU_OWNER_HVM)
     /\ (running m = true -> running m' = false ->
         In (EvRelease PMU_OWNER_HVM) t))
  /\ (forall m r m' t,
        amd_vpmu_destroy m = Some (r, m', t) ->
        running m' = false
        /\ (running m = true -> In (EvRelease PMU_OWNER_HVM) t))
  /\ (forall m r m' t,
        amd_vpmu_load m = Some (r, m', t) -> keeps_ownership m m' t)
  /\ (forall m r m' t,
        amd_vpmu_save m = Some (r, m', t) -> keeps_ownership m m' t)
  /\ (forall msr m r m' t,
        amd_vpmu_do_rdmsr msr m = Some (r, m', t) -> keeps_ownership m m' t)
  /\ (forall mode alloc_ok m r m' t,
        svm_vpmu_initialise mode alloc_ok m = Some (r, m', t) ->
        keeps_ownership m m' t)
  /\ (forall m0 m,
        running m0 = false -> rtc step m0 m ->
        running m = true -> token m = Some PMU_OWNER_HVM).
Proof.
  split_and!.
  - intros msr v s m r m' t E.
    pose proof (wlp_run _ _ _ _ _ _ (do_wrmsr_ownership m msr v s) E) as P.
    cbv beta in P. unfold first_enable in P.
    destruct (running m) eqn:Hr.
    + rewrite andb_false_r in P. split; [discriminate|]. intros _ Hr'.
      rewrite andb_true_r in P.
      destruct ((get_pmu_reg_type msr =? MSR_TYPE_CTRL)
                && negb (is_pmu_enabled (forced_value m msr v))).
      * now destruct P as (_ & P & _).
      * destruct P as (_ & P & _). congruence.
    + split; [|discriminate]. intros _ Hr'. rewrite andb_false_r in P.
      cbn [negb] in P. rewrite andb_true_r in P.
      destruct ((get_pmu_reg_type msr =? MSR_TYPE_CTRL)
                && is_pmu_enabled (forced_value m msr v)).
      * destruct (denied m PMU_OWNER_HVM).
        -- destruct P as [-> _]. congruence.
        -- destruct P as (_ & P1 & P2 & _). now split.
      * destruct P as (_ & P & _). congruence.
  - intros m r m' t E.
    destruct (wlp_run _ _ _ _ _ _ (destroy_ownership m) E) as (P1 & P2 & _).
    now split.
  - intros m r m' t E. exact (wlp_run _ _ _ _ _ _ (own_load m) E).
  - intros m r m' t E. exact (wlp_run _ _ _ _ _ _ (own_save m) E).
  - intros msr m r m' t E. exact (wlp_run _ _ _ _ _ _ (own_rdmsr msr m) E).
  - intros mode alloc_ok m r m' t E.
    exact (wlp_run _ _ _ _ _ _ (own_initialise mode alloc_ok m) E).
  - intros m0 m H0 Hreach.
    apply (reachable_running_owns m0 m Hreach). intros Hr. congruence.
Qed.

Lemma C1_witness :
  match amd_vpmu_do_wrmsr MSR_K7_EVNTSEL0 EVNTSEL_ENABLE 0 sample_f10h with
  | Some (_, m', t) =>
      In (EvAcquire PMU_OWNER_HVM true) t /\ token m' = Some PMU_OWNER_HVM
  | None => False
  end.
Proof.
  destruct (amd_vpmu_do_wrmsr MSR_K7_EVNTSEL0 EVNTSEL_ENABLE 0 sample_f10h)
    as [[[r m'] t]|] eqn:E.
  - apply (proj1 (proj1 C1_running_tracks_ownership _ _ _ _ _ _ _ E));
      [reflexivity|].
    vm_compute in E. injection E as _ <- _. reflexivity.
  - vm_compute in E. discriminate E.
Defined.

(** ** The fast path *)

Lemma step_bitmap_off m m' :
  step m m' -> bitmap_on m = false ->
  bitmap_on m' = false /\ intercepts m' = intercepts m.
Proof.
  intros Hs Hoff.
  destruct Hs as [msr v s m r m' t E | msr m r m' t E | m r m' t E | m r m' t E
                 | m r m' t E | mode alloc_ok m r m' t E | m f Hf | m h
                 | who m r m' t Hw E | who m r m' t Hw Htok E].
  - destruct (wlp_run _ _ _ _ _ _ (off_do_wrmsr msr v s m) E Hoff) as (P1 & P2 & _).
    now split.
  - destruct (wlp_run _ _ _ _ _ _ (off_rdmsr msr m) E Hoff) as (P1 & P2 & _).
    now split.
  - destruct (wlp_run _ _ _ _ _ _ (off_load m) E Hoff) as (P1 & P2 & _).
    now split.
  - destruct (wlp_run _ _ _ _ _ _ (off_save m) E Hoff) as (P1 & P2 & _).
    now split.
  - destruct (wlp_run _ _ _ _ _ _ (off_destroy m) E Hoff) as (P1 & P2 & _).
    now split.
  - destruct (wlp_run _ _ _ _ _ _ (off_initialise mode alloc_ok m) E Hoff)
      as (P1 & P2 & _).
    now split.
  - now split.
  - now split.
  - destruct (wlp_run _ _ _ _ _ _ (off_acquire who m) E Hoff) as (P1 & P2 & _).
    now split.
  - destruct (wlp_run _ _ _ _ _ _ (off_release who m) E Hoff) as (P1 & P2 & _).
    now split.
Qed.

(** C2, where the code departs from the specification: on an HVM vCPU whose MSR bitmap is off,
    as [svm_vpmu_initialise] leaves it, the control-register write that
    sets the enable bit with [VPMU_RUNNING] unset and is granted the token
    sets [VPMU_RUNNING] but installs nothing: no intercept setting is
    changed, [svm_intercept_msr] is not called and the bitmap stays off.
    The bitmap stays off in every state reachable from there, so
    [amd_vpmu_set_msr_bitmap] never runs. *)
Theorem C2_first_enable_installs_no_fast_path :
  (forall m msr v,
     machine_ok m = true -> is_hvm m = true -> bitmap_on m = false ->
     get_pmu_reg_type msr = MSR_TYPE_CTRL -> is_pmu_enabled v = true ->
     running m = false ->
     result_of (acquire_pmu_ownership PMU_OWNER_HVM m) = Some true ->
     exists m' t,
       amd_vpmu_do_wrmsr msr v 0 m = Some (1, m', t)
       /\ running m' = true
       /\ In (EvAcquire PMU_OWNER_HVM true) t
       /\ bitmap_on m' = false
       /\ intercepts m' = intercepts m
       /\ forall a md, ~ In (EvIntercept a md) t)
  /\ (forall mode alloc_ok m m' t,
        svm_vpmu_initialise mode alloc_ok m = Some (0, m', t) ->
        mode <> XENPMU_MODE_OFF -> bitmap_on m' = false)
  /\ (forall m0 m,
        bitmap_on m0 = false -> rtc step m0 m ->
        bitmap_on m = false /\ intercepts m = intercepts m0).
Proof.
  split_and!.
  - intros m msr v Hok Hh Hoff Ht He Hr Hg.
    assert (Hd : denied m PMU_OWNER_HVM = false).
    { rewrite acquire_result in Hg. injection Hg as Hg.
      now apply negb_true_iff in Hg. }
    assert (Ha : accepted m msr v = true).
    { unfold accepted. rewrite Hd. now rewrite andb_false_r. }
    destruct (do_wrmsr_accepted_run m msr v Hok Ha) as (m' & t0 & E & _).
    exists m', (t0 ++ [EvWrmsr msr (forced_value m msr v)]).
    split; [exact E|].
    destruct (wlp_run _ _ _ _ _ _ (off_do_wrmsr msr v 0 m) E Hoff)
      as (P1 & P2 & P3).
    pose proof (wlp_run _ _ _ _ _ _ (do_wrmsr_ownership m msr v 0) E) as P.
    cbv beta in P. unfold first_enable in P.
    rewrite Ht, enabled_forced, He, Hr, Hd in P. simpl in P.
    destruct P as (Q1 & _ & Q3 & _). now repeat split.
  - intros mode alloc_ok m m' t E Hm. unfold svm_vpmu_initialise in E.
    apply Z.eqb_neq in Hm. rewrite Hm in E. revert E. exec.
    destruct (counters (glob m)); [|discriminate].
    destruct alloc_ok; simpl; [|discriminate]. exec.
    intros E. injection E as <- _. reflexivity.
  - intros m0 m Hoff Hreach.
    induction Hreach as [|x y z Hs _ IH]; [now split|].
    destruct (step_bitmap_off x y Hs Hoff) as [H1 H2].
    destruct (IH H1) as [H3 H4]. split; [exact H3|congruence].
Qed.

Lemma C2_witness :
  exists m' t,
    amd_vpmu_do_wrmsr MSR_K7_EVNTSEL0 EVNTSEL_ENABLE 0 sample_f10h = Some (1, m', t)
    /\ running m' = true
    /\ intercepts m' = intercepts sample_f10h
    /\ forall a md, ~ In (EvIntercept a md) t.
Proof.
  destruct (proj1 C2_first_enable_installs_no_fast_path
              sample_f10h MSR_K7_EVNTSEL0 EVNTSEL_ENABLE
              eq_refl eq_refl eq_refl eq_refl eq_refl eq_refl eq_refl)
    as (m' & t & E & Hr & _ & _ & Hi & Hev).
  exists m', t. split; [exact E|]. split; [exact Hr|]. split; [exact Hi|exact Hev].
Defined.

(** * Further properties of the back end *)

(** ** Register classes and alias redirection *)

(** X1: redirecting an address to the extended bank never changes its
    class: a legacy control address goes to a control address, a legacy
    counter address to a counter address, and every other address is left
    alone.  The class test of [amd_vpmu_do_wrmsr] on the trapped address
    and the shadow update on the redirected one therefore agree. *)
Theorem X1_redirect_keeps_reg_type (a : Z) :
  get_pmu_reg_type (get_fam15h_addr a) = get_pmu_reg_type a
  /\ forall m, get_pmu_reg_type (redirect m a) = get_pmu_reg_type a.
Proof.
  assert (H : get_pmu_reg_type (get_fam15h_addr a) = get_pmu_reg_type a).
  { unfold get_fam15h_addr.
    repeat match goal with
           | |- context [?x =? ?y] =>
               destruct (Z.eqb_spec x y) as [->|_]; [reflexivity|]
           end.
    reflexivity. }
  split; [exact H|]. intros m. unfold redirect.
  destruct (k7_counters_mirrored (glob m)
            && ((MSR_K7_EVNTSEL0 <=? a) && (a <=? MSR_K7_PERFCTR3)));
    [exact H|reflexivity].
Qed.

Lemma legacy_range_cases a :
  MSR_K7_EVNTSEL0 <= a <= MSR_K7_PERFCTR3 ->
  exists k, (k < 4)%nat /\ (a = legacy_ctrl_alias k \/ a = legacy_counter_alias k).
Proof.
  unfold MSR_K7_EVNTSEL0, MSR_K7_PERFCTR3, legacy_ctrl_alias, legacy_counter_alias,
    MSR_K7_EVNTSEL0, MSR_K7_PERFCTR0.
  intros H.
  destruct (Z_lt_le_dec a 0xC0010004) as [Hlt|Hge].
  - exists (Z.to_nat (a - 0xC0010000)). split; [lia|left; lia].
  - exists (Z.to_nat (a - 0xC0010004)). split; [lia|right; lia].
Qed.

(** X2: [get_fam15h_addr] is the identity outside the legacy range, sends
    the legacy address of control [k] and counter [k] to entry [k] of the
    family 15h control and counter table, is idempotent, and no address it
    returns is a legacy address. *)
Theorem X2_fam15h_addr_pairs_indices :
  (forall a, ~ (MSR_K7_EVNTSEL0 <= a <= MSR_K7_PERFCTR3) -> get_fam15h_addr a = a)
  /\ (forall k, (k < 4)%nat ->
        AMD_F15H_CTRLS !! k = Some (get_fam15h_addr (legacy_ctrl_alias k))
        /\ AMD_F15H_COUNTERS !! k = Some (get_fam15h_addr (legacy_counter_alias k)))
  /\ (forall a, get_fam15h_addr (get_fam15h_addr a) = get_fam15h_addr a)
  /\ (forall a, ~ (MSR_K7_EVNTSEL0 <= get_fam15h_addr a <= MSR_K7_PERFCTR3)).
Proof.
  assert (Hout : forall a, ~ (MSR_K7_EVNTSEL0 <= a <= MSR_K7_PERFCTR3) ->
                           get_fam15h_addr a = a).
  { intros a Ha. unfold get_fam15h_addr.
    repeat match goal with
           | |- context [?x =? ?y] =>
               destruct (Z.eqb_spec x y) as [->|_];
               [exfalso; apply Ha; split; discriminate|]
           end.
    reflexivity. }
  assert (Hin : forall k, (k < 4)%nat ->
            AMD_F15H_CTRLS !! k = Some (get_fam15h_addr (legacy_ctrl_alias k))
            /\ AMD_F15H_COUNTERS !! k
               = Some (get_fam15h_addr (legacy_counter_alias k))).
  { intros k Hk. do 4 (destruct k as [|k]; [split; reflexivity|]). lia. }
  assert (Hnot : forall a, ~ (MSR_K7_EVNTSEL0 <= get_fam15h_addr a <= MSR_K7_PERFCTR3)).
  { intros a.
    destruct (Z_le_dec MSR_K7_EVNTSEL0 a) as [H1|H1];
      [destruct (Z_le_dec a MSR_K7_PERFCTR3) as [H2|H2]|].
    - destruct (legacy_range_cases a (conj H1 H2)) as (k & Hk & [-> | ->]);
        do 4 (destruct k as [|k]; [intros [_ H]; apply H; reflexivity|]); lia.
    - rewrite Hout by lia. lia.
    - rewrite Hout by lia. lia. }
  split_and!; try assumption.
  intros a. apply Hout, Hnot.
Qed.

(** ** [amd_vpmu_init] *)

Lemma resolved_layout_ok g : resolved g -> layout_ok g = true.
Proof. now intros [-> | ->]. Qed.

Lemma resolved_tables g :
  resolved g ->
  exists cs ct,
    counters g = Some cs /\ ctrls g = Some ct
    /\ NoDup (cs ++ ct)
    /\ Forall (fun a => get_pmu_reg_type a = MSR_TYPE_COUNTER) cs
    /\ Forall (fun a => get_pmu_reg_type a = MSR_TYPE_CTRL) ct.
Proof.
  intros [-> | ->]; do 2 eexists; (split; [reflexivity|split; [reflexivity|]]);
    (split; [|split; repeat constructor]);
    apply NoDup_ListNoDup; simpl;
    repeat (constructor; [simpl; intros H;
                          repeat (destruct H as [H|H]; [discriminate H|]);
                          exact H|]);
    constructor.
Qed.

Lemma init_cases x86 size page :
  let r := amd_vpmu_init x86 size page globals_boot in
  (x86 = 0x15 /\ size + 96 <= page /\ r = (0, layout_f15h))
  \/ (x86 = 0x15 /\ page < size + 96
      /\ r = (- ENOSPC, mkGlobals 0 None None true))
  \/ (x86 <> 0x15 /\ family_supported x86 = true /\ size + 64 <= page
      /\ r = (0, layout_f10h))
  \/ (x86 <> 0x15 /\ family_supported x86 = true /\ page < size + 64
      /\ r = (- ENOSPC, mkGlobals 0 None None false))
  \/ (family_supported x86 = false /\ r = (- EINVAL, globals_boot)).
Proof.
  unfold amd_vpmu_init, family_supported. cbv zeta.
  destruct (Z.eqb_spec x86 21) as [->|H15].
  - simpl. match goal with |- context [?a >? ?b] => destruct (Z.gtb_spec a b) as [Hgt|Hle] end; unfold F15H_NUM_COUNTERS, F10H_NUM_COUNTERS in *.
    + right. left. split_and!; [reflexivity|lia|reflexivity].
    + left. split_and!; [reflexivity|lia|reflexivity].
  - rewrite !orb_false_r.
    destruct ((x86 =? 16) || (x86 =? 18) || (x86 =? 20)) eqn:E; simpl.
    + match goal with |- context [?a >? ?b] => destruct (Z.gtb_spec a b) as [Hgt|Hle] end; unfold F15H_NUM_COUNTERS, F10H_NUM_COUNTERS in *.
      * do 3 right. left. split_and!; [exact H15|reflexivity|lia|reflexivity].
      * do 2 right. left. split_and!; [exact H15|reflexivity|lia|reflexivity].
    + destruct (x86 =? 22) eqn:E22; simpl.
      * match goal with |- context [?a >? ?b] => destruct (Z.gtb_spec a b) as [Hgt|Hle] end; unfold F15H_NUM_COUNTERS, F10H_NUM_COUNTERS in *.
        -- do 3 right. left. split_and!; [exact H15|reflexivity|lia|reflexivity].
        -- do 2 right. left. split_and!; [exact H15|reflexivity|lia|reflexivity].
      * do 4 right. split; reflexivity.
Qed.

(** X3: started on the boot-time statics, [amd_vpmu_init] returns 0
    exactly when it leaves a usable layout: one of the two known layouts,
    both tables present with [num_counters] entries (4 or 6) that fit the
    page, aliases mirrored on family 0x15 only.  Otherwise the result is
    negative and the bank is empty: no table and [num_counters] 0.  The
    result is [-EINVAL] exactly for an unknown family, and [-ENOSPC] only
    for a known one whose bank does not fit the page. *)
Theorem X3_init_leaves_layout_or_nothing (x86 size page : Z) :
  let r := amd_vpmu_init x86 size page globals_boot in
  (fst r = 0 ->
   resolved (snd r) /\ layout_ok (snd r) = true
   /\ (num_counters (snd r) = 4%nat \/ num_counters (snd r) = 6%nat)
   /\ (k7_counters_mirrored (snd r) = true <-> x86 = 0x15)
   /\ size + 16 * Z.of_nat (num_counters (snd r)) <= page)
  /\ (fst r <> 0 ->
      fst r < 0 /\ num_counters (snd r) = 0%nat
      /\ counters (snd r) = None /\ ctrls (snd r) = None)
  /\ (fst r = - EINVAL <-> family_supported x86 = false)
  /\ (fst r = - ENOSPC ->
      family_supported x86 = true /\ page < size + 16 * 6).
Proof.
  intros r.
  destruct (init_cases x86 size page)
    as [(Hx & Hs & E) | [(Hx & Hs & E) | [(Hx & Hf & Hs & E)
       | [(Hx & Hf & Hs & E) | (Hf & E)]]]];
    fold r in E; rewrite E; simpl; try subst x86; try rewrite Hf;
    (split_and!;
     [ try discriminate; try contradiction; intros _; split_and!;
       first [reflexivity | lia | (left; reflexivity) | (right; reflexivity)
             | (split; [reflexivity|reflexivity])
             | (split; congruence) | idtac ]
     | try contradiction; try discriminate; intros _; split_and!;
       first [reflexivity | lia | idtac]
     | split; first [discriminate | reflexivity | idtac]
     | try discriminate; intros _; split; first [reflexivity | lia | idtac] ]).
  all: try (now left). all: try (now right).
  all: unfold F15H_NUM_COUNTERS, F10H_NUM_COUNTERS; lia.
Qed.

(** ** Per-guest initialisation and teardown *)

(** X4: with the mode on, a layout present and memory available,
    [svm_vpmu_initialise] returns 0 without any external call and installs
    a context whose two shadow arrays hold [num_counters] zeros, with the
    MSR bitmap off, the operation table set and [VPMU_CONTEXT_ALLOCATED]
    set.  It clears no flag: every other flag is as it was before the call.
    On a well-formed layout the machine is well formed afterwards. *)
Theorem X4_initialise_installs_zeroed_context (mode : Z) (m : machine) :
  mode <> XENPMU_MODE_OFF -> counters (glob m) <> None ->
  exists m',
    svm_vpmu_initialise mode true m = Some (0, m', [])
    /\ shadow_counters m' = replicate (num_counters (glob m)) 0
    /\ shadow_ctrls m' = replicate (num_counters (glob m)) 0
    /\ bitmap_on m' = false
    /\ vpmu_ops (vpmu m') = Some amd_vpmu_ops
    /\ flag_is_set (flags (vpmu m')) VPMU_CONTEXT_ALLOCATED = true
    /\ (forall x, Z.land VPMU_CONTEXT_ALLOCATED x = 0 ->
          flag_is_set (flags (vpmu m')) x = flag_is_set (flags (vpmu m)) x)
    /\ glob m' = glob m /\ is_hvm m' = is_hvm m /\ msrs m' = msrs m
    /\ intercepts m' = intercepts m /\ token m' = token m
    /\ (layout_ok (glob m) = true -> machine_ok m' = true).
Proof.
  intros Hm Hc. eexists. split.
  { unfold svm_vpmu_initialise. apply Z.eqb_neq in Hm. rewrite Hm. exec.
    destruct (counters (glob m)); [|contradiction]. simpl. exec. reflexivity. }
  simpl. split_and!; try reflexivity.
  - now apply flag_set_same.
  - intros x Hx. now apply flag_set_other.
  - intros Hl. unfold machine_ok, context_ok. simpl. rewrite Hl.
    now rewrite length_replicate, Nat.eqb_refl.
Qed.

Lemma X4_witness :
  exists m',
    svm_vpmu_initialise 1 true
      (with_flags (fresh_machine layout_f10h true None) VPMU_RUNNING)
    = Some (0, m', [])
    /\ running m' = true.
Proof.
  destruct (X4_initialise_installs_zeroed_context 1
              (with_flags (fresh_machine layout_f10h true None) VPMU_RUNNING)
              ltac:(discriminate) ltac:(discriminate))
    as (m' & E & _ & _ & _ & _ & _ & Hk & _).
  exists m'. split; [exact E|]. unfold running. now rewrite Hk.
Defined.

(** Splits a membership in a trace into its cases and discards the events
    of another kind. *)
Ltac no_event :=
  let H := fresh "Hev" in
  intros H; repeat rewrite in_app_iff in H; simpl in H;
  repeat match goal with
         | H : _ \/ _ |- _ => destruct H as [H|H]
         | H : False |- _ => destruct H
         | H : @eq event _ _ |- _ => discriminate H
         end.

Lemma full_trap_addrs m a :
  In a (map fst (full_trap_intercepts m)) ->
  exists i, In i (bank m) /\ (a = counter_addr m i \/ a = ctrl_addr m i).
Proof.
  intros ([a' md] & <- & (i & Hi & H)%in_flat_map)%in_map_iff.
  exists i. split; [exact Hi|]. simpl in H.
  destruct H as [H|[H|[]]]; inversion H; auto.
Qed.

(** What [amd_vpmu_unset_msr_bitmap] leaves in the intercept settings. *)
Lemma full_trap_applied m b :
  bank_trapped m (apply_intercepts (full_trap_intercepts m) b)
  /\ forall a, outside_bank m a ->
               apply_intercepts (full_trap_intercepts m) b a = b a.
Proof.
  split.
  - intros i Hi. destruct (full_trap_in m i Hi) as [H1 H2].
    split; (apply apply_intercepts_const; [apply full_trap_rw|]);
      apply in_map_iff.
    + now exists (counter_addr m i, MSR_INTERCEPT_RW).
    + now exists (ctrl_addr m i, MSR_INTERCEPT_RW).
  - intros a Ha. apply apply_intercepts_other.
    intros (i & Hi & [-> | ->])%full_trap_addrs;
      destruct (Ha i Hi) as [H1 H2]; congruence.
Qed.

Lemma destroy_wp m :
  layout_ok (glob m) = true ->
  wp amd_vpmu_destroy m (fun _ m' t =>
    flags (vpmu m') = 0 /\ context (vpmu m') = None
    /\ glob m' = glob m /\ is_hvm m' = is_hvm m
    /\ writes_nothing m m' t
    /\ In EvFree t
    /\ (if is_hvm m && bitmap_on m
        then bitmap_on m' = false
             /\ bank_trapped m (intercepts m')
             /\ (forall a, outside_bank m a -> intercepts m' a = intercepts m a)
        else keeps_intercepts m m' t)
    /\ (if running m
        then In (EvRelease PMU_OWNER_HVM) t
             /\ token m' = (if decide (token m = Some PMU_OWNER_HVM)
                            then None else token m)
        else token m' = token m /\ forall who, ~ In (EvRelease who) t)).
Proof.
  intros Hlay. unfold amd_vpmu_destroy. wp_steps.
  fold (bitmap_on m).
  assert (Hrel : forall m1 t1,
    glob m1 = glob m -> is_hvm m1 = is_hvm m -> msrs m1 = msrs m ->
    token m1 = token m -> running m1 = running m ->
    (forall a v, ~ In (EvWrmsr a v) t1) ->
    (forall who, ~ In (EvRelease who) t1) ->
    wp (xfree_context ;;;
        running0 <- vpmu_is_set VPMU_RUNNING ;;
        (if running0 then release_pmu_ownship PMU_OWNER_HVM else ret tt) ;;;
        vpmu_clear) m1
       (fun _ m' t =>
          flags (vpmu m') = 0 /\ context (vpmu m') = None
          /\ glob m' = glob m /\ is_hvm m' = is_hvm m
          /\ writes_nothing m m' (t1 ++ t)
          /\ In EvFree (t1 ++ t)
          /\ intercepts m' = intercepts m1
          /\ priv_context (vpmu m') = priv_context (vpmu m1)
          /\ (forall a md, In (EvIntercept a md) t -> False)
          /\ (if running m
              then In (EvRelease PMU_OWNER_HVM) (t1 ++ t)
                   /\ token m' = (if decide (token m = Some PMU_OWNER_HVM)
                                  then None else token m)
              else token m' = token m
                   /\ forall who, ~ In (EvRelease who) (t1 ++ t)))).
  { intros m1 t1 Hg Hh Hms Htk Hrn Hnw Hnr. wp_step. unfold xfree_context.
    wp_steps. unfold wp at 1, emit. wp_steps.
    change (flag_is_set (flags (vpmu (set_vpmu m1 (set_context (vpmu m1) None))))
              VPMU_RUNNING) with (running m1).
    rewrite Hrn. destruct (running m) eqn:Hr.
    - unfold wp at 1, release_pmu_ownship. simpl token. rewrite Htk.
      destruct (token m) as [o|] eqn:Etok;
        [destruct (decide (o = PMU_OWNER_HVM)) as [->|Hne]|]; wp_steps; simpl;
        (split_and!; try reflexivity; try assumption;
         try solve [split; [exact Hms|]; intros a v; no_event;
                    eapply Hnw; eassumption];
         try solve [rewrite !in_app_iff; simpl; tauto];
         try solve [intros a md; no_event]).
      all: destruct (decide (Some o = Some PMU_OWNER_HVM)) as [E|_];
        [congruence|first [assumption|reflexivity]].
    - wp_steps. simpl.
      split_and!; try reflexivity; try assumption.
      + split; [exact Hms|]. intros a v. no_event. eapply Hnw; eassumption.
      + rewrite !in_app_iff. simpl. tauto.
      + intros a md. no_event.
      + intros who. no_event. eapply Hnr; eassumption. }
  destruct (is_hvm m && bitmap_on m) eqn:Ehb.
  - eapply wp_eq; [exact (unset_msr_bitmap_eq m Hlay)|].
    eapply wp_mono.
    { apply (Hrel _ (intercept_events (full_trap_intercepts m)));
        try reflexivity.
      - intros a v H. unfold intercept_events in H.
        apply in_map_iff in H as ([a' md] & E & _). discriminate E.
      - intros who H. unfold intercept_events in H.
        apply in_map_iff in H as ([a' md] & E & _). discriminate E. }
    cbv beta. intros _ m' t (F & C & G & H & W & Fr & I & P & NI & R).
    destruct (full_trap_applied m (intercepts m)) as [T1 T2].
    split_and!; try assumption.
    + unfold bitmap_on. rewrite P. reflexivity.
    + rewrite I. exact T1.
    + intros a Ha. rewrite I. now apply T2.
  - wp_step. eapply wp_mono.
    { apply (Hrel m []); try reflexivity; intros; intros []. }
    cbv beta. intros _ m' t (F & C & G & H & W & Fr & I & P & NI & R).
    split_and!; try assumption.
    + split; [exact I|split; [exact P|exact NI]].
Qed.

(** X5: on any machine with a well-formed layout, with or without a
    context, [amd_vpmu_destroy] returns.  Afterwards every flag is clear
    and the context is freed.  It writes no hardware register, so counters
    that were running keep counting.  If the vCPU is an HVM vCPU with the
    MSR bitmap on, every register of the bank traps reads and writes again,
    the bitmap is off and no other intercept setting has changed;
    otherwise no intercept setting and not the bitmap flag is touched.  If
    [VPMU_RUNNING] was set, the token is released (free afterwards if the
    HVM category held it); if not, the arbiter is not called. *)
Theorem X5_destroy_tears_down (m : machine) :
  layout_ok (glob m) = true ->
  exists m' t,
    amd_vpmu_destroy m = Some (tt, m', t)
    /\ flags (vpmu m') = 0 /\ context (vpmu m') = None
    /\ glob m' = glob m /\ is_hvm m' = is_hvm m
    /\ writes_nothing m m' t
    /\ In EvFree t
    /\ (if is_hvm m && bitmap_on m
        then bitmap_on m' = false
             /\ bank_trapped m (intercepts m')
             /\ (forall a, outside_bank m a -> intercepts m' a = intercepts m a)
        else keeps_intercepts m m' t)
    /\ (if running m
        then In (EvRelease PMU_OWNER_HVM) t
             /\ token m' = (if decide (token m = Some PMU_OWNER_HVM)
                            then None else token m)
        else token m' = token m /\ forall who, ~ In (EvRelease who) t).
Proof.
  intros Hlay.
  destruct (wp_run _ _ _ (destroy_wp m Hlay)) as ([] & m' & t & E & H).
  now exists m', t.
Qed.

Lemma X5_witness :
  exists m' t,
    amd_vpmu_destroy sample_bitmap_on = Some (tt, m', t)
    /\ flags (vpmu m') = 0 /\ token m' = None
    /\ bank_trapped sample_bitmap_on (intercepts m').
Proof.
  destruct (X5_destroy_tears_down sample_bitmap_on eq_refl)
    as (m' & t & E & F & _ & _ & _ & _ & _ & (_ & B & _) & (_ & T)).
  exists m', t. split; [exact E|]. split; [exact F|]. split; [exact T|exact B].
Defined.

(** ** What the dump reads and prints *)

Lemma dump_bank_eq m l :
  layout_ok (glob m) = true -> context_ok m = true ->
  (forall i, In i l -> In i (bank m)) ->
  dump_bank l m = Some (dump_rows m l, m, dump_reads m l).
Proof.
  intros Hlay Hctx. induction l as [|i l IH]; intros Hl; [reflexivity|].
  assert (Hi : In i (bank m)) by (apply Hl; now left).
  cbn [dump_bank].
  rewrite (bind_eq _ _ _ _ _ _ (ctrls_at_eq m m eq_refl i Hi Hlay)).
  rewrite (bind_eq _ _ _ _ _ _
             (eq_refl : rdmsrl (ctrl_addr m i) m = Some (_, _, _))).
  rewrite (bind_eq _ _ _ _ _ _ (counters_at_eq m m eq_refl i Hi Hlay)).
  rewrite (bind_eq _ _ _ _ _ _
             (eq_refl : rdmsrl (counter_addr m i) m = Some (_, _, _))).
  rewrite (bind_eq _ _ _ _ _ _ (ctrl_reg_at_eq m m i Hi Hctx eq_refl)).
  rewrite (bind_eq _ _ _ _ _ _ (counter_reg_at_eq m m i Hi Hctx eq_refl)).
  rewrite (bind_eq _ _ _ _ _ _ (IH (fun j Hj => Hl j (or_intror Hj)))).
  cbn. now rewrite app_nil_r.
Qed.

Lemma dump_reads_length m l : length (dump_reads m l) = (2 * length l)%nat.
Proof. induction l as [|i l IH]; simpl; [reflexivity|]. rewrite IH. lia. Qed.

(** X6: the diagnostic dump is an observer.  On a well-formed machine it
    returns, leaves the machine as it was and writes no register, asks for
    no intercept and does not touch the ownership token.  Without
    [VPMU_CONTEXT_ALLOCATED] it prints the state word and a newline and
    reads no register; with it, it prints the names of the set flags in the
    order of the source and then one row per index in ascending order,
    reading control register [i] and then counter register [i] from
    hardware and printing both beside their shadow values. *)
Theorem X6_dump_only_observes (m : machine) :
  machine_ok m = true ->
  exists out t,
    amd_vpmu_dump m = Some (out, m, t)
    /\ (forall e, In e t -> exists a, e = EvRdmsr a (msrs m a))
    /\ (flag_is_set (flags (vpmu m)) VPMU_CONTEXT_ALLOCATED = false ->
        out = [Printk "    VPMU state: 0x%x " [flags (vpmu m)]; Printk "\n" []]
        /\ t = [])
    /\ (flag_is_set (flags (vpmu m)) VPMU_CONTEXT_ALLOCATED = true ->
        out = [Printk "    VPMU state: 0x%x " [flags (vpmu m)]; Printk "(" []]
              ++ dump_flags (flags (vpmu m))
              ++ [Printk "ALLOCATED)\n" []]
              ++ dump_rows m (bank m)
        /\ t = dump_reads m (bank m)
        /\ length (dump_rows m (bank m)) = num_counters (glob m)
        /\ length t = (2 * num_counters (glob m))%nat).
Proof.
  intros Hok.
  pose proof (machine_ok_layout m Hok) as Hlay.
  pose proof (machine_ok_context m Hok) as Hctx.
  destruct (get_context_eq m Hctx) as (c & Hc & _).
  unfold amd_vpmu_dump. rewrite (bind_eq _ _ _ _ _ _ Hc).
  exec. unfold vpmu_is_set. exec.
  destruct (flag_is_set (flags (vpmu m)) VPMU_CONTEXT_ALLOCATED) eqn:Ha;
    cbn [negb].
  - exec. fold (bank m).
    rewrite (bind_eq _ _ _ _ _ _ (dump_bank_eq m (bank m) Hlay Hctx (fun _ H => H))).
    cbn [ret app]. do 2 eexists. split; [reflexivity|]. split; [|split].
    + intros e He. rewrite app_nil_r in He.
      unfold dump_reads in He. apply in_flat_map in He as (i & _ & [<-|[<-|[]]]); eauto.
    + discriminate.
    + intros _. split; [reflexivity|]. rewrite app_nil_r.
      split; [reflexivity|]. split.
      * unfold dump_rows, bank. now rewrite length_map, length_seq.
      * rewrite dump_reads_length. unfold bank. now rewrite length_seq.
  - exec. do 2 eexists. split; [reflexivity|]. split; [intros e []|].
    split; [now intros _|discriminate].
Qed.

Lemma X6_witness :
  exists out t,
    amd_vpmu_dump sample_f15h_loaded = Some (out, sample_f15h_loaded, t)
    /\ length t = 12%nat.
Proof.
  destruct (X6_dump_only_observes sample_f15h_loaded eq_refl)
    as (out & t & E & _ & _ & H).
  destruct (H eq_refl) as (_ & _ & _ & Hl).
  exists out, t. split; [exact E|exact Hl].
Defined.

(** ** Well-formedness is kept *)

Lemma update_shadow_ok m r v :
  machine_ok m = true -> machine_ok (update_shadow m r v) = true.
Proof.
  destruct r as [[i|i]|]; [| |trivial];
    unfold machine_ok, context_ok, update_shadow, shadow_counters, shadow_ctrls;
    simpl; destruct (context (vpmu m)) as [c|]; simpl;
    rewrite ?length_insert; trivial; now rewrite andb_false_r.
Qed.

Lemma rdmsr_run m msr :
  machine_ok m = true ->
  exists m' t0,
    amd_vpmu_do_rdmsr msr m
    = Some ((1, msrs m' msr), m', t0 ++ [EvRdmsr msr (msrs m' msr)])
    /\ same_bank m m' /\ loaded m' = true /\ frozen m' = false
    /\ running m' = running m.
Proof.
  intros Hok.
  destruct (wp_run _ _ _ (reload_wp m Hok)) as ([] & m' & t & E & Hb & Hl & Hf & Hr).
  exists m', t. unfold amd_vpmu_do_rdmsr.
  rewrite (bind_eq _ _ _ _ _ _ E). split; [reflexivity|auto].
Qed.

(** X7: on a well-formed machine (tables as long as the bank, a context
    with shadow arrays of that length) no handler dereferences a missing
    table or context or indexes past an array: load, save, read and write
    all return, and the machine they leave is well formed again with the
    same tables.  Load and read leave the shadow arrays as they were; read
    and write report the access as handled. *)
Theorem X7_handlers_keep_well_formed (m : machine) (msr v : Z) :
  machine_ok m = true ->
  (exists m' t, amd_vpmu_load m = Some (tt, m', t)
                /\ machine_ok m' = true /\ same_bank m m')
  /\ (exists r m' t, amd_vpmu_save m = Some (r, m', t)
                     /\ machine_ok m' = true /\ glob m' = glob m
                     /\ (r = 0 \/ r = 1))
  /\ (exists x m' t, amd_vpmu_do_rdmsr msr m = Some ((1, x), m', t)
                     /\ machine_ok m' = true /\ same_bank m m')
  /\ (exists m' t, amd_vpmu_do_wrmsr msr v 0 m = Some (1, m', t)
                   /\ machine_ok m' = true /\ glob m' = glob m).
Proof.
  intros Hok. split_and!.
  - destruct (loaded m) eqn:Hl.
    + rewrite (load_loaded_eq m Hok Hl). do 2 eexists.
      split; [reflexivity|]. split; [exact Hok|now repeat split].
    + rewrite (load_full_eq m Hok Hl). do 2 eexists.
      split; [reflexivity|]. split; [exact Hok|now repeat split].
  - destruct (save_requested m) eqn:Hs.
    + destruct (loaded m) eqn:Hl.
      * rewrite (save_full_eq m Hok Hs Hl). do 3 eexists.
        split; [reflexivity|]. split; [|split; [|now right]].
        -- destruct (save_unsets_bitmap m); cbv zeta;
             unfold machine_ok, context_ok in *; simpl;
             apply andb_true_iff in Hok as [H1 H2]; rewrite H1; simpl;
             rewrite save_counters_length;
             destruct (context (vpmu m)) as [c|] eqn:Hc; try discriminate;
             unfold shadow_counters, shadow_ctrls; rewrite Hc; exact H2.
        -- now destruct (save_unsets_bitmap m).
      * rewrite (save_not_loaded_eq m Hs Hl). do 3 eexists.
        split; [reflexivity|]. split; [exact Hok|]. split; [reflexivity|now left].
    + rewrite (save_freeze_eq m (machine_ok_layout m Hok) Hs). do 3 eexists.
      split; [reflexivity|]. split; [exact Hok|]. split; [reflexivity|now left].
  - destruct (rdmsr_run m msr Hok) as (m' & t0 & E & Hb & _).
    do 3 eexists. split; [exact E|]. split; [|exact Hb].
    now rewrite (same_bank_ok m m' Hb).
  - destruct (accepted m msr v) eqn:Ha.
    + destruct (do_wrmsr_accepted_run m msr v Hok Ha) as (m' & t0 & E & Hb & _).
      do 2 eexists. split; [exact E|]. split.
      * rewrite (same_bank_ok _ _ Hb). now apply update_shadow_ok.
      * destruct Hb as (Hg & _). rewrite Hg. now destruct (matched_reg m msr) as [[i|i]|].
    + rewrite (do_wrmsr_rejected m msr v Ha). do 2 eexists.
      split; [reflexivity|]. now split.
Qed.

Lemma X7_witness :
  exists m' t, amd_vpmu_load sample_save_loaded = Some (tt, m', t)
               /\ machine_ok m' = true.
Proof.
  destruct (proj1 (X7_handlers_keep_well_formed sample_save_loaded 0 0 eq_refl))
    as (m' & t & E & H & _).
  exists m', t. split; [exact E|exact H].
Defined.

(** ** What [VPMU_RUNNING] stands for *)

(** X8: after a control-register write that is not turned down,
    [VPMU_RUNNING] is the enable bit of the value just written, whatever
    the other control registers hold: clearing the enable bit of one
    control register clears the flag and releases the token even while
    another shadow control register still has its enable bit set.  A
    counter-register write leaves the flag as it was. *)
Theorem X8_running_is_last_enable_bit (m : machine) (msr v : Z) :
  machine_ok m = true ->
  accepted m msr v = true ->
  exists m' t,
    amd_vpmu_do_wrmsr msr v 0 m = Some (1, m', t)
    /\ running m'
       = (if get_pmu_reg_type msr =? MSR_TYPE_CTRL
          then is_pmu_enabled v else running m)
    /\ (running m = true -> running m' = false ->
        In (EvRelease PMU_OWNER_HVM) t)
    /\ (forall i, matched_reg m msr = Some (inl i) ->
        forall j, j <> i -> shadow_ctrls m' !! j = shadow_ctrls m !! j).
Proof.
  intros Hok Ha.
  destruct (do_wrmsr_accepted_run m msr v Hok Ha) as (m' & t0 & E & Hb & _).
  pose proof (wlp_run _ _ _ _ _ _ (do_wrmsr_ownership m msr v 0) E) as H.
  cbv beta in H. rewrite enabled_forced in H.
  unfold accepted in Ha. apply negb_true_iff in Ha.
  do 2 eexists. split; [exact E|]. split; [|split].
  - unfold first_enable in *. rewrite enabled_forced in *.
    destruct (get_pmu_reg_type msr =? MSR_TYPE_CTRL), (is_pmu_enabled v),
      (running m) eqn:Hr; cbn [andb negb] in *; try rewrite Ha in H;
      first [ destruct H as (_ & Hk & _); congruence
            | destruct H as (Hk & _); congruence ].
  - intros Hr Hr'. unfold first_enable in *. rewrite enabled_forced in *.
    rewrite Hr in *.
    destruct (get_pmu_reg_type msr =? MSR_TYPE_CTRL), (is_pmu_enabled v);
      cbn [andb negb] in *; try rewrite Ha in H;
      first [ destruct H as (_ & Hk & _); congruence
            | destruct H as (_ & Hk & _); exact Hk ].
  - intros i Hi j Hj. rewrite Hi in Hb.
    apply same_bank_shadows in Hb as [_ ->]. simpl.
    unfold shadow_ctrls at 1. simpl. now apply list_lookup_insert_ne.
Qed.

Lemma X8_witness :
  exists m' t,
    amd_vpmu_do_wrmsr MSR_K7_EVNTSEL0 0 0 sample_two_enabled = Some (1, m', t)
    /\ running m' = false
    /\ In (EvRelease PMU_OWNER_HVM) t
    /\ shadow_ctrls m' !! 1%nat = Some (Z.lor EVNTSEL_ENABLE EVNTSEL_GUEST_ONLY).
Proof.
  destruct (X8_running_is_last_enable_bit sample_two_enabled MSR_K7_EVNTSEL0 0
              eq_refl eq_refl)
    as (m' & t & E & Hr & Hrel & Hs).
  exists m', t. split; [exact E|]. split; [exact Hr|].
  split; [exact (Hrel eq_refl Hr)|].
  now rewrite (Hs 0%nat eq_refl 1%nat ltac:(discriminate)).
Defined.

(** ** Switching a context out and in again *)

Lemma fold_upd_other {A} (ws : list (Z * A)) h a :
  ~ In a (map fst ws) ->
  fold_left (fun h w => upd h (fst w) (snd w)) ws h a = h a.
Proof.
  revert h. induction ws as [|[k w] ws IH]; intros h Hn; [reflexivity|].
  simpl in *. rewrite IH by tauto. apply upd_other. intros ->. tauto.
Qed.

Lemma fold_upd_nodup {A} (ws : list (Z * A)) h a v :
  NoDup (map fst ws) -> In (a, v) ws ->
  fold_left (fun h w => upd h (fst w) (snd w)) ws h a = v.
Proof.
  revert h. induction ws as [|[k w] ws IH]; intros h Hnd Hin; [destruct Hin|].
  simpl in *. apply NoDup_cons in Hnd as [Hk Hnd]. rewrite list_elem_of_In in Hk.
  destruct Hin as [E|Hin].
  - inversion E; subst. rewrite fold_upd_other by exact Hk. apply upd_same.
  - now apply IH.
Qed.

Lemma pair_writes_addrs {A} (m : machine) (f g : nat -> A) l :
  map fst (flat_map (fun i => [(counter_addr m i, f i); (ctrl_addr m i, g i)]) l)
  ≡ₚ map (ctrl_addr m) l ++ map (counter_addr m) l.
Proof.
  induction l as [|i l IH]; [reflexivity|]. simpl. rewrite IH.
  rewrite <- Permutation_middle. apply perm_swap.
Qed.



Lemma bank_addrs_in m a :
  In a (bank_addrs m)
  <-> exists i, In i (bank m) /\ (a = ctrl_addr m i \/ a = counter_addr m i).
Proof.
  unfold bank_addrs. rewrite in_app_iff, !in_map_iff. split.
  - intros [(i & <- & Hi)|(i & <- & Hi)]; eauto.
  - intros (i & Hi & [-> | ->]); eauto.
Qed.



Lemma resolved_distinct m : resolved (glob m) -> NoDup (bank_addrs m).
Proof.
  unfold bank_addrs, bank, ctrl_addr, counter_addr.
  intros [-> | ->]; refine (bool_decide_unpack _ _); vm_compute; exact I.
Qed.






(** ** The fast path and its removal *)

(** X11: on a bank without repeated addresses,
    [amd_vpmu_set_msr_bitmap] lets every counter register through
    untrapped and keeps trapping writes (only) to every control register,
    and records the fast path as on; [amd_vpmu_unset_msr_bitmap] after it
    puts every register of the bank back under full trapping and records
    the fast path as off.  Both make two intercept calls per index and no
    other external call, and neither touches an intercept outside the
    bank, a hardware register, a flag, the context or the token. *)
Theorem X11_fast_path_set_then_unset (m : machine) :
  layout_ok (glob m) = true -> NoDup (bank_addrs m) ->
  exists m1 t1 m2 t2,
    amd_vpmu_set_msr_bitmap m = Some (tt, m1, t1)
    /\ amd_vpmu_unset_msr_bitmap m1 = Some (tt, m2, t2)
    /\ bitmap_on m1 = true /\ bitmap_on m2 = false
    /\ (forall i, In i (bank m) ->
          intercepts m1 (counter_addr m i) = MSR_INTERCEPT_NONE
          /\ intercepts m1 (ctrl_addr m i) = MSR_INTERCEPT_WRITE
          /\ intercepts m2 (counter_addr m i) = MSR_INTERCEPT_RW
          /\ intercepts m2 (ctrl_addr m i) = MSR_INTERCEPT_RW)
    /\ (forall a, ~ In a (bank_addrs m) ->
          intercepts m1 a = intercepts m a /\ intercepts m2 a = intercepts m a)
    /\ (forall e, In e (t1 ++ t2) -> exists a md, e = EvIntercept a md)
    /\ length t1 = (2 * num_counters (glob m))%nat
    /\ length t2 = (2 * num_counters (glob m))%nat
    /\ msrs m2 = msrs m /\ token m2 = token m /\ glob m2 = glob m
    /\ flags (vpmu m2) = flags (vpmu m)
    /\ context (vpmu m2) = context (vpmu m).
Proof.
  intros Hlay Hnd.
  rewrite (set_msr_bitmap_eq m Hlay).
  set (m1 := set_vpmu _ _).
  assert (Hlay1 : layout_ok (glob m1) = true) by exact Hlay.
  exists m1. eexists. do 2 eexists. split; [reflexivity|].
  split; [exact (unset_msr_bitmap_eq m1 Hlay1)|].
  assert (Hp : map fst (fast_path_intercepts m) ≡ₚ bank_addrs m)
    by apply pair_writes_addrs.
  assert (Hq : map fst (full_trap_intercepts m1) ≡ₚ bank_addrs m)
    by exact (pair_writes_addrs m _ _ _).
  assert (Hlen : forall (A : Type) (f g : nat -> Z * A) l,
            length (flat_map (fun i => [f i; g i]) l) = (2 * length l)%nat).
  { intros A f g l. induction l as [|i l IH]; simpl; [reflexivity|].
    rewrite IH. lia. }
  split; [reflexivity|]. split; [reflexivity|].
  cbn [intercepts set_vpmu set_intercepts].
  split; [|split; [|split; [|split; [|split]]]].
  - intros i Hi. split_and!.
    + apply fold_upd_nodup; [now rewrite Hp|].
      apply in_flat_map. exists i. simpl. auto.
    + apply fold_upd_nodup; [now rewrite Hp|].
      apply in_flat_map. exists i. simpl. auto.
    + apply fold_upd_nodup; [now rewrite Hq|].
      apply in_flat_map. exists i. simpl. auto.
    + apply fold_upd_nodup; [now rewrite Hq|].
      apply in_flat_map. exists i. simpl. auto.
  - intros a Ha.
    assert (E : apply_intercepts (fast_path_intercepts m) (intercepts m) a
                = intercepts m a)
      by (apply fold_upd_other; now rewrite Hp).
    split; [exact E|]. rewrite <- E.
    apply fold_upd_other. now rewrite Hq.
  - intros e [He|He]%in_app_iff; unfold intercept_events in He;
      apply in_map_iff in He as ([a md] & <- & _); eauto.
  - unfold intercept_events, fast_path_intercepts, bank.
    now rewrite length_map, Hlen, length_seq.
  - unfold intercept_events, full_trap_intercepts, bank.
    now rewrite length_map, Hlen, length_seq.
  - now repeat split.
Qed.

Lemma X11_witness :
  exists m1 t1 m2 t2,
    amd_vpmu_set_msr_bitmap sample_f15h_loaded = Some (tt, m1, t1)
    /\ amd_vpmu_unset_msr_bitmap m1 = Some (tt, m2, t2)
    /\ intercepts m1 MSR_AMD_FAM15H_PERFCTR5 = MSR_INTERCEPT_NONE
    /\ intercepts m1 MSR_AMD_FAM15H_EVNTSEL5 = MSR_INTERCEPT_WRITE
    /\ intercepts m2 MSR_AMD_FAM15H_PERFCTR5 = MSR_INTERCEPT_RW
    /\ intercepts m2 MSR_AMD_FAM15H_EVNTSEL5 = MSR_INTERCEPT_RW.
Proof.
  destruct (X11_fast_path_set_then_unset sample_f15h_loaded eq_refl
              (resolved_distinct sample_f15h_loaded (or_intror eq_refl)))
    as (m1 & t1 & m2 & t2 & E1 & E2 & _ & _ & H & _).
  exists m1, t1, m2, t2. split; [exact E1|]. split; [exact E2|].
  exact (H 5%nat ltac:(simpl; tauto)).
Defined.

(** ** Reading a context that is not on the hardware *)



